(** * Streamora backend: content resolution, adapter caches, aggregated search

    A shallow embedding of
      - [services/radioBrowserService.js] (station filters, NodeCache-backed
        listing operations, rate limiter),
      - [services/tmdbService.js] ([getCachedOrFetch] and the cached search),
      - [routes/content.js], handler [GET /:type/:id],
      - [routes/search.js], handler [GET /],
    with the properties of the specification stated over it.

    JavaScript numbers that are counts or timestamps are [Z]; ratings,
    popularity and comparator results are [Q] (every finite double is a
    rational, and the sign of a difference of two doubles is the sign of the
    exact difference); a missing, [null], [undefined] or [NaN] field is
    [None]; strings are strings of 8-bit characters.  Asynchronous calls to
    collaborators (HTTP, MongoDB) are modelled by the reply the collaborator
    gives, passed in as an argument, and by an entry in a call log kept in
    the state. *)

From Stdlib Require Import ZArith QArith String Ascii List Lia Lqa Bool.
From Stdlib Require Import Sorting.Sorted Sorting.Permutation.
From Stdlib Require Import DecimalString DecimalZ Decimal OrderedTypeEx.
From stdpp Require Import base option gmap strings.
Import ListNotations.

Open Scope string_scope.
Open Scope list_scope.
Open Scope Z_scope.

(** ** A state and exception monad

    [async] functions that [throw] are computations from a state to an
    outcome and a new state: the state persists when the function throws. *)

Module Eff.

Inductive outcome (E A : Type) : Type :=
| Ok (a : A)
| Throw (e : E).
Arguments Ok {E A} a.
Arguments Throw {E A} e.

Definition M (S E A : Type) : Type := S -> outcome E A * S.

Definition ret {S E A} (a : A) : M S E A := fun s => (Ok a, s).

Definition throw {S E A} (e : E) : M S E A := fun s => (Throw e, s).

Definition bind {S E A B} (m : M S E A) (k : A -> M S E B) : M S E B :=
  fun s => match m s with
           | (Ok a, s') => k a s'
           | (Throw e, s') => (Throw e, s')
           end.

(** [try { m } catch (e) { h e }] *)
Definition try_catch {S E A} (m : M S E A) (h : E -> M S E A) : M S E A :=
  fun s => match m s with
           | (Ok a, s') => (Ok a, s')
           | (Throw e, s') => h e s'
           end.

Definition get {S E} : M S E S := fun s => (Ok s, s).
Definition modify {S E} (f : S -> S) : M S E unit := fun s => (Ok tt, f s).

(** [throws m s]: the computation [m] started in [s] throws. *)
Definition throws {S E A} (m : Eff.M S E A) (s : S) : Prop :=
  exists e, fst (m s) = Throw e.

End Eff.

Export Eff.

Declare Scope eff_scope.
Delimit Scope eff_scope with eff.
Notation "x <- m ;; k" := (Eff.bind m (fun x => k))
  (at level 100, m at next level, right associativity) : eff_scope.
Notation "m ;;; k" := (Eff.bind m (fun _ => k))
  (at level 100, right associativity) : eff_scope.

(** ** JavaScript built-ins used by the code *)

Module Js.

(** Truthiness of a string value: [undefined], [null] and [''] are falsy. *)
Definition truthy_str (s : option string) : bool :=
  match s with
  | None => false
  | Some EmptyString => false
  | Some _ => true
  end.

(** White space removed by [String.prototype.trim], here the white space
    and line terminators of the ASCII range: TAB, LF, VT, FF, CR, SP. *)
Definition is_space (c : ascii) : bool :=
  let n := N_of_ascii c in
  ((9 <=? n) && (n <=? 13))%N || (n =? 32)%N.

Fixpoint trim_start (s : string) : string :=
  match s with
  | EmptyString => EmptyString
  | String c t => if is_space c then trim_start t else s
  end.

Fixpoint rev_string (acc s : string) : string :=
  match s with
  | EmptyString => acc
  | String c t => rev_string (String c acc) t
  end.

Definition trim (s : string) : string :=
  rev_string "" (trim_start (rev_string "" (trim_start s))).

Fixpoint starts_with (p s : string) : bool :=
  match p, s with
  | EmptyString, _ => true
  | String a p', String b s' => Ascii.eqb a b && starts_with p' s'
  | String _ _, EmptyString => false
  end.

(** [s.includes(p)] *)
Fixpoint includes (p s : string) : bool :=
  starts_with p s ||
  match s with
  | EmptyString => false
  | String _ t => includes p t
  end.

(** [Array.prototype.slice(0, n)] for an integer [n]: a negative end counts
    from the end of the array. *)
Definition slice0 {A} (n : Z) (l : list A) : list A :=
  if n <? 0 then firstn (Z.to_nat (Z.of_nat (List.length l) + n)) l
  else firstn (Z.to_nat n) l.

(** [String.prototype.toLowerCase] on the letters of the ASCII range. *)
Definition lower_ascii (c : ascii) : ascii :=
  let n := N_of_ascii c in
  if ((65 <=? n) && (n <=? 90))%N then ascii_of_N (n + 32) else c.

Fixpoint toLowerCase (s : string) : string :=
  match s with
  | EmptyString => EmptyString
  | String c t => String (lower_ascii c) (toLowerCase t)
  end.

(** [String.prototype.toUpperCase] on the letters of the ASCII range. *)
Definition upper_ascii (c : ascii) : ascii :=
  let n := N_of_ascii c in
  if ((97 <=? n) && (n <=? 122))%N then ascii_of_N (n - 32) else c.

Fixpoint toUpperCase (s : string) : string :=
  match s with
  | EmptyString => EmptyString
  | String c t => String (upper_ascii c) (toUpperCase t)
  end.

(** [a === b] on values that may be missing. *)
Definition option_eqb {A} (eqb : A -> A -> bool) (a b : option A) : bool :=
  match a, b with
  | Some x, Some y => eqb x y
  | None, None => true
  | _, _ => false
  end.

(** The text of an integer in a template literal. *)
Definition show (n : Z) : string := NilZero.string_of_int (Z.to_int n).

(** [parseInt(s)] without a radix: leading white space, a sign, [0x] for
    radix 16, then the longest run of digits; [None] is [NaN]. *)
Definition digit_val (radix : Z) (c : ascii) : option Z :=
  let n := Z.of_N (N_of_ascii c) in
  let d := if (48 <=? n) && (n <=? 57) then Some (n - 48)
           else if (97 <=? n) && (n <=? 122) then Some (n - 87)
           else if (65 <=? n) && (n <=? 90) then Some (n - 55)
           else None in
  match d with
  | Some k => if k <? radix then Some k else None
  | None => None
  end.

Fixpoint parse_digits (radix : Z) (acc : option Z) (s : string) : option Z :=
  match s with
  | String c t =>
      match digit_val radix c with
      | Some d =>
          parse_digits radix
            (Some (match acc with Some a => a * radix + d | None => d end)) t
      | None => acc
      end
  | EmptyString => acc
  end.

Definition parseInt (s : string) : option Z :=
  let s1 := trim_start s in
  let '(sign, s2) :=
    match s1 with
    | String "-" t => (-1, t)
    | String "+" t => (1, t)
    | _ => (1, s1)
    end in
  let '(radix, s3) :=
    match s2 with
    | String "0" (String "x" t) => (16, t)
    | String "0" (String "X" t) => (16, t)
    | _ => (10, s2)
    end in
  option_map (Z.mul sign) (parse_digits radix None s3).

(** [Array.prototype.sort(cmp)].  The sort is stable (ECMAScript 2019), and
    for a consistent comparator every stable sort gives the same array; it
    is computed here by insertion, [cmp x y <= 0] keeping [x] before [y]. *)
Fixpoint insert_by {A} (cmp : A -> A -> Q) (x : A) (l : list A) : list A :=
  match l with
  | [] => [x]
  | y :: t => if Qle_bool (cmp x y) 0 then x :: y :: t
              else y :: insert_by cmp x t
  end.

Definition sort {A} (cmp : A -> A -> Q) (l : list A) : list A :=
  fold_right (insert_by cmp) [] l.

End Js.

(** ** Data model *)

(** Exceptions: a plain [Error], the routes' [AppError] with its HTTP status,
    and the error of a failed [axios] call. *)
Inductive Exn :=
| Error (message : string)
| AppError (message : string) (statusCode : Z)
| AxiosError (code : option string) (message : string)
             (status : option Z) (status_message : option string).

Definition message_of (e : Exn) : string :=
  match e with
  | Error m => m
  | AppError m _ => m
  | AxiosError _ m _ _ => m
  end.

Module RadioData.

(** A station as the Radio Browser API returns it. *)
Record Station := mkStation {
  stationuuid : string;
  name : string;
  url_resolved : option string;
  bitrate : option Z
}.

Inductive Quality := high | medium | low.

(** [{ ...station, quality, streamUrl }] *)
Record QStation := mkQStation {
  station : Station;
  quality : Quality;
  streamUrl : option string
}.

Record Country := mkCountry { country_name : string; country_count : Z }.
Record Tag := mkTag { tag_name : string; stationcount : Z }.

(** What the service stores in its cache. *)
Inductive Value :=
| VStations (l : list QStation)
| VStation (s : QStation)
| VCountries (l : list Country)
| VGenres (l : list Tag).

(** An entry of NodeCache: the value and the time [t] at which it expires
    ([0]: never). *)
Record Entry := mkEntry { v : Value; t : Z }.

Record rateLimiter := mkRateLimiter {
  requests : Z;
  lastReset : Z
}.

Inductive Filter :=
| no_filter
| by_countrycode (code : string)
| by_tag (genre : string).

End RadioData.

Module TmdbData.

(** One result of [/search/multi] (and of the other list endpoints). *)
Record Item := mkItem {
  id : Z;
  title : option string;
  name : option string;
  poster_path : option string;
  backdrop_path : option string;
  media_type : option string;
  vote_average : option Q;
  release_date : option string;
  first_air_date : option string;
  overview : option string;
  popularity : option Q
}.

Record Page := mkPage {
  results : list Item;
  total_results : option Z
}.

(** [{ data, timestamp }] in [TMDBService.cache]. *)
Record Entry := mkEntry { data : Page; timestamp : Z }.

Record Video := mkVideo {
  key : string;
  video_name : string;
  site : string;
  video_type : string
}.

(** The reply of [/movie/:id] and [/tv/:id] ([det_title] is [title] for a
    movie and [name] for a show, [det_date] is [release_date] or
    [first_air_date]); the fields the content route does not read are left
    out. *)
Record Details := mkDetails {
  det_id : Z;
  det_title : option string;
  det_date : option string;
  det_vote_average : option Q;
  det_popularity : option Q;
  original_language : option string;
  det_poster_path : option string;
  videos : option (list Video)
}.

End TmdbData.

Module Store.

Record Trailer := mkTrailer {
  key : string;
  name : string;
  site : string;
  type : string;
  official : option bool;
  publishedAt : option string
}.

(** The fields of a content object that the content route reads or writes. *)
Record Content := mkContent {
  tmdbId : string;
  title : option string;
  ctype : string;
  releaseDate : option string;
  voteAverage : option Q;
  popularity : option Q;
  language : option string;
  original_language : option string;
  poster_url : option string;
  trailers : list Trailer
}.

(** A document of the [Content] collection: the fields and what the schema
    adds. *)
Record Doc := mkDoc {
  fields : Content;
  views : Z;
  lastUpdated : Z;
  cacheExpiry : Z
}.

Record WatchEntry := mkWatchEntry {
  contentId : string;
  contentType : string;
  w_title : option string;
  w_poster : option string
}.

Record User := mkUser {
  uid : string;
  watchHistory : list WatchEntry
}.

(** A document of the [RadioStation] collection. *)
Record RadioDoc := mkRadioDoc {
  _id : string;
  r_name : option string;
  logo : option string;
  genre : list string;
  listeners : option Q;
  country : option string;
  description : option string
}.

(** A result of the YouTube search. *)
Record YtItem := mkYtItem {
  videoId : string;
  snippet_title : string;
  snippet_publishedAt : option string
}.

End Store.

(** Calls to the collaborators: the Radio Browser client, the TMDB and YouTube
    HTTP APIs, and MongoDB through the models. *)
Inductive Call :=
| radio_getStations (f : RadioData.Filter) (limit : Z)
| radio_searchStations (query : string) (limit : Z)
| radio_stationByUuid (uuid : string)
| radio_getStationByUuid (uuid : string)
| radio_clickStation (uuid : string)
| radio_getCountries
| radio_getTags
| radio_getServerStats
| tmdb_request (endpoint : string)
| youtube_search (title : option string)
| Content_findOne (tmdbId type : string)
| Content_findOneAndUpdate (tmdbId type : string)
| Content_save (tmdbId : string)
| RadioStation_find (query : string) (genre : option string)
                    (limit skip : option Z)
| RadioStation_countDocuments (query : string) (genre : option string)
| User_save (uid : string).

(** The state of the server process and of its database. *)
Record World := mkWorld {
  now : Z;                                   (* [Date.now()] *)
  calls : list Call;
  radio_cache : gmap string RadioData.Entry; (* radioBrowserService [cache] *)
  limiter : RadioData.rateLimiter;
  tmdb_cache : gmap string TmdbData.Entry;   (* TMDBService [this.cache] *)
  apiKey : option string;                    (* [process.env.TMDB_API_KEY] *)
  contents : list Store.Doc;                 (* the [Content] collection *)
  users : list Store.User                    (* the [User] collection *)
}.

Definition set_radio_cache
    (f : gmap string RadioData.Entry -> gmap string RadioData.Entry)
    (w : World) : World :=
  mkWorld (now w) (calls w) (f (radio_cache w)) (limiter w) (tmdb_cache w)
          (apiKey w) (contents w) (users w).

Definition set_limiter (rl : RadioData.rateLimiter) (w : World) : World :=
  mkWorld (now w) (calls w) (radio_cache w) rl (tmdb_cache w)
          (apiKey w) (contents w) (users w).

Definition set_tmdb_cache
    (f : gmap string TmdbData.Entry -> gmap string TmdbData.Entry)
    (w : World) : World :=
  mkWorld (now w) (calls w) (radio_cache w) (limiter w) (f (tmdb_cache w))
          (apiKey w) (contents w) (users w).

Definition set_contents (f : list Store.Doc -> list Store.Doc) (w : World)
  : World :=
  mkWorld (now w) (calls w) (radio_cache w) (limiter w) (tmdb_cache w)
          (apiKey w) (f (contents w)) (users w).

Definition set_users (f : list Store.User -> list Store.User) (w : World)
  : World :=
  mkWorld (now w) (calls w) (radio_cache w) (limiter w) (tmdb_cache w)
          (apiKey w) (contents w) (f (users w)).

Definition M := Eff.M World Exn.

(** The reply of a collaborator to one call: the time the call took and its
    result. *)
Record Reply (A : Type) := mkReply {
  elapsed : Z;
  result : Eff.outcome Exn A
}.
Arguments mkReply {A}.
Arguments elapsed {A}.
Arguments result {A}.

(** [await call]: the call is logged, time passes, the reply is delivered. *)
Definition await {A} (c : Call) (r : Reply A) : M A :=
  fun w => (result r,
            mkWorld (now w + elapsed r) (calls w ++ [c]) (radio_cache w)
                    (limiter w) (tmdb_cache w) (apiKey w) (contents w)
                    (users w)).

(** ** services/radioBrowserService.js *)

Module Radio.

Import RadioData.
Local Open Scope eff_scope.

(** *** NodeCache, [new NodeCache({ stdTTL: 300 })]

    The [node-cache] package keeps with each value the time at which it
    expires, [Date.now() + ttl * 1000], and [get] deletes an expired entry
    and answers [undefined]. *)
Definition stdTTL : Z := 300.

Definition cache_get (key : string) : M (option Value) :=
  fun w => match radio_cache w !! key with
           | Some e =>
               if negb (t e =? 0) && (t e <? now w)
               then (Ok None, set_radio_cache (delete key) w)
               else (Ok (Some (v e)), w)
           | None => (Ok None, w)
           end.

Definition wrap (val : Value) (ttl : option Z) (now : Z) : Entry :=
  match ttl with
  | Some 0 => mkEntry val 0
  | Some n => mkEntry val (now + n * 1000)
  | None => mkEntry val (now + stdTTL * 1000)
  end.

Definition cache_set (key : string) (val : Value) (ttl : option Z) : M unit :=
  fun w => (Ok tt, set_radio_cache (insert key (wrap val ttl (now w))) w).

(** *** The rate limiter *)
Definition maxRequests : Z := 100.
Definition resetInterval : Z := 60000.

Definition checkRateLimit : M unit :=
  fun w =>
    let rl := limiter w in
    let rl1 := if resetInterval <? now w - lastReset rl
               then mkRateLimiter 0 (now w) else rl in
    if maxRequests <=? requests rl1
    then (Throw (Error "Rate limit exceeded. Please try again later."),
          set_limiter rl1 w)
    else (Ok tt,
          set_limiter (mkRateLimiter (requests rl1 + 1) (lastReset rl1)) w).

(** *** The service

    [filterValidStations] *)
Definition valid_url (s : Station) : bool :=
  match url_resolved s with
  | Some u =>
      Js.truthy_str (Some u)
      && negb (String.eqb (Js.trim u) "")
      && negb (String.eqb u "null")
      && negb (Js.includes "null" u)
  | None => false
  end.

Definition filterValidStations (stations : list Station) : list Station :=
  List.filter valid_url stations.

(** [station.bitrate > n]; the comparison is false on a missing bitrate. *)
Definition bitrate_gt (s : Station) (n : Z) : bool :=
  match bitrate s with
  | Some b => n <? b
  | None => false
  end.

Definition quality_of (s : Station) : Quality :=
  if bitrate_gt s 128 then high
  else if bitrate_gt s 64 then medium else low.

(** [addStreamQuality] *)
Definition addStreamQuality (stations : list Station) : list QStation :=
  List.map (fun s => mkQStation s (quality_of s) (url_resolved s)) stations.

(** The body shared by [getPopularStations], [getStationsByCountry],
    [getStationsByGenre] and [searchStations]: they differ in the cache key,
    in the call made and in the message of the error thrown. *)
Definition cachedListing (cacheKey : string) (c : Call) (limit : Z)
    (r : Reply (list Station)) (failure : string) : M Value :=
  Eff.try_catch
    (checkRateLimit ;;;
     cached <- cache_get cacheKey ;;
     match cached with
     | Some val => Eff.ret val
     | None =>
         stations <- await c r ;;
         let validStations := filterValidStations stations in
         let qualityStations :=
           addStreamQuality (Js.slice0 limit validStations) in
         cache_set cacheKey (VStations qualityStations) None ;;;
         Eff.ret (VStations qualityStations)
     end)
    (fun _ => Eff.throw (Error failure)).

Definition getPopularStations (limit : Z) (r : Reply (list Station))
  : M Value :=
  cachedListing ("popular_stations_" +:+ Js.show limit)
    (radio_getStations no_filter (limit * 2)) limit r
    "Failed to fetch popular radio stations".

Definition getStationsByCountry (country : string) (limit : Z)
    (r : Reply (list Station)) : M Value :=
  cachedListing ("country_stations_" +:+ country +:+ "_" +:+ Js.show limit)
    (radio_getStations (by_countrycode (Js.toUpperCase country)) (limit * 2))
    limit r ("Failed to fetch radio stations for " +:+ country).

Definition getStationsByGenre (genre : string) (limit : Z)
    (r : Reply (list Station)) : M Value :=
  cachedListing ("genre_stations_" +:+ genre +:+ "_" +:+ Js.show limit)
    (radio_getStations (by_tag genre) (limit * 2))
    limit r ("Failed to fetch radio stations for genre " +:+ genre).

Definition searchStations (query : string) (limit : Z)
    (r : Reply (list Station)) : M Value :=
  cachedListing ("search_stations_" +:+ query +:+ "_" +:+ Js.show limit)
    (radio_searchStations query (limit * 2))
    limit r ("Failed to search radio stations for " +:+ query).

Definition getStationDetails (stationId : string)
    (r : Reply (list Station)) : M Value :=
  let cacheKey := "station_details_" +:+ stationId in
  Eff.try_catch
    (checkRateLimit ;;;
     cached <- cache_get cacheKey ;;
     match cached with
     | Some val => Eff.ret val
     | None =>
         stations <- await (radio_stationByUuid stationId) r ;;
         match stations with
         | [] => Eff.throw (Error "Station not found")
         | station :: _ =>
             if negb (Js.truthy_str (url_resolved station))
                || Js.option_eqb String.eqb (url_resolved station)
                                 (Some "null")
             then Eff.throw (Error "Station has invalid stream URL")
             else
               let stationWithQuality :=
                 mkQStation station (quality_of station)
                            (url_resolved station) in
               cache_set cacheKey (VStation stationWithQuality) None ;;;
               Eff.ret (VStation stationWithQuality)
         end
     end)
    (fun _ =>
       Eff.throw (Error ("Failed to fetch station details for " +:+ stationId))).

(** [{ streamUrl, quality, bitrate }] *)
Record StreamInfo := mkStreamInfo {
  si_streamUrl : option string;
  si_quality : option Quality;
  si_bitrate : option Z
}.

Definition getStreamUrl (stationId : string)
    (r : Reply (list Station)) : M StreamInfo :=
  Eff.try_catch
    (val <- getStationDetails stationId r ;;
     match val with
     | VStation q =>
         Eff.ret (mkStreamInfo (url_resolved (station q)) (Some (quality q))
                               (bitrate (station q)))
     | _ => Eff.ret (mkStreamInfo None None None)
     end)
    (fun _ =>
       Eff.throw
         (Error ("Failed to get stream URL for station " +:+ stationId))).

(** [clickStation] never throws: [{ success: false, error }] on failure. *)
Definition clickStation (stationId : string) (r : Reply unit)
  : M (Eff.outcome string unit) :=
  Eff.try_catch
    (checkRateLimit ;;;
     await (radio_clickStation stationId) r ;;;
     Eff.ret (Ok tt))
    (fun e => Eff.ret (Throw (message_of e))).

Definition getCountries (r : Reply (list Country)) : M Value :=
  Eff.try_catch
    (checkRateLimit ;;;
     cached <- cache_get "countries" ;;
     match cached with
     | Some val => Eff.ret val
     | None =>
         countries <- await radio_getCountries r ;;
         cache_set "countries" (VCountries countries) (Some 3600) ;;;
         Eff.ret (VCountries countries)
     end)
    (fun _ => Eff.throw (Error "Failed to fetch available countries")).

Definition getGenres (r : Reply (list Tag)) : M Value :=
  Eff.try_catch
    (checkRateLimit ;;;
     cached <- cache_get "genres" ;;
     match cached with
     | Some val => Eff.ret val
     | None =>
         tags <- await radio_getTags r ;;
         let popularGenres :=
           firstn 50
             (Js.sort (fun a b => inject_Z (stationcount b - stationcount a))
                (List.filter (fun tag => 10 <? stationcount tag) tags)) in
         cache_set "genres" (VGenres popularGenres) (Some 3600) ;;;
         Eff.ret (VGenres popularGenres)
     end)
    (fun _ => Eff.throw (Error "Failed to fetch available genres")).

Record Health := mkHealth {
  healthy : bool;
  cacheKeys : Z;
  rateLimitRemaining : Z
}.

Definition healthCheck (r : Reply unit) : M Health :=
  fun w =>
    let '(o, w') := await radio_getServerStats r w in
    (Ok (mkHealth (match o with Ok _ => true | Throw _ => false end)
                  (Z.of_nat (size (radio_cache w')))
                  (maxRequests - requests (limiter w'))), w').

Definition clearCache : M unit :=
  fun w => (Ok tt, set_radio_cache (fun _ => ∅) w).

(** One step of the server as the service's cache sees it: a call of one of
    the service's methods with some reply of the API, NodeCache's periodic
    deletion of an expired key, or anything else the process does (the
    cache is private to the module). *)
Inductive step : World -> World -> Prop :=
| step_popular limit r w : step w (snd (getPopularStations limit r w))
| step_country country limit r w :
    step w (snd (getStationsByCountry country limit r w))
| step_genre genre limit r w : step w (snd (getStationsByGenre genre limit r w))
| step_search query limit r w : step w (snd (searchStations query limit r w))
| step_details id r w : step w (snd (getStationDetails id r w))
| step_streamUrl id r w : step w (snd (getStreamUrl id r w))
| step_click id r w : step w (snd (clickStation id r w))
| step_countries r w : step w (snd (getCountries r w))
| step_genres r w : step w (snd (getGenres r w))
| step_health r w : step w (snd (healthCheck r w))
| step_clear w : step w (snd (clearCache w))
| step_expire key e w :
    radio_cache w !! key = Some e -> t e <> 0 -> t e < now w ->
    step w (set_radio_cache (delete key) w)
| step_other w w' : radio_cache w' = radio_cache w -> step w w'.

(** The states the server can be in: the cache is empty when the module is
    loaded. *)
Inductive reachable : World -> Prop :=
| reachable_loaded w : radio_cache w = ∅ -> reachable w
| reachable_step w w' : reachable w -> step w w' -> reachable w'.

End Radio.

(** ** services/tmdbService.js *)

Module Tmdb.

Import TmdbData.
Local Open Scope eff_scope.

Definition imageBaseURL : string := "https://image.tmdb.org/t/p".
Definition cacheTimeout : Z := 5 * 60 * 1000.

(** [getCachedOrFetch(cacheKey, fetchFunction)] *)
Definition getCachedOrFetch (cacheKey : string) (fetchFunction : M Page)
  : M Page :=
  w <- Eff.get ;;
  let cached := tmdb_cache w !! cacheKey in
  let refresh :=
    Eff.try_catch
      (data <- fetchFunction ;;
       w' <- Eff.get ;;
       Eff.modify (set_tmdb_cache (insert cacheKey (mkEntry data (now w')))) ;;;
       Eff.ret data)
      (fun error =>
         match cached with
         | Some c => Eff.ret (data c)
         | None => Eff.throw error
         end) in
  match cached with
  | Some c =>
      if now w - timestamp c <? cacheTimeout then Eff.ret (data c) else refresh
  | None => refresh
  end.

(** The error [makeRequest] throws for what went wrong in its [try]. *)
Definition classify (error : Exn) : Exn :=
  let '(code, message, status, status_message) :=
    match error with
    | AxiosError c m s sm => (c, m, s, sm)
    | Error m | AppError m _ => (None, m, None, None)
    end in
  if Js.option_eqb String.eqb code (Some "ECONNABORTED")
     || Js.includes "timeout" message
  then Error "TMDB API timeout - please try again later"
  else if Js.option_eqb Z.eqb status (Some 429)
  then Error "TMDB API rate limit exceeded - please try again later"
  else match status with
       | Some st =>
           if 400 <=? st
           then Error ("TMDB API error: " +:+ Js.show st +:+ " - " +:+
                       (if Js.truthy_str status_message
                        then default "" status_message else message))
           else Error ("TMDB API request failed: " +:+ message)
       | None => Error ("TMDB API request failed: " +:+ message)
       end.

(** [makeRequest(endpoint, 'GET', params)]: the call is made only when an API
    key is configured. *)
Definition makeRequest {A} (endpoint : string) (r : Reply A) : M A :=
  Eff.try_catch
    (w <- Eff.get ;;
     if Js.truthy_str (apiKey w)
     then await (tmdb_request endpoint) r
     else Eff.throw (Error "TMDB API key not configured"))
    (fun error => Eff.throw (classify error)).

(** [getImageURL(path, size)] *)
Definition getImageURL (path : option string) (size : string) : option string :=
  if Js.truthy_str path
  then Some (imageBaseURL +:+ "/" +:+ size +:+ default "" path)
  else None.

(** [search(query, page)]; [page] is the text of the page in the key. *)
Definition search (query page : string) (r : Reply Page) : M Page :=
  getCachedOrFetch ("search_" +:+ query +:+ "_" +:+ page +:+ "_false")
    (makeRequest "/search/multi" r).

(** [getMovieDetails] and [getTVShowDetails] are not cached. *)
Definition getMovieDetails (movieId : string) (r : Reply Details) : M Details :=
  makeRequest ("/movie/" +:+ movieId) r.

Definition getTVShowDetails (tvId : string) (r : Reply Details) : M Details :=
  makeRequest ("/tv/" +:+ tvId) r.

Definition is_youtube_trailer (video : Video) : bool :=
  String.eqb (video_type video) "Trailer" && String.eqb (site video) "YouTube".

Definition trailer_of (video : Video) : Store.Trailer :=
  Store.mkTrailer (key video) (video_name video) (site video)
                  (video_type video) None None.

(** [transformMovieData] and [transformTVData], on the fields kept in
    [Store.Content]; [tmdbId] is [id.toString()]. *)
Definition transformData (type : string) (d : Details) : Store.Content :=
  Store.mkContent
    (Js.show (det_id d)) (det_title d) type
    (if Js.truthy_str (det_date d) then det_date d else None)
    (det_vote_average d) (det_popularity d)
    (original_language d) None
    (getImageURL (det_poster_path d) "w500")
    (List.map trailer_of
       (List.filter is_youtube_trailer (default [] (videos d)))).

Definition transformMovieData : Details -> Store.Content := transformData "movie".
Definition transformTVData : Details -> Store.Content := transformData "tv".

End Tmdb.

(** ** models/Content.js and models/User.js *)

Module Models.

Import Store.
Local Open Scope eff_scope.

Definition matches (id type : string) (d : Doc) : bool :=
  String.eqb (tmdbId (fields d)) id && String.eqb (ctype (fields d)) type.

(** [Content.findOne({ tmdbId: id, type })] *)
Definition findOne (id type : string) (r : Reply unit) : M (option Doc) :=
  await (Content_findOne id type) r ;;;
  w <- Eff.get ;;
  Eff.ret (List.find (matches id type) (contents w)).

(** [contentSchema.methods.needsUpdate], at the time [now]. *)
Definition needsUpdate (d : Doc) (now : Z) : bool := cacheExpiry d <? now.

Fixpoint replace_doc (d : Doc) (l : list Doc) : list Doc :=
  match l with
  | [] => []
  | x :: t =>
      if matches (tmdbId (fields d)) (ctype (fields d)) x
      then d :: t else x :: replace_doc d t
  end.

(** [contentSchema.methods.incrementViews]: the document in memory is changed
    before [save] is awaited. *)
Definition incrementViews (d : Doc) (r : Reply unit) : Doc * M unit :=
  let d' := mkDoc (fields d) (views d + 1) (lastUpdated d) (cacheExpiry d) in
  (d', await (Content_save (tmdbId (fields d))) r ;;;
       Eff.modify (set_contents (replace_doc d'))).

(** [Content.findOneAndUpdate(filter, update, { upsert: true, new: true,
    setDefaultsOnInsert: true })]: the fields of [update] are set on the
    document found, or a document is inserted with the schema's defaults
    ([cacheExpiry] a day ahead).  [update] carries no [language]. *)
Definition day : Z := 24 * 60 * 60 * 1000.

Definition set_fields (update : Content) (old : Content) : Content :=
  mkContent (tmdbId update) (title update) (ctype update) (releaseDate update)
            (voteAverage update) (popularity update) (language old)
            (original_language update) (poster_url update) (trailers update).

Definition findOneAndUpdate (id type : string) (update : Content)
    (r : Reply unit) : M unit :=
  await (Content_findOneAndUpdate id type) r ;;;
  w <- Eff.get ;;
  match List.find (matches id type) (contents w) with
  | Some d =>
      Eff.modify
        (set_contents
           (replace_doc (mkDoc (set_fields update (fields d)) (views d)
                               (lastUpdated d) (cacheExpiry d))))
  | None =>
      Eff.modify
        (set_contents
           (fun l => l ++ [mkDoc (set_fields update update) 0 (now w)
                                 (now w + day)]))
  end.

Fixpoint replace_user (u : User) (l : list User) : list User :=
  match l with
  | [] => []
  | x :: t => if String.eqb (uid x) (uid u) then u :: t
              else x :: replace_user u t
  end.

(** [userSchema.methods.addToWatchHistory] *)
Definition addToWatchHistory (user : User) (contentData : WatchEntry)
    (r : Reply unit) : M unit :=
  let kept :=
    List.filter
      (fun item => negb (String.eqb (contentId item) (contentId contentData)))
      (watchHistory user) in
  let added := contentData :: kept in
  let history :=
    if (100 <? Z.of_nat (List.length added)) then firstn 100 added else added in
  await (User_save (uid user)) r ;;;
  Eff.modify (set_users (replace_user (mkUser (uid user) history))).

End Models.

(** ** routes/content.js, [GET /:type/:id] *)

Module ContentRoute.

Import Store.
Local Open Scope eff_scope.

(** The value of the variable [content]: a station, a document of the
    collection (with its methods), or the plain object made by
    [transformMovieData] or [transformTVData]. *)
Inductive content :=
| station_content (q : RadioData.QStation)
| document (d : Doc)
| plain (c : Content).

(** [{ success: true, data: content }] *)
Record Response := mkResponse { success : bool; data : content }.

(** The replies of the collaborators to the calls the handler may make.
    [getStationByUuid] is called on the radio service, whose source defines no
    such method: what the call gives is taken as a reply. *)
Record Replies := mkReplies {
  station_reply : Reply (option RadioData.QStation);
  click_reply : Reply unit;
  findOne_reply : Reply unit;
  details_reply : Reply TmdbData.Details;
  trailer_reply : Reply (list YtItem);
  update_reply : Reply unit;
  views_reply : Reply unit;
  history_reply : Reply unit
}.

Definition valid_type (type : string) : bool :=
  existsb (String.eqb type) ["movie"; "tv"; "radio"].

Definition with_trailers (c : Content) (ts : list Trailer) : Content :=
  mkContent (tmdbId c) (title c) (ctype c) (releaseDate c) (voteAverage c)
            (popularity c) (language c) (original_language c) (poster_url c) ts.

Definition youtube_trailer (trailer : YtItem) : Trailer :=
  mkTrailer (videoId trailer) (snippet_title trailer) "YouTube" "Trailer"
            (Some false) (snippet_publishedAt trailer).

(** The search for a YouTube trailer when TMDB has none; a failure leaves the
    content as it is. *)
Definition enrich (c : Content) (r : Reply (list YtItem)) : M Content :=
  Eff.try_catch
    (match trailers c with
     | [] =>
         found <- await (youtube_search (title c)) r ;;
         match found with
         | [] => Eff.ret c
         | _ => Eff.ret (with_trailers c (List.map youtube_trailer (firstn 3 found)))
         end
     | _ => Eff.ret c
     end)
    (fun _ => Eff.ret c).

Definition sanitize (c : Content) : Content :=
  let lang :=
    if existsb (Js.option_eqb String.eqb (original_language c))
               [Some "ja"; Some "zh"; Some "ko"]
    then Some "en" else original_language c in
  mkContent (tmdbId c) (title c) (ctype c) (releaseDate c) (voteAverage c)
            (popularity c) None lang (poster_url c) (trailers c).

Definition title_of (c : content) : option string :=
  match c with
  | station_content q => Some (RadioData.name (RadioData.station q))
  | document d => title (fields d)
  | plain c => title c
  end.

Definition poster_of (c : content) : option string :=
  match c with
  | station_content _ => None
  | document d => poster_url (fields d)
  | plain c => poster_url c
  end.

Definition failed (type : string) : Exn :=
  AppError ("Failed to fetch " +:+ type +:+ " details") 500.

Definition handler (type id : string) (user : option User) (rs : Replies)
  : M Response :=
  if negb (valid_type type)
  then Eff.throw (AppError "Invalid content type" 400)
  else
    Eff.try_catch
      (content <-
         (if String.eqb type "radio"
          then
            found <- await (radio_getStationByUuid id) (station_reply rs) ;;
            match found with
            | None => Eff.throw (AppError "Radio station not found" 404)
            | Some q =>
                Radio.clickStation id (click_reply rs) ;;;
                Eff.ret (station_content q)
            end
          else
            found <- Models.findOne id type (findOne_reply rs) ;;
            w <- Eff.get ;;
            let fetch :=
              tmdbData <-
                (if String.eqb type "movie"
                 then Tmdb.getMovieDetails id (details_reply rs)
                 else Tmdb.getTVShowDetails id (details_reply rs)) ;;
              let fresh :=
                if String.eqb type "movie"
                then Tmdb.transformMovieData tmdbData
                else Tmdb.transformTVData tmdbData in
              fresh <- enrich fresh (trailer_reply rs) ;;
              Models.findOneAndUpdate id type (sanitize fresh)
                                      (update_reply rs) ;;;
              Eff.ret (plain fresh) in
            content <-
              match found with
              | None => fetch
              | Some d =>
                  if Models.needsUpdate d (now w) then fetch
                  else Eff.ret (document d)
              end ;;
            match content with
            | document d =>
                let '(d', save) := Models.incrementViews d (views_reply rs) in
                save ;;; Eff.ret (document d')
            | _ => Eff.ret content
            end) ;;
       match user with
       | Some u =>
           if negb (String.eqb type "radio")
           then Models.addToWatchHistory u
                  (mkWatchEntry id type (title_of content) (poster_of content))
                  (history_reply rs)
           else Eff.ret tt
       | None => Eff.ret tt
       end ;;;
       Eff.ret (mkResponse true content))
      (fun _ => Eff.throw (failed type)).

End ContentRoute.

(** ** routes/search.js, [GET /] *)

Module SearchRoute.

Local Open Scope eff_scope.

Inductive ItemId := tmdb_id (n : Z) | object_id (s : string).

(** An entry of [results]: a movie or a show made from a TMDB result, or a
    radio station made from a document; a field the object does not have is
    [None]. *)
Record Item := mkItem {
  id : ItemId;
  title : option string;
  poster : option string;
  backdrop : option string;
  type : option string;
  rating : option Q;
  year : option Z;
  overview : option string;
  popularity : option Q;
  genre : list string;
  listeners : option Q;
  country : option string;
  description : option string
}.

(** [req.query]; a parameter that is absent is [None]. *)
Record Request := mkRequest {
  q : option string;
  q_type : option string;
  q_page : option string;
  q_limit : option string;
  q_genre : option string;
  q_year : option string;
  q_sortBy : option string
}.

(** The parameters of the query with their defaults: [type = 'all'],
    [page = 1], [limit = 20], [sortBy = 'popularity']. *)
Definition type_of (req : Request) : string := default "all" (q_type req).
Definition page_of (req : Request) : string := default "1" (q_page req).
Definition limit_of (req : Request) : string := default "20" (q_limit req).
Definition sortBy_of (req : Request) : string :=
  default "popularity" (q_sortBy req).
Definition query_of (req : Request) : string := default "" (q req).

Record Breakdown := mkBreakdown {
  movies : Z;
  tv : Z;
  radio : Z;
  total : Z
}.

Record Pagination := mkPagination {
  currentPage : option Z;
  limit : option Z;
  hasMore : bool
}.

Record Data := mkData {
  query : string;
  results : list Item;
  breakdown : Breakdown;
  pagination : Pagination
}.

(** [res.status(400).json({ success: false, message })] or
    [res.json({ success: true, data })]. *)
Record Response := mkResponse {
  status : Z;
  success : bool;
  message : option string;
  data : option Data
}.

Record Replies := mkReplies {
  tmdb_reply : Reply TmdbData.Page;
  find_reply : Reply (list Store.RadioDoc);
  count_reply : Reply Z
}.

(** [a || b] on text and [x || d] on numbers: [0] and a missing value are
    falsy. *)
Definition or_str (a b : option string) : option string :=
  if Js.truthy_str a then a else b.

Definition or_num (x : option Q) (d : Q) : Q :=
  match x with
  | Some n => if Qeq_bool n 0 then d else n
  | None => d
  end.

Definition or_year (x : option Z) (d : Q) : Q :=
  match x with
  | Some n => if n =? 0 then d else inject_Z n
  | None => d
  end.

Section Platform.

(** [new Date(s).getFullYear()], which depends on the time zone of the
    process; [None] is [NaN]. *)
Variable getFullYear : string -> option Z.

(** [a.localeCompare(b)], which depends on the collation of the platform. *)
Variable localeCompare : string -> string -> Z.

Definition transformedItem (item : TmdbData.Item) : Item :=
  let date := or_str (TmdbData.release_date item) (TmdbData.first_air_date item) in
  mkItem (tmdb_id (TmdbData.id item))
         (or_str (TmdbData.title item) (TmdbData.name item))
         (Tmdb.getImageURL (TmdbData.poster_path item) "w500")
         (Tmdb.getImageURL (TmdbData.backdrop_path item) "w1280")
         (TmdbData.media_type item)
         (TmdbData.vote_average item)
         (if Js.truthy_str date then getFullYear (default "" date) else None)
         (TmdbData.overview item)
         (TmdbData.popularity item)
         [] None None None.

Definition radioItem (station : Store.RadioDoc) : Item :=
  mkItem (object_id (Store._id station)) (Store.r_name station)
         (Store.logo station) None (Some "radio") None None None None
         (Store.genre station) (Store.listeners station)
         (Store.country station) (Store.description station).

Definition is_kind (kind : string) (item : TmdbData.Item) : bool :=
  Js.option_eqb String.eqb (TmdbData.media_type item) (Some kind).

(** The TMDB branch, run for the types [all], [movie] and [tv]: what it adds
    to [results.movies], [results.tv] and [results.total]; nothing when the
    search throws. *)
Definition tmdbBranch (type query page : string) (r : Reply TmdbData.Page)
  : M (list Item * list Item * Z) :=
  if String.eqb type "all" || String.eqb type "movie" || String.eqb type "tv"
  then
    Eff.try_catch
      (tmdbResults <- Tmdb.search query page r ;;
       let wanted kind :=
         if String.eqb type "all" || String.eqb type kind
         then List.map transformedItem
                (List.filter (is_kind kind) (TmdbData.results tmdbResults))
         else [] in
       Eff.ret (wanted "movie", wanted "tv",
                match TmdbData.total_results tmdbResults with
                | Some n => n
                | None => 0
                end))
      (fun _ => Eff.ret ([], [], 0))
  else Eff.ret ([], [], 0).

(** The radio branch, run for the types [all] and [radio]: the stations of
    the page, found with [limit] and [skip] in the collection, and the count
    of the stations that match. *)
Definition radioBranch (type query : string) (genre : option string)
    (page limit : string)
    (find : Reply (list Store.RadioDoc)) (count : Reply Z)
  : M (list Item * Z) :=
  if String.eqb type "all" || String.eqb type "radio"
  then
    let genre := if Js.truthy_str genre then genre else None in
    let skip :=
      match Js.parseInt page, Js.parseInt limit with
      | Some p, Some l => Some ((p - 1) * l)
      | _, _ => None
      end in
    radioStations <-
      await (RadioStation_find query genre (Js.parseInt limit) skip) find ;;
    radioCount <- await (RadioStation_countDocuments query genre) count ;;
    Eff.ret (List.map radioItem radioStations, radioCount)
  else Eff.ret ([], 0).

Definition year_is (y : option Z) (item : Item) : bool :=
  match year item, y with
  | Some a, Some b => a =? b
  | _, _ => false
  end.

(** The keys the comparator reads: [a.rating || 0], [a.year || 0],
    [a.title || ''] and [a.popularity || a.listeners || 0]. *)
Definition rating_key (a : Item) : Q := or_num (rating a) 0.
Definition year_key (a : Item) : Q := or_year (year a) 0.
Definition title_key (a : Item) : string := default "" (or_str (title a) None).
Definition popularity_key (a : Item) : Q :=
  or_num (popularity a) (or_num (listeners a) 0).

Definition sortFunction (sortBy : string) (a b : Item) : Q :=
  if String.eqb sortBy "rating" then rating_key b - rating_key a
  else if String.eqb sortBy "year" then year_key b - year_key a
  else if String.eqb sortBy "title"
  then inject_Z (localeCompare (title_key a) (title_key b))
  else popularity_key b - popularity_key a.

Definition valid_query (query : option string) : bool :=
  match query with
  | Some text =>
      Js.truthy_str query && negb (Z.of_nat (String.length (Js.trim text)) <? 2)
  | None => false
  end.

(** [if (year) { list = list.filter(item => item.year === parseInt(year)) }] *)
Definition yearFilter (year : option string) (l : list Item) : list Item :=
  if Js.truthy_str year
  then List.filter (year_is (Js.parseInt (default "" year))) l
  else l.

(** The filter on the year, the sorting, the merging and the response (the
    handler from [// Apply additional filters] on). *)
Definition respond (type sortBy page limit query : string)
    (year : option string) (movies0 tv0 radio : list Item) (total : Z)
  : Response :=
  let movies1 := yearFilter year movies0 in
  let tv1 := yearFilter year tv0 in
  let movies := Js.sort (sortFunction sortBy) movies1 in
  let tv := Js.sort (sortFunction sortBy) tv1 in
  let allResults :=
    if String.eqb type "all"
    then Js.sort (sortFunction sortBy) (movies ++ tv ++ radio)
    else if String.eqb type "movie" then movies
    else if String.eqb type "tv" then tv
    else if String.eqb type "radio" then radio
    else [] in
  mkResponse 200 true None
    (Some (mkData query allResults
             (mkBreakdown (Z.of_nat (List.length movies))
                          (Z.of_nat (List.length tv))
                          (Z.of_nat (List.length radio)) total)
             (mkPagination (Js.parseInt page) (Js.parseInt limit)
                (Js.option_eqb Z.eqb
                   (Some (Z.of_nat (List.length allResults)))
                   (Js.parseInt limit))))).

Definition handler (req : Request) (rs : Replies) : M Response :=
  let type := type_of req in
  let page := page_of req in
  let limit := limit_of req in
  let sortBy := sortBy_of req in
  if negb (valid_query (q req))
  then Eff.ret (mkResponse 400 false
                  (Some "Search query must be at least 2 characters long") None)
  else
    let query := query_of req in
    Eff.try_catch
      (found <- tmdbBranch type query page (tmdb_reply rs) ;;
       stations <- radioBranch type query (q_genre req) page limit
                               (find_reply rs) (count_reply rs) ;;
       Eff.ret (respond type sortBy page limit query (q_year req)
                        (fst (fst found)) (snd (fst found)) (fst stations)
                        (snd found + snd stations)))
      (fun _ => Eff.throw (AppError "Search failed" 500)).

End Platform.

End SearchRoute.

(** ** Sample data *)

Module Examples.

Definition ok {A} (a : A) : Reply A := mkReply 10 (Ok a).

Definition timed_out {A} : Reply A :=
  mkReply 30000
    (Throw (AxiosError (Some "ECONNABORTED") "timeout of 30000ms exceeded"
                       None None)).

Definition write_failed {A} : Reply A :=
  mkReply 5 (Throw (Error "connection to the database lost")).

Definition fightClub : Store.Content :=
  Store.mkContent "550" (Some "Fight Club") "movie" (Some "1999-10-15")
                  (Some (84 # 10)%Q) (Some (61 # 1)%Q) (Some "en") None
                  (Some "https://image.tmdb.org/t/p/w500/fc.jpg") [].

(** A document written at time 0, which expired at time 86400000. *)
Definition fightClubDoc : Store.Doc := Store.mkDoc fightClub 7 0 86400000.

Definition alice : Store.User := Store.mkUser "alice" [].

Definition world_at (time : Z) : World :=
  mkWorld time [] ∅ (RadioData.mkRateLimiter 0 0) ∅ (Some "0123456789abcdef")
          [fightClubDoc] [alice].

(** Two days after the document was written, and one hour after. *)
Definition staleWorld : World := world_at 172800000.
Definition freshWorld : World := world_at 3600000.

Definition fightClubDetails : TmdbData.Details :=
  TmdbData.mkDetails 550 (Some "Fight Club") (Some "1999-10-15")
                     (Some (84 # 10)%Q) (Some (61 # 1)%Q) (Some "en")
                     (Some "/fc.jpg") (Some []).

Definition station1 : RadioData.Station :=
  RadioData.mkStation "uuid-1" "Radio One" (Some "http://one.example/stream")
                      (Some 192).

Definition replies (details : Reply TmdbData.Details) (history : Reply unit)
  : ContentRoute.Replies :=
  ContentRoute.mkReplies (ok None) (ok tt) (ok tt) details (ok []) (ok tt)
                         (ok tt) history.

(** TMDB is down; TMDB is up and saving the user fails. *)
Definition tmdbDown : ContentRoute.Replies := replies timed_out (ok tt).
Definition historyDown : ContentRoute.Replies :=
  replies (ok fightClubDetails) write_failed.
Definition allUp : ContentRoute.Replies := replies (ok fightClubDetails) (ok tt).

Definition station2 : RadioData.Station :=
  RadioData.mkStation "uuid-2" "Radio Two" (Some "http://two.example/null.mp3")
                      (Some 96).

Definition station3 : RadioData.Station :=
  RadioData.mkStation "uuid-3" "Radio Three" (Some "http://three.example/live")
                      (Some 64).

(** The same state, [dt] milliseconds later. *)
Definition later (dt : Z) (w : World) : World :=
  mkWorld (now w + dt) (calls w) (radio_cache w) (limiter w) (tmdb_cache w)
          (apiKey w) (contents w) (users w).

(** The popular stations were listed, and ten minutes have passed: the entry
    of the cache has expired. *)
Definition afterListing : World :=
  later 600000
    (snd (Radio.getPopularStations 5 (ok [station1; station2; station3])
            freshWorld)).

(** A platform for the examples: years read in UTC, and a collation that
    compares the lower-case forms by code unit. *)
Definition utcYear (date : string) : option Z :=
  Js.parseInt (String.substring 0 4 date).

Definition collate (a b : string) : Z :=
  match String.compare (Js.toLowerCase a) (Js.toLowerCase b) with
  | Lt => -1
  | Eq => 0
  | Gt => 1
  end.

Definition movie (id : Z) (title : string) (rating : Q) : TmdbData.Item :=
  TmdbData.mkItem id (Some title) None None None (Some "movie") (Some rating)
                  (Some "1999-03-31") None None (Some rating).

Definition show (id : Z) (name : string) (rating : Q) : TmdbData.Item :=
  TmdbData.mkItem id None (Some name) None None (Some "tv") (Some rating)
                  None (Some "2003-06-15") None (Some rating).

(** Movies rated 3 and 9 and a show rated 5. *)
Definition threeResults : TmdbData.Page :=
  TmdbData.mkPage
    [movie 603 "The Matrix" (3 # 1); movie 604 "the matrix reloaded" (9 # 1);
     show 21 "Matrix" (5 # 1)]
    (Some 3).

(** A first page of five results, of a hundred that match. *)
Definition fiveResults : TmdbData.Page :=
  TmdbData.mkPage
    [movie 603 "The Matrix" (8 # 1); movie 604 "The Matrix Reloaded" (7 # 1);
     movie 605 "The Matrix Revolutions" (6 # 1); show 21 "Matrix" (5 # 1);
     show 22 "Threat Matrix" (4 # 1)]
    (Some 100).

(** The search was made, and ten minutes have passed: the entry of the cache
    of the TMDB service is stale. *)
Definition afterSearch : World :=
  later 600000 (snd (Tmdb.search "matrix" "1" (ok fiveResults) freshWorld)).

Definition radioMatrix : Store.RadioDoc :=
  Store.mkRadioDoc "64b0c0ffee" (Some "Matrix FM") None ["electro"]
                   (Some (1200 # 1)%Q) (Some "DE") None.

Definition search_for (type limit sortBy : option string) : SearchRoute.Request :=
  SearchRoute.mkRequest (Some "matrix") type None limit None None sortBy.

Definition searchReplies (tmdb : Reply TmdbData.Page)
    (find : Reply (list Store.RadioDoc)) : SearchRoute.Replies :=
  SearchRoute.mkReplies tmdb find (ok 1).

End Examples.

(** ** Predicates of the specification *)

Module RadioSpec.

Import RadioData Radio.

(** What is true of a station that a listing returns. *)
Definition url_ok (q : QStation) : Prop :=
  exists u,
    url_resolved (station q) = Some u /\ u <> "" /\ u <> "null"
    /\ Js.includes "null" u = false /\ streamUrl q = Some u.

Definition quality_ok (q : QStation) : Prop :=
  (quality q = high <-> exists b, bitrate (station q) = Some b /\ 128 < b) /\
  (quality q = medium <->
   exists b, bitrate (station q) = Some b /\ 64 < b <= 128) /\
  (quality q = low <-> ~ exists b, bitrate (station q) = Some b /\ 64 < b).

Definition station_ok (q : QStation) : Prop := url_ok q /\ quality_ok q.

Definition listing_ok (limit : Z) (val : Value) : Prop :=
  exists l,
    val = VStations l /\ Forall station_ok l
    /\ (0 <= limit -> Z.of_nat (List.length l) <= limit).

Fixpoint no_underscore (s : string) : Prop :=
  match s with
  | EmptyString => True
  | String c t => c <> "_"%char /\ no_underscore t
  end.

(** The keys under which the listings are cached. *)
Inductive listing_key : string -> Z -> Prop :=
| key_popular limit :
    listing_key ("popular_stations_" +:+ Js.show limit) limit
| key_country country limit :
    listing_key ("country_stations_" +:+ country +:+ "_" +:+ Js.show limit) limit
| key_genre genre limit :
    listing_key ("genre_stations_" +:+ genre +:+ "_" +:+ Js.show limit) limit
| key_search query limit :
    listing_key ("search_stations_" +:+ query +:+ "_" +:+ Js.show limit) limit.

Definition cache_ok (c : gmap string Entry) : Prop :=
  forall k e limit,
    c !! k = Some e -> listing_key k limit -> listing_ok limit (v e).

(** [hoare m Q]: run in a state whose cache satisfies the invariant, [m]
    leaves a cache that satisfies it, and what [m] returns satisfies [Q]. *)
Definition hoare {A} (m : M A) (Q : A -> Prop) : Prop :=
  forall w,
    cache_ok (radio_cache w) ->
    cache_ok (radio_cache (snd (m w))) /\ forall a, fst (m w) = Ok a -> Q a.

End RadioSpec.

Module SearchSpec.

Import SearchRoute.

Definition search_failed : Exn := AppError "Search failed" 500.





(** The handler on the platform and in the state of the examples. *)
Definition run (req : Request) (rs : Replies) : Eff.outcome Exn Response :=
  fst (SearchRoute.handler Examples.utcYear Examples.collate req rs
                           Examples.freshWorld).

End SearchSpec.

(** ** Invariants of the radio service *)

Module ServiceSpec.

Import RadioData Radio RadioSpec.

(** [keeps I m Q]: run in a state that satisfies [I], [m] ends in a state
    that satisfies [I], and what [m] returns satisfies [Q]. *)
Definition keeps {A} (I : World -> Prop) (m : M A) (Q : A -> Prop) : Prop :=
  forall w, I w -> I (snd (m w)) /\ forall a, fst (m w) = Ok a -> Q a.

(** The counter of the rate limiter stays within its bound. *)
Definition limiter_ok (w : World) : Prop :=
  0 <= requests (limiter w) <= maxRequests.

(** The rate limiter lets a call through in the state [w]. *)
Definition lets_through (w : World) : Prop :=
  resetInterval < now w - lastReset (limiter w)
  \/ requests (limiter w) < maxRequests.

(** What [getStationDetails] stores and returns. *)
Definition details_ok (val : Value) : Prop :=
  exists q,
    val = VStation q
    /\ (exists u, url_resolved (station q) = Some u /\ u <> "" /\ u <> "null"
                  /\ streamUrl q = Some u)
    /\ quality_ok q.

(** What [getGenres] stores and returns. *)
Definition genres_ok (val : Value) : Prop :=
  exists l,
    val = VGenres l /\ (List.length l <= 50)%nat
    /\ Forall (fun tag => 10 < stationcount tag) l
    /\ StronglySorted (fun a b => stationcount b <= stationcount a) l.

Definition countries_ok (val : Value) : Prop := exists l, val = VCountries l.

(** A value of the kind that the method reading the key [k] expects. *)
Definition fits (k : string) (val : Value) : Prop :=
  (forall n, listing_key k n -> listing_ok n val)
  /\ (forall id, k = "station_details_" +:+ id -> details_ok val)
  /\ (k = "genres" -> genres_ok val)
  /\ (k = "countries" -> countries_ok val).

(** Every entry of the cache fits its key. *)
Definition cache_typed (w : World) : Prop :=
  forall k e, radio_cache w !! k = Some e -> fits k (v e).

(** An entry that [cache.get] serves at the time [time]. *)
Definition live (e : Entry) (time : Z) : Prop := t e = 0 \/ time <= t e.

(** The four listings of the service, and the call of one of them. *)
Inductive Listing :=
| popular
| byCountry (country : string)
| byGenre (genre : string)
| bySearch (query : string).

Definition list_stations (l : Listing) (limit : Z) (r : Reply (list Station))
  : M Value :=
  match l with
  | popular => getPopularStations limit r
  | byCountry country => getStationsByCountry country limit r
  | byGenre genre => getStationsByGenre genre limit r
  | bySearch query => searchStations query limit r
  end.

Definition cacheKey (l : Listing) (limit : Z) : string :=
  match l with
  | popular => "popular_stations_" +:+ Js.show limit
  | byCountry country =>
      "country_stations_" +:+ country +:+ "_" +:+ Js.show limit
  | byGenre genre => "genre_stations_" +:+ genre +:+ "_" +:+ Js.show limit
  | bySearch query => "search_stations_" +:+ query +:+ "_" +:+ Js.show limit
  end.

(** The stations a listing makes of the reply of the API. *)
Definition listed (limit : Z) (stations : list Station) : Value :=
  VStations (addStreamQuality (Js.slice0 limit (filterValidStations stations))).

(** A state in which the rate limiter has counted a hundred calls in the
    last ten seconds, with a listing in the cache that has not expired. *)
Definition saturated : World :=
  mkWorld 3600000 []
          {[ "popular_stations_5" :=
               mkEntry (listed 5 [Examples.station1]) 3800000 ]}
          (mkRateLimiter 100 3590000) ∅ (Some "0123456789abcdef") [] [].

End ServiceSpec.


(** ** What the TMDB service promises *)

Module TmdbSpec.

Import TmdbData Tmdb.

(** The errors [makeRequest] throws: each is a plain [Error], whatever the
    HTTP client threw. *)
Definition tmdb_error (x : Exn) : Prop :=
  x = Error "TMDB API timeout - please try again later"
  \/ x = Error "TMDB API rate limit exceeded - please try again later"
  \/ (exists detail, x = Error ("TMDB API error: " +:+ detail))
  \/ (exists detail, x = Error ("TMDB API request failed: " +:+ detail)).

(** The key of [search(query, page)] in the cache. *)
Definition searchKey (query page : string) : string :=
  "search_" +:+ query +:+ "_" +:+ page +:+ "_false".

(** The entry of the key is missing or older than five minutes. *)
Definition to_refresh (w : World) (key : string) : Prop :=
  match tmdb_cache w !! key with
  | Some c => cacheTimeout <= now w - timestamp c
  | None => True
  end.

(** A server started without [TMDB_API_KEY]. *)
Definition keyless : World :=
  mkWorld 3600000 [] ∅ (RadioData.mkRateLimiter 0 0) ∅ None [] [].

End TmdbSpec.

(** ** routes/content.js, the router

    The routes of [router], in the order of their registration, and the
    choice Express makes among them: the first route whose method is the
    request's and whose path matches.  Every handler of the file answers or
    throws, none passes the request on.  The paths are made of literal
    segments and of [:parameter] segments; with the default options of
    [express.Router()] a literal is compared without regard to case, a
    parameter matches a segment that is not empty, and one trailing slash is
    allowed. *)

Module Router.

Inductive Method := GET | POST | PUT | DELETE.

Definition method_eqb (a b : Method) : bool :=
  match a, b with
  | GET, GET | POST, POST | PUT, PUT | DELETE, DELETE => true
  | _, _ => false
  end.

(** A route: the method and the path given to [router.METHOD(path, ...)]. *)
Definition Route : Type := Method * string.

Definition content_routes : list Route := [
  (GET, "/homepage");
  (GET, "/genres/:type");
  (GET, "/discover/:type");
  (GET, "/category/:category");
  (GET, "/:type/:id");
  (GET, "/radio/country/:countryCode");
  (GET, "/radio/search");
  (GET, "/radio/genre/:genre");
  (GET, "/radio/popular");
  (GET, "/radio/countries");
  (GET, "/radio/genres");
  (POST, "/radio/:stationUuid/click");
  (GET, "/radio/:stationUuid/stream");
  (GET, "/radio/:stationUuid/details");
  (GET, "/radio/health");
  (POST, "/radio/cache/clear");
  (GET, "/radio/favicon/:stationUuid");
  (GET, "/tv/:id/season/:seasonNumber");
  (GET, "/trending/people");
  (GET, "/trending/movies");
  (GET, "/tv/airing-today");
  (GET, "/person/:personId");
  (GET, "/person/:personId/images");
  (GET, "/tv/:seriesId/episode-groups");
  (GET, "/tv/:seriesId/recommendations");
  (GET, "/movie/:movieId/recommendations");
  (GET, "/collection/:collectionId/translations");
  (GET, "/watch-providers/movie");
  (GET, "/watch-providers/tv");
  (GET, "/movie/:movieId/watch-providers");
  (GET, "/tv/:tvId/watch-providers");
  (GET, "/genres/movie");
  (GET, "/genres/tv");
  (GET, "/movie/:movieId/videos");
  (GET, "/tv/:tvId/videos");
  (GET, "/movie/:movieId/similar");
  (GET, "/tv/:tvId/similar");
  (GET, "/movie/:movieId/alternative-titles");
  (GET, "/tv/:tvId/alternative-titles");
  (GET, "/network/:networkId/images");
  (GET, "/tmdb/test-key");
  (GET, "/tmdb/auth/validate");
  (POST, "/tmdb/auth/request-token");
  (POST, "/tmdb/auth/session");
  (POST, "/tmdb/auth/guest-session");
  (DELETE, "/tmdb/auth/session");
  (GET, "/tmdb/account");
  (POST, "/tmdb/account/:accountId/watchlist");
  (POST, "/tmdb/account/:accountId/favorite");
  (GET, "/tmdb/account/:accountId/watchlist/movies");
  (GET, "/tmdb/account/:accountId/watchlist/tv");
  (GET, "/tmdb/account/:accountId/favorite/movies");
  (GET, "/tmdb/account/:accountId/favorite/tv");
  (GET, "/tmdb/account/:accountId/rated/movies");
  (GET, "/tmdb/account/:accountId/rated/tv");
  (POST, "/movie/:movieId/rating");
  (POST, "/tv/:tvId/rating");
  (DELETE, "/movie/:movieId/rating");
  (DELETE, "/tv/:tvId/rating")
].

(** [path.split('/')] *)
Fixpoint split (path : string) : list string :=
  match path with
  | EmptyString => [""]
  | String c rest =>
      if Ascii.eqb c "/" then "" :: split rest
      else match split rest with
           | piece :: pieces => String c piece :: pieces
           | [] => [String c ""]
           end
  end.

Inductive Segment :=
| literal (text : string)
| parameter (name : string).

Definition segment_of (piece : string) : Segment :=
  match piece with
  | String ":" name => parameter name
  | _ => literal piece
  end.

(** The segments of a route's path, which starts with a slash. *)
Definition pattern_of (path : string) : list Segment :=
  List.map segment_of (List.tl (split path)).

Definition segment_matches (s : Segment) (piece : string) : bool :=
  match s with
  | literal text => String.eqb (Js.toLowerCase text) (Js.toLowerCase piece)
  | parameter _ => negb (String.eqb piece "")
  end.

Fixpoint pieces_match (pattern : list Segment) (pieces : list string) : bool :=
  match pattern, pieces with
  | [], [] => true
  | [], [EmptyString] => true
  | s :: pattern', piece :: pieces' =>
      segment_matches s piece && pieces_match pattern' pieces'
  | _, _ => false
  end.

(** The path of a request, which starts with a slash, against the path of a
    route. *)
Definition path_matches (route_path request_path : string) : bool :=
  match split request_path with
  | EmptyString :: pieces => pieces_match (pattern_of route_path) pieces
  | _ => false
  end.

Definition handles (m : Method) (path : string) (r : Route) : bool :=
  method_eqb (fst r) m && path_matches (snd r) path.

(** The route that answers a request. *)
Definition dispatch (routes : list Route) (m : Method) (path : string)
  : option Route :=
  List.find (handles m path) routes.

(** The route of the details of a content, [GET /:type/:id]. *)
Definition details : Route := (GET, "/:type/:id").

(** The routes registered after a route. *)
Fixpoint after (r : Route) (routes : list Route) : list Route :=
  match routes with
  | [] => []
  | x :: rest =>
      if method_eqb (fst x) (fst r) && String.eqb (snd x) (snd r) then rest
      else after r rest
  end.


End Router.

(** ** models/User.js, the lists of a user *)

Module UserModel.

(** An entry of [favorites] and of [watchlist], with the fields the routes
    give it. *)
Record Item := mkItem {
  contentId : string;
  contentType : string;
  title : option string;
  poster : option string
}.

Record Rating := mkRating {
  r_contentId : string;
  r_contentType : string;
  rating : Q;
  r_title : option string;
  r_poster : option string;
  ratedAt : option Z
}.

(** The lists of a user document that the methods below change. *)
Record Doc := mkDoc {
  favorites : list Item;
  watchlist : list Item;
  ratings : list Rating
}.

Definition is_item (id : string) (item : Item) : bool :=
  String.eqb (contentId item) id.


(** The methods change [this] and return [this.save()]: each is given here
    by the document that is saved. *)

(** [userSchema.methods.addToFavorites] *)
Definition addToFavorites (contentData : Item) (this : Doc) : Doc :=
  let exists_ := existsb (is_item (contentId contentData)) (favorites this) in
  if negb exists_
  then mkDoc (favorites this ++ [contentData]) (watchlist this) (ratings this)
  else this.

(** [userSchema.methods.removeFromFavorites] *)
Definition removeFromFavorites (id : string) (this : Doc) : Doc :=
  mkDoc (List.filter (fun item => negb (is_item id item)) (favorites this))
        (watchlist this) (ratings this).

(** [userSchema.methods.addToWatchlist] *)
Definition addToWatchlist (contentData : Item) (this : Doc) : Doc :=
  let exists_ := existsb (is_item (contentId contentData)) (watchlist this) in
  if negb exists_
  then mkDoc (favorites this) (watchlist this ++ [contentData]) (ratings this)
  else this.

(** [userSchema.methods.removeFromWatchlist] *)
Definition removeFromWatchlist (id : string) (this : Doc) : Doc :=
  mkDoc (favorites this)
        (List.filter (fun item => negb (is_item id item)) (watchlist this))
        (ratings this).




(** The ids of a list, and a list with one entry per content. *)
Definition ids (l : list Item) : list string := List.map contentId l.

Definition rated (this : Doc) : list string :=
  List.map r_contentId (ratings this).

(** Sample data. *)
Definition heat : Item := mkItem "949" "movie" (Some "Heat") None.
Definition ronin : Item := mkItem "8195" "movie" (Some "Ronin") None.
Definition casino : Item := mkItem "524" "movie" (Some "Casino") None.
Definition someone : Doc :=
  mkDoc [heat] [ronin]
        [mkRating "949" "movie" (9 # 2) (Some "Heat") None (Some 1000)].

End UserModel.

(** ** The watch history in the collection of users *)

Module WatchHistorySpec.

Import Store.





End WatchHistorySpec.

(** ** routes/user.js, the pages of the lists of a user

    The routes [GET /watch-history], [GET /favorites] and [GET /watchlist]
    cut the page out of the list of the user that [findById] returned, with
    the same code. *)

Module UserRoutes.

(** An index of [Array.prototype.slice] in an array of length [len]: a
    negative index counts from the end. *)
Definition relative (len k : Z) : Z :=
  if k <? 0 then Z.max (len + k) 0 else Z.min k len.

(** [Array.prototype.slice(start, end)]; [None] is [NaN], which counts
    as 0. *)
Definition slice {A} (start end_ : option Z) (l : list A) : list A :=
  let len := Z.of_nat (List.length l) in
  let from := relative len (default 0 start) in
  let to := relative len (default 0 end_) in
  firstn (Z.to_nat (to - from)) (skipn (Z.to_nat from) l).

(** [Math.ceil(a / b)] as the JSON of the response has it: [null] when the
    quotient is not a finite number. *)
Definition ceil_div (a : Z) (b : option Z) : option Z :=
  match b with
  | Some b => if b =? 0 then None else Some (- ((- a) / b))
  | None => None
  end.

(** [req.query] *)
Record Query := mkQuery {
  q_page : option string;
  q_limit : option string;
  q_type : option string
}.

Record Pagination := mkPagination {
  currentPage : option Z;
  limit : option Z;
  totalItems : Z;
  totalPages : option Z;
  hasMore : bool
}.

Record Response (A : Type) := mkResponse {
  success : bool;
  data : list A;
  pagination : Pagination
}.
Arguments mkResponse {A}.
Arguments success {A}.
Arguments data {A}.
Arguments pagination {A}.

(** From [const startIndex] to [res.json], with [page = 1] and
    [limit = 50] when the query does not give them. *)
Definition paged {A} (query : Query) (items : list A) : Response A :=
  let page := Js.parseInt (default "1" (q_page query)) in
  let limit := Js.parseInt (default "50" (q_limit query)) in
  let startIndex :=
    match page, limit with
    | Some p, Some l => Some ((p - 1) * l)
    | _, _ => None
    end in
  let endIndex :=
    match startIndex, limit with
    | Some s, Some l => Some (s + l)
    | _, _ => None
    end in
  let totalItems := Z.of_nat (List.length items) in
  mkResponse true (slice startIndex endIndex items)
    (mkPagination page limit totalItems (ceil_div totalItems limit)
       (match endIndex with
        | Some e => e <? totalItems
        | None => false
        end)).


(** [if (type) { list = list.filter(item => item.contentType === type) }] *)
Definition of_type (type : option string) (l : list UserModel.Item)
  : list UserModel.Item :=
  if Js.truthy_str type
  then List.filter
         (fun item => String.eqb (UserModel.contentType item) (default "" type))
         l
  else l.

(** [GET /favorites] and [GET /watchlist] *)
Definition favorites (query : Query) (user : UserModel.Doc)
  : Response UserModel.Item :=
  paged query (of_type (q_type query) (UserModel.favorites user)).

Definition watchlist (query : Query) (user : UserModel.Doc)
  : Response UserModel.Item :=
  paged query (of_type (q_type query) (UserModel.watchlist user)).


End UserRoutes.

(** ** routes/search.js, [GET /suggestions] *)

Module SuggestionsRoute.

Local Open Scope eff_scope.

(** An entry of the suggestions: made from a TMDB result, or from a radio
    station; a field the object does not have is [None]. *)
Record Suggestion := mkSuggestion {
  id : SearchRoute.ItemId;
  title : option string;
  type : option string;
  year : option Z;
  poster : option string;
  genre : option string;
  country : option string
}.

(** [res.json({ success: true, data })] *)
Record Response := mkResponse {
  success : bool;
  data : list Suggestion
}.

(** [limit = 10] when the query does not give it. *)
Definition limit_of (limit : option string) : option Z :=
  Js.parseInt (default "10" limit).

(** [l.slice(0, n)], where [n] may be [NaN], which counts as 0. *)
Definition slice_to {A} (n : option Z) (l : list A) : list A :=
  match n with
  | Some k => Js.slice0 k l
  | None => []
  end.

Section Platform.

Variable getFullYear : string -> option Z.

Definition tmdbSuggestion (item : TmdbData.Item) : Suggestion :=
  let date :=
    SearchRoute.or_str (TmdbData.release_date item)
                       (TmdbData.first_air_date item) in
  mkSuggestion (SearchRoute.tmdb_id (TmdbData.id item))
    (SearchRoute.or_str (TmdbData.title item) (TmdbData.name item))
    (TmdbData.media_type item)
    (if Js.truthy_str date then getFullYear (default "" date) else None)
    (Tmdb.getImageURL (TmdbData.poster_path item) "w92")
    None None.

Definition radioSuggestion (station : Store.RadioDoc) : Suggestion :=
  mkSuggestion (SearchRoute.object_id (Store._id station))
    (Store.r_name station) (Some "radio") None (Store.logo station)
    (List.head (Store.genre station)) (Store.country station).

Definition handler (q limit : option string) (tmdb : Reply TmdbData.Page)
    (find : Reply (list Store.RadioDoc)) : M Response :=
  if negb (SearchRoute.valid_query q)
  then Eff.ret (mkResponse true [])
  else
    let query := default "" q in
    Eff.try_catch
      (tmdbResults <- Tmdb.search query "1" tmdb ;;
       let suggestions :=
         List.map tmdbSuggestion
                  (slice_to (limit_of limit) (TmdbData.results tmdbResults)) in
       radioSuggestions <-
         await (RadioStation_find query None (Some 5) None) find ;;
       let radioResults := List.map radioSuggestion radioSuggestions in
       let allSuggestions :=
         slice_to (limit_of limit) (suggestions ++ radioResults) in
       Eff.ret (mkResponse true allSuggestions))
      (fun _ => Eff.ret (mkResponse true [])).

End Platform.

End SuggestionsRoute.

(** ** services/youtubeService.js *)

Module YouTube.

Import Store.
Local Open Scope eff_scope.

(** [makeRequest('/search', ...)] for [searchVideos(query, maxResults)];
    the reply is [response.items]. *)
Definition searchVideos (query : string) (r : Reply (list YtItem))
  : M (list YtItem) :=
  Eff.try_catch
    (await (youtube_search (Some query)) r)
    (fun error =>
       Eff.throw (Error ("YouTube API request failed: " +:+ message_of error))).

(** [title.includes('trailer') || title.includes('official')] on the title
    in lower case. *)
Definition mentions_trailer (item : YtItem) : bool :=
  let title := Js.toLowerCase (snippet_title item) in
  Js.includes "trailer" title || Js.includes "official" title.

(** [year ? ` ${year}` : ''], and the same for a season. *)
Definition suffix (label : string) (n : option Z) : string :=
  match n with
  | Some k => if k =? 0 then "" else " " +:+ label +:+ Js.show k
  | None => ""
  end.

(** [searchMovieTrailer(movieTitle, year)] *)
Definition searchMovieTrailer (movieTitle : string) (year : option Z)
    (r : Reply (list YtItem)) : M (list YtItem) :=
  let searchQuery := movieTitle +:+ suffix "" year +:+ " official trailer" in
  Eff.try_catch
    (items <- searchVideos searchQuery r ;;
     let trailers := List.filter mentions_trailer items in
     Eff.ret (if 0 <? Z.of_nat (List.length trailers) then trailers else items))
    (fun _ => Eff.ret []).

(** [searchTVTrailer(showTitle, season)] *)
Definition searchTVTrailer (showTitle : string) (season : option Z)
    (r : Reply (list YtItem)) : M (list YtItem) :=
  let searchQuery :=
    showTitle +:+ suffix "season " season +:+ " official trailer" in
  Eff.try_catch
    (items <- searchVideos searchQuery r ;;
     let trailers := List.filter mentions_trailer items in
     Eff.ret (if 0 <? Z.of_nat (List.length trailers) then trailers else items))
    (fun _ => Eff.ret []).

(** [title.includes('full movie') || ...) && !title.includes('trailer')] *)
Definition is_full_movie (item : YtItem) : bool :=
  let title := Js.toLowerCase (snippet_title item) in
  (Js.includes "full movie" title || Js.includes "complete movie" title
   || Js.includes "entire movie" title)
  && negb (Js.includes "trailer" title).

(** [searchFreeMovies(query, maxResults)] *)
Definition searchFreeMovies (query : string) (r : Reply (list YtItem))
  : M (list YtItem) :=
  let searchQuery :=
    query +:+ " full movie free public domain creative commons" in
  Eff.try_catch
    (items <- searchVideos searchQuery r ;;
     Eff.ret (List.filter is_full_movie items))
    (fun _ => Eff.ret []).

End YouTube.
(** * Properties *)

Module EffFacts.

Lemma bind_ok {S E A B} (m : Eff.M S E A) (k : A -> Eff.M S E B) s a s' :
  m s = (Ok a, s') -> Eff.bind m k s = k a s'.
Proof. intros H. unfold Eff.bind. now rewrite H. Qed.

Lemma bind_throws_l {S E A B} (m : Eff.M S E A) (k : A -> Eff.M S E B) s :
  throws m s -> throws (Eff.bind m k) s.
Proof.
  intros [e H]. exists e. unfold Eff.bind.
  destruct (m s) as [[a|e'] s']; simpl in *; congruence.
Qed.

Lemma bind_throws_r {S E A B} (m : Eff.M S E A) (k : A -> Eff.M S E B) s :
  (forall a s', throws (k a) s') -> throws (Eff.bind m k) s.
Proof.
  intros H. unfold throws, Eff.bind.
  destruct (m s) as [[a|e'] s']; simpl; [apply H | eauto].
Qed.

Lemma bind_throws_ok {S E A B} (m : Eff.M S E A) (k : A -> Eff.M S E B) s a s' :
  m s = (Ok a, s') -> throws (k a) s' -> throws (Eff.bind m k) s.
Proof. intros H [e He]. exists e. now rewrite (bind_ok _ _ _ _ _ H). Qed.

Lemma try_catch_rethrow {S E A} (m : Eff.M S E A) (x : E) s :
  throws m s ->
  Eff.try_catch m (fun _ => Eff.throw x) s = (Throw x, snd (m s)).
Proof.
  intros [e H]. unfold Eff.try_catch, Eff.throw.
  destruct (m s) as [[a|e'] s']; simpl in *; congruence.
Qed.

Lemma try_catch_ok {S E A} (m : Eff.M S E A) h s a s' :
  m s = (Ok a, s') -> Eff.try_catch m h s = (Ok a, s').
Proof. intros H. unfold Eff.try_catch. now rewrite H. Qed.

Lemma await_throws {A} c (r : Reply A) e w :
  result r = Throw e -> throws (await c r) w.
Proof. intros H. exists e. unfold await. now rewrite H. Qed.

End EffFacts.

(** ** JavaScript built-ins *)

Module JsFacts.

Section Sort.

Context {A : Type} (cmp : A -> A -> Q).

Lemma insert_by_perm x l : Permutation (x :: l) (Js.insert_by cmp x l).
Proof.
  induction l as [|y t IH]; simpl; [reflexivity|].
  destruct (Qle_bool (cmp x y) 0); [reflexivity|].
  rewrite perm_swap. now constructor.
Qed.

Lemma sort_perm l : Permutation l (Js.sort cmp l).
Proof.
  induction l as [|x t IH]; simpl; [constructor|].
  rewrite <- insert_by_perm. now constructor.
Qed.

Lemma sort_length l : List.length (Js.sort cmp l) = List.length l.
Proof. symmetry. apply Permutation_length, sort_perm. Qed.

(** An order [le] that the comparator decides: [cmp x y <= 0] puts [x]
    first, and [y] may go first otherwise. *)
Variable le : A -> A -> Prop.
Hypothesis le_trans : forall x y z, le x y -> le y z -> le x z.
Hypothesis cmp_le : forall x y, Qle_bool (cmp x y) 0 = true -> le x y.
Hypothesis cmp_gt : forall x y, Qle_bool (cmp x y) 0 = false -> le y x.

Lemma insert_by_sorted x l :
  StronglySorted le l -> StronglySorted le (Js.insert_by cmp x l).
Proof.
  induction 1 as [|y t Hs IH Hy]; simpl.
  - repeat constructor.
  - destruct (Qle_bool (cmp x y) 0) eqn:E.
    + constructor; [now constructor|].
      constructor; [now apply cmp_le|].
      eapply Forall_impl; [exact Hy|]. intros z Hz.
      apply le_trans with y; [now apply cmp_le | exact Hz].
    + constructor; [exact IH|].
      eapply Permutation_Forall; [apply insert_by_perm|].
      constructor; [now apply cmp_gt | exact Hy].
Qed.

Lemma sort_sorted l : StronglySorted le (Js.sort cmp l).
Proof.
  induction l as [|x t IH]; simpl; [constructor|].
  now apply insert_by_sorted.
Qed.

End Sort.

End JsFacts.

(** ** The radio service *)

Module RadioProps.

Import RadioData Radio RadioSpec EffFacts.

(** *** Stations *)

Lemma valid_url_ok s :
  valid_url s = true -> url_ok (mkQStation s (quality_of s) (url_resolved s)).
Proof.
  unfold valid_url, url_ok. cbn [station streamUrl].
  destruct (url_resolved s) as [u|]; [|discriminate].
  rewrite !andb_true_iff, !negb_true_iff. intros [[[Ht _] Hn] Hi].
  exists u. repeat split; trivial.
  - intros ->. discriminate.
  - now apply String.eqb_neq.
Qed.

Lemma quality_of_ok s :
  quality_ok (mkQStation s (quality_of s) (url_resolved s)).
Proof.
  unfold quality_ok, quality_of, bitrate_gt. cbn [station quality].
  destruct (bitrate s) as [b|].
  - destruct (128 <? b) eqn:E1; [|destruct (64 <? b) eqn:E2];
      rewrite ?Z.ltb_lt, ?Z.ltb_ge in *;
      (split; [|split]); split; intros H;
      first [ discriminate
            | reflexivity
            | exists b; split; [reflexivity|lia]
            | destruct H as (b' & [= <-] & ?); lia
            | exfalso; apply H; exists b; split; [reflexivity|lia]
            | intros (b' & [= <-] & ?); lia ].
  - (split; [|split]); split; intros H;
      first [ discriminate
            | reflexivity
            | destruct H as (b' & [=] & ?)
            | intros (b' & [=] & ?) ].
Qed.

Lemma firstn_In {A} n (l : list A) x : In x (firstn n l) -> In x l.
Proof.
  revert l. induction n as [|n IH]; intros [|y t]; cbn; try tauto.
  intros [->|H]; [now left | right; now apply IH].
Qed.

Lemma slice0_incl {A} n (l : list A) x : In x (Js.slice0 n l) -> In x l.
Proof. unfold Js.slice0. destruct (n <? 0); apply firstn_In. Qed.

Lemma slice0_length {A} n (l : list A) :
  0 <= n -> Z.of_nat (List.length (Js.slice0 n l)) <= n.
Proof.
  intros Hn. unfold Js.slice0.
  destruct (n <? 0) eqn:E; [apply Z.ltb_lt in E; lia|].
  pose proof (List.firstn_le_length (Z.to_nat n) l). lia.
Qed.

Lemma fetched_listing_ok limit stations :
  listing_ok limit
    (VStations (addStreamQuality (Js.slice0 limit (filterValidStations stations)))).
Proof.
  eexists. split; [reflexivity|]. split.
  - unfold addStreamQuality. apply List.Forall_forall. intros q Hq.
    apply List.in_map_iff in Hq as (s & <- & Hs).
    apply slice0_incl in Hs. apply List.filter_In in Hs as [_ Hs].
    split; [now apply valid_url_ok | apply quality_of_ok].
  - intros Hl. unfold addStreamQuality. rewrite List.length_map.
    now apply slice0_length.
Qed.

(** *** Keys *)

Lemma to_int_proper n : Z.to_int n <> Pos Nil /\ Z.to_int n <> Neg Nil.
Proof.
  destruct n as [|p|p]; cbn; split; try discriminate;
    intros [= H]; now apply (DecimalPos.Unsigned.to_uint_nonnil p).
Qed.

Lemma show_inj a b : Js.show a = Js.show b -> a = b.
Proof.
  unfold Js.show. intros H. apply DecimalZ.to_int_inj.
  destruct (to_int_proper a) as [Ha1 Ha2], (to_int_proper b) as [Hb1 Hb2].
  pose proof (NilZero.isi _ Ha1 Ha2) as Ia.
  pose proof (NilZero.isi _ Hb1 Hb2) as Ib.
  rewrite H in Ia. congruence.
Qed.

Lemma uint_no_underscore d : no_underscore (NilEmpty.string_of_uint d).
Proof. induction d; cbn; auto; split; auto; discriminate. Qed.

Lemma show_no_underscore n : no_underscore (Js.show n).
Proof.
  unfold Js.show, NilZero.string_of_int, NilZero.string_of_uint.
  destruct (Z.to_int n) as [d|d]; [|split; [discriminate|]];
    (destruct d; [cbn; split; [discriminate|exact I] | apply uint_no_underscore ..]).
Qed.

Lemma underscore_inside a s : ~ no_underscore (a +:+ String "_" s).
Proof.
  induction a as [|c t IH]; cbn; intros [H1 H2]; [now apply H1 | now apply IH].
Qed.

Lemma suffix_unique a a' s s' :
  no_underscore s -> no_underscore s' ->
  a +:+ String "_" s = a' +:+ String "_" s' -> s = s'.
Proof.
  intros Hs Hs'. revert a'.
  induction a as [|c t IH]; intros [|c' t']; cbn; intros E.
  - now injection E.
  - injection E as _ E. subst. now apply underscore_inside in Hs.
  - injection E as _ E. subst. now apply underscore_inside in Hs'.
  - injection E as _ E. now apply (IH t').
Qed.

Lemma key_suffix a a' n n' :
  a +:+ "_" +:+ Js.show n = a' +:+ "_" +:+ Js.show n' -> n = n'.
Proof.
  intros H. apply show_inj.
  apply (suffix_unique a a'); auto using show_no_underscore.
Qed.

Lemma listing_key_limit k n n' : listing_key k n -> listing_key k n' -> n = n'.
Proof.
  intros H H'. destruct H; inversion H' as [? E|? ? E|? ? E|? ? E];
    try discriminate E; subst.
  - symmetry. now apply show_inj.
  - symmetry. now apply key_suffix in E.
  - symmetry. now apply key_suffix in E.
  - symmetry. now apply key_suffix in E.
Qed.

Lemma details_key_not_listing id n : ~ listing_key ("station_details_" +:+ id) n.
Proof. intros H. inversion H as [? E|? ? E|? ? E|? ? E]; discriminate E. Qed.

Lemma countries_key_not_listing n : ~ listing_key "countries" n.
Proof. intros H. inversion H as [? E|? ? E|? ? E|? ? E]; discriminate E. Qed.

Lemma genres_key_not_listing n : ~ listing_key "genres" n.
Proof. intros H. inversion H as [? E|? ? E|? ? E|? ? E]; discriminate E. Qed.

(** *** The invariant of the cache *)








Lemma hoare_weaken {A} (m : M A) (P Q : A -> Prop) :
  hoare m P -> (forall a, P a -> Q a) -> hoare m Q.
Proof.
  intros Hm HPQ w Hw. destruct (Hm w Hw) as [Hc Ha]. split; [exact Hc|].
  intros a E. now apply HPQ, Ha.
Qed.





(** *** The methods of the service *)















End RadioProps.

(** ** The caches of the adapters *)

Module CacheProps.

Import EffFacts.

Lemma makeRequest_throws {A} endpoint (r : Reply A) e w :
  result r = Throw e -> throws (Tmdb.makeRequest endpoint r) w.
Proof.
  intros H. unfold throws, Tmdb.makeRequest, Eff.try_catch, Eff.bind, Eff.get.
  destruct (Js.truthy_str (apiKey w)); unfold await, Eff.throw; rewrite ?H;
    simpl; eauto.
Qed.

Lemma getCachedOrFetch_fresh key fetch (w : World) c :
  tmdb_cache w !! key = Some c ->
  now w - TmdbData.timestamp c < Tmdb.cacheTimeout ->
  Tmdb.getCachedOrFetch key fetch w = (Ok (TmdbData.data c), w).
Proof.
  intros Hc Hf. unfold Tmdb.getCachedOrFetch, Eff.bind, Eff.get. rewrite Hc.
  apply Z.ltb_lt in Hf. now rewrite Hf.
Qed.

Lemma getCachedOrFetch_refresh key fetch (w : World) :
  tmdb_cache w !! key = None
  \/ (exists c, tmdb_cache w !! key = Some c
                /\ Tmdb.cacheTimeout <= now w - TmdbData.timestamp c) ->
  Tmdb.getCachedOrFetch key fetch w
  = match fetch w with
    | (Ok data, w') =>
        (Ok data,
         set_tmdb_cache (insert key (TmdbData.mkEntry data (now w'))) w')
    | (Throw error, w') =>
        (match tmdb_cache w !! key with
         | Some c => Ok (TmdbData.data c)
         | None => Throw error
         end, w')
    end.
Proof.
  intros H. unfold Tmdb.getCachedOrFetch, Eff.bind at 1, Eff.get.
  assert (E : match tmdb_cache w !! key with
              | Some c => now w - TmdbData.timestamp c <? Tmdb.cacheTimeout
              | None => false
              end = false).
  { destruct H as [->|(c & -> & Hc)]; [reflexivity|]. apply Z.ltb_ge. lia. }
  unfold Eff.try_catch, Eff.bind, Eff.get, Eff.modify, Eff.ret, Eff.throw.
  destruct (tmdb_cache w !! key) as [c|]; [rewrite E|];
    destruct (fetch w) as [[d|e] w']; reflexivity.
Qed.

Lemma makeRequest_tmdb_cache {A} endpoint (r : Reply A) (w : World) :
  tmdb_cache (snd (Tmdb.makeRequest endpoint r w)) = tmdb_cache w.
Proof.
  unfold Tmdb.makeRequest, Eff.try_catch, Eff.bind, Eff.get, await, Eff.throw.
  destruct (Js.truthy_str (apiKey w)); [destruct (result r)|]; reflexivity.
Qed.

Lemma expired_listing_not_served key call limit r failure (w : World) e x :
  radio_cache w !! key = Some e ->
  RadioData.t e <> 0 -> RadioData.t e < now w ->
  result r = Throw x ->
  fst (Radio.cachedListing key call limit r failure w) = Throw (Error failure).
Proof.
  intros He Ht Hlt Hr. unfold Radio.cachedListing.
  rewrite try_catch_rethrow; [reflexivity|].
  unfold throws, Eff.bind, Radio.checkRateLimit.
  destruct (Radio.maxRequests <=? _); [cbn; eauto|].
  unfold Radio.cache_get, set_limiter. cbn [radio_cache now]. rewrite He.
  replace (negb (RadioData.t e =? 0) && (RadioData.t e <? now w)) with true.
  - unfold await. rewrite Hr. cbn. eauto.
  - symmetry. apply andb_true_iff. split.
    + now apply negb_true_iff, Z.eqb_neq.
    + now apply Z.ltb_lt.
Qed.

(** C3, as the specification has it, fails for the radio adapter: the
    listing of the popular stations is cached, the entry expires, and a call
    during which the API fails throws, although a value had been stored for
    the key; the stored value is gone from the cache. *)
Lemma expired_radio_entry_dropped :
  Radio.reachable Examples.afterListing /\
  (exists e,
      radio_cache Examples.afterListing !! "popular_stations_5" = Some e
      /\ RadioData.t e < now Examples.afterListing) /\
  fst (Radio.getPopularStations 5 Examples.timed_out Examples.afterListing)
  = Throw (Error "Failed to fetch popular radio stations") /\
  radio_cache
    (snd (Radio.getPopularStations 5 Examples.timed_out Examples.afterListing))
  !! "popular_stations_5" = None.
Proof.
  split; [|split; [|split]].
  - eapply Radio.reachable_step; [eapply Radio.reachable_step|].
    + apply (Radio.reachable_loaded Examples.freshWorld). reflexivity.
    + apply Radio.step_popular.
    + now apply Radio.step_other.
  - eexists. split; [vm_compute; reflexivity|]. vm_compute. reflexivity.
  - vm_compute. reflexivity.
  - vm_compute. reflexivity.
Qed.

(** C3, amended: the stale value is served on failure by
    [TMDBService.getCachedOrFetch] only.  There, an entry younger than five
    minutes is returned without a fetch; on a miss or a stale entry the fetch
    is run, its value is stored and returned, and when it fails the value
    stored for the key, whatever its age, is returned and stays in the cache,
    the failure reaching the caller only when no value is stored.  In the
    radio service an expired entry is never served: when the call to the API
    fails the listing throws, whether or not a value had been cached. *)
Theorem stale_value_served_by_tmdb_cache_only key (fetch : M TmdbData.Page)
    (w : World) :
  (forall c,
      tmdb_cache w !! key = Some c ->
      now w - TmdbData.timestamp c < Tmdb.cacheTimeout ->
      Tmdb.getCachedOrFetch key fetch w = (Ok (TmdbData.data c), w)) /\
  (tmdb_cache w !! key = None
   \/ (exists c, tmdb_cache w !! key = Some c
                 /\ Tmdb.cacheTimeout <= now w - TmdbData.timestamp c) ->
   Tmdb.getCachedOrFetch key fetch w
   = match fetch w with
     | (Ok data, w') =>
         (Ok data,
          set_tmdb_cache (insert key (TmdbData.mkEntry data (now w'))) w')
     | (Throw error, w') =>
         (match tmdb_cache w !! key with
          | Some c => Ok (TmdbData.data c)
          | None => Throw error
          end, w')
     end) /\
  (forall query page r c x,
      tmdb_cache w !! ("search_" +:+ query +:+ "_" +:+ page +:+ "_false")
      = Some c ->
      Tmdb.cacheTimeout <= now w - TmdbData.timestamp c ->
      result r = Throw x ->
      fst (Tmdb.search query page r w) = Ok (TmdbData.data c) /\
      tmdb_cache (snd (Tmdb.search query page r w)) = tmdb_cache w) /\
  (forall call limit r failure e x,
      radio_cache w !! key = Some e ->
      RadioData.t e <> 0 -> RadioData.t e < now w ->
      result r = Throw x ->
      fst (Radio.cachedListing key call limit r failure w)
      = Throw (Error failure)).
Proof.
  split; [|split; [|split]].
  - intros c. apply getCachedOrFetch_fresh.
  - apply getCachedOrFetch_refresh.
  - intros query page r c x Hc Hs Hr. unfold Tmdb.search.
    rewrite getCachedOrFetch_refresh by eauto.
    pose proof (makeRequest_tmdb_cache "/search/multi" r w) as Hk.
    destruct (makeRequest_throws "/search/multi" r x w Hr)
      as [e He].
    destruct (Tmdb.makeRequest "/search/multi" r w) as [[d|e'] w'];
      [discriminate|].
    rewrite Hc. now split.
  - intros call limit r failure e x. apply expired_listing_not_served.
Qed.

Lemma stale_value_served_by_tmdb_cache_only_witness :
  fst (Tmdb.search "matrix" "1" Examples.timed_out Examples.afterSearch)
  = Ok Examples.fiveResults /\
  fst (Radio.cachedListing "popular_stations_5"
         (radio_getStations RadioData.no_filter 10) 5 Examples.timed_out
         "Failed to fetch popular radio stations" Examples.afterListing)
  = Throw (Error "Failed to fetch popular radio stations").
Proof.
  split.
  - refine (proj1 (proj1 (proj2 (proj2
              (stale_value_served_by_tmdb_cache_only "" (Eff.throw (Error ""))
                 Examples.afterSearch)))
              "matrix" "1" Examples.timed_out
              (TmdbData.mkEntry Examples.fiveResults 3600010)
              (AxiosError (Some "ECONNABORTED") "timeout of 30000ms exceeded"
                          None None) _ _ eq_refl)).
    + vm_compute. reflexivity.
    + vm_compute. discriminate.
  - refine (proj2 (proj2 (proj2
              (stale_value_served_by_tmdb_cache_only "popular_stations_5"
                 (Eff.throw (Error "")) Examples.afterListing)))
              _ 5 Examples.timed_out _
              (RadioData.mkEntry
                 (RadioData.VStations
                    (Radio.addStreamQuality [Examples.station1; Examples.station3]))
                 3900010)
              (AxiosError (Some "ECONNABORTED") "timeout of 30000ms exceeded"
                          None None) _ _ _ eq_refl).
    + vm_compute. reflexivity.
    + discriminate.
    + vm_compute. reflexivity.
Defined.

End CacheProps.

(** ** The content route *)

Module ContentRouteProps.

Import ContentRoute EffFacts Store.

Lemma valid_type_spec type :
  valid_type type = true <-> type = "movie" \/ type = "tv" \/ type = "radio".
Proof.
  unfold valid_type, existsb.
  rewrite orb_false_r, !orb_true_iff, !String.eqb_eq. tauto.
Qed.

Lemma movie_or_tv type :
  type = "movie" \/ type = "tv" ->
  valid_type type = true /\ String.eqb type "radio" = false.
Proof.
  intros Ht. split; [apply valid_type_spec; tauto|].
  apply String.eqb_neq. destruct Ht; subst; discriminate.
Qed.

Lemma addToWatchHistory_throws u entry r e w :
  result r = Throw e -> throws (Models.addToWatchHistory u entry r) w.
Proof. intros H. apply bind_throws_l. now apply await_throws with e. Qed.

(** A document that has not expired is served, with one more view, after one
    read and one write of the collection (and the saving of the user's
    history): TMDB and YouTube are not called. *)
Lemma fresh_document_served type id user rs (w : World) d :
  type = "movie" \/ type = "tv" ->
  result (findOne_reply rs) = Ok tt ->
  List.find (Models.matches id type) (contents w) = Some d ->
  now w + elapsed (findOne_reply rs) <= cacheExpiry d ->
  result (views_reply rs) = Ok tt ->
  match user with Some _ => result (history_reply rs) = Ok tt | None => True end ->
  fst (handler type id user rs w)
  = Ok (mkResponse true
          (document (mkDoc (fields d) (views d + 1) (lastUpdated d)
                           (cacheExpiry d)))) /\
  calls (snd (handler type id user rs w))
  = calls w ++ [Content_findOne id type; Content_save (tmdbId (fields d))]
            ++ match user with Some u => [User_save (uid u)] | None => [] end.
Proof.
  intros Ht Hf Hd Hfresh Hs Hu.
  destruct (movie_or_tv _ Ht) as [Hv Hr].
  assert (Hn : Models.needsUpdate d (now w + elapsed (findOne_reply rs)) = false).
  { unfold Models.needsUpdate. apply Z.ltb_ge. lia. }
  unfold handler. rewrite Hv, Hr. cbn [negb].
  unfold Eff.try_catch, Eff.bind, Models.findOne, Eff.bind, await, Eff.get, Eff.ret.
  rewrite Hf. cbn [contents now]. rewrite Hd, Hn.
  unfold Models.incrementViews, Eff.bind, await, Eff.modify. rewrite Hs.
  destruct user as [u|].
  - unfold Models.addToWatchHistory, Eff.bind, await, Eff.modify. rewrite Hu.
    cbn. split; [reflexivity|]. now rewrite <- !app_assoc.
  - cbn. split; [reflexivity|]. now rewrite <- !app_assoc.
Qed.

(** When no document is found, or the one found has expired, a failure of the
    TMDB request fails the request. *)
Lemma fetch_failure_fails_request type id user rs (w : World) e :
  type = "movie" \/ type = "tv" ->
  match List.find (Models.matches id type) (contents w) with
  | Some d => cacheExpiry d < now w + elapsed (findOne_reply rs)
  | None => True
  end ->
  result (details_reply rs) = Throw e ->
  fst (handler type id user rs w) = Throw (failed type).
Proof.
  intros Ht Hd He.
  destruct (movie_or_tv _ Ht) as [Hv Hr].
  unfold handler. rewrite Hv. cbn [negb].
  rewrite try_catch_rethrow; [reflexivity|].
  apply bind_throws_l. rewrite Hr.
  destruct (result (findOne_reply rs)) as [[]|e'] eqn:Hf.
  2:{ apply bind_throws_l. unfold Models.findOne. apply bind_throws_l.
      now apply await_throws with e'. }
  eapply bind_throws_ok.
  { unfold Models.findOne.
    erewrite bind_ok; [|unfold await; rewrite Hf; reflexivity].
    reflexivity. }
  eapply bind_throws_ok; [reflexivity|].
  cbn [contents now].
  apply bind_throws_l.
  assert (Hfetch : forall (K : TmdbData.Details -> M content) w0,
             throws
               (Eff.bind
                  (if String.eqb type "movie"
                   then Tmdb.getMovieDetails id (details_reply rs)
                   else Tmdb.getTVShowDetails id (details_reply rs)) K) w0).
  { intros K w0. apply bind_throws_l.
    destruct (String.eqb type "movie");
      now apply CacheProps.makeRequest_throws with e. }
  destruct (List.find (Models.matches id type) (contents w)) as [d|];
    [|apply Hfetch].
  unfold Models.needsUpdate. apply Z.ltb_lt in Hd. rewrite Hd. apply Hfetch.
Qed.

(** C1, as the specification has it, fails: with a document of the movie in
    the collection whose [cacheExpiry] has passed and TMDB timing out, the
    request is answered by [AppError('Failed to fetch movie details', 500)],
    not by the document. *)
Lemma stale_document_not_served :
  List.find (Models.matches "550" "movie") (contents Examples.staleWorld)
  = Some Examples.fightClubDoc /\
  Models.needsUpdate Examples.fightClubDoc (now Examples.staleWorld) = true /\
  (exists e, result (details_reply Examples.tmdbDown) = Throw e) /\
  fst (handler "movie" "550" None Examples.tmdbDown Examples.staleWorld)
  = Throw (AppError "Failed to fetch movie details" 500).
Proof.
  split; [reflexivity|]. split; [reflexivity|].
  split; [eexists; reflexivity|]. vm_compute. reflexivity.
Qed.

(** C1, amended: for a movie or a show, a document of the collection whose
    [cacheExpiry] has not passed is returned without a call to TMDB; when no
    document is found or the one found has expired, a failure of the TMDB
    request fails the request with [AppError('Failed to fetch <type>
    details', 500)], whether or not a document exists. *)
Theorem resolution_serves_fresh_or_fails type id user rs (w : World) :
  type = "movie" \/ type = "tv" ->
  (forall d,
      result (findOne_reply rs) = Ok tt ->
      List.find (Models.matches id type) (contents w) = Some d ->
      now w + elapsed (findOne_reply rs) <= cacheExpiry d ->
      result (views_reply rs) = Ok tt ->
      match user with
      | Some _ => result (history_reply rs) = Ok tt
      | None => True
      end ->
      fst (handler type id user rs w)
      = Ok (mkResponse true
              (document (mkDoc (fields d) (views d + 1) (lastUpdated d)
                               (cacheExpiry d)))) /\
      calls (snd (handler type id user rs w))
      = calls w ++ [Content_findOne id type; Content_save (tmdbId (fields d))]
                ++ match user with
                   | Some u => [User_save (uid u)]
                   | None => []
                   end) /\
  (forall e,
      match List.find (Models.matches id type) (contents w) with
      | Some d => cacheExpiry d < now w + elapsed (findOne_reply rs)
      | None => True
      end ->
      result (details_reply rs) = Throw e ->
      fst (handler type id user rs w) = Throw (failed type)).
Proof.
  intros Ht. split.
  - intros d. now apply fresh_document_served.
  - intros e. now apply fetch_failure_fails_request.
Qed.

Lemma resolution_serves_fresh_or_fails_witness :
  fst (handler "movie" "550" None Examples.tmdbDown Examples.freshWorld)
  = Ok (mkResponse true
          (document (mkDoc Examples.fightClub 8 0 86400000))) /\
  fst (handler "movie" "550" None Examples.tmdbDown Examples.staleWorld)
  = Throw (failed "movie").
Proof.
  split.
  - apply (proj1 (resolution_serves_fresh_or_fails "movie" "550" None
                    Examples.tmdbDown Examples.freshWorld (or_introl eq_refl))
                 Examples.fightClubDoc);
      first [reflexivity | exact I | vm_compute; discriminate].
  - apply (proj2 (resolution_serves_fresh_or_fails "movie" "550" None
                    Examples.tmdbDown Examples.staleWorld (or_introl eq_refl))
                 (AxiosError (Some "ECONNABORTED") "timeout of 30000ms exceeded"
                             None None));
      [vm_compute|]; reflexivity.
Defined.

(** C4: a request for a kind other than movie, tv and radio is answered by
    [AppError('Invalid content type', 400)] and the state of the server (call
    log, caches, collections) is the one before the request: no collaborator
    was called and nothing was written. *)
Theorem invalid_type_rejected type id user rs (w : World) :
  type <> "movie" -> type <> "tv" -> type <> "radio" ->
  handler type id user rs w = (Throw (AppError "Invalid content type" 400), w).
Proof.
  intros Hm Ht Hr. unfold handler.
  destruct (valid_type type) eqn:E.
  - apply valid_type_spec in E. tauto.
  - reflexivity.
Qed.

Lemma invalid_type_rejected_witness :
  handler "podcast" "42" (Some Examples.alice) Examples.allUp Examples.staleWorld
  = (Throw (AppError "Invalid content type" 400), Examples.staleWorld).
Proof.
  apply (invalid_type_rejected "podcast" "42" (Some Examples.alice)
           Examples.allUp Examples.staleWorld); discriminate.
Defined.

(** C7, as the specification has it, fails: for a logged-in user and a movie
    whose document is in the collection and has not expired, an error of the
    saving of the watch history makes the request fail with
    [AppError('Failed to fetch movie details', 500)]. *)
Lemma watch_history_error_not_swallowed :
  (exists e, result (history_reply Examples.historyDown) = Throw e) /\
  fst (handler "movie" "550" None Examples.historyDown Examples.freshWorld)
  = Ok (mkResponse true (document (mkDoc Examples.fightClub 8 0 86400000))) /\
  fst (handler "movie" "550" (Some Examples.alice) Examples.historyDown
               Examples.freshWorld)
  = Throw (AppError "Failed to fetch movie details" 500).
Proof.
  split; [eexists; reflexivity|]. split; vm_compute; reflexivity.
Qed.

(** C7, amended: for a logged-in user and a movie or a show, the entry of the
    watch history is appended inside the handler's [try]: an error raised by
    [addToWatchHistory] fails the request with [AppError('Failed to fetch
    <type> details', 500)]. *)
Theorem watch_history_failure_fails_request type id u rs (w : World) e :
  type = "movie" \/ type = "tv" ->
  result (history_reply rs) = Throw e ->
  fst (handler type id (Some u) rs w) = Throw (failed type).
Proof.
  intros Ht He.
  destruct (movie_or_tv _ Ht) as [Hv Hr].
  unfold handler. rewrite Hv. cbn [negb].
  rewrite try_catch_rethrow; [reflexivity|].
  apply bind_throws_r. intros content w'. rewrite Hr. cbn [negb].
  apply bind_throws_l. now apply addToWatchHistory_throws with e.
Qed.

Lemma watch_history_failure_fails_request_witness :
  fst (handler "tv" "1399" (Some Examples.alice) Examples.historyDown
               Examples.freshWorld)
  = Throw (failed "tv").
Proof.
  apply (watch_history_failure_fails_request "tv" "1399" Examples.alice
           Examples.historyDown Examples.freshWorld
           (Error "connection to the database lost") (or_intror eq_refl)).
  reflexivity.
Defined.

End ContentRouteProps.

(** ** The search route *)

Module SearchRouteProps.

Import SearchRoute SearchSpec EffFacts.


Lemma inject_Z_nonpos z : Qle_bool (inject_Z z) 0 = true <-> z <= 0.
Proof.
  rewrite Qle_bool_iff. unfold Qle, inject_Z. cbn [Qnum Qden]. lia.
Qed.



Section Platform.

Variable getFullYear : string -> option Z.
Variable localeCompare : string -> string -> Z.

Let handler := SearchRoute.handler getFullYear localeCompare.
Let tmdbBranch := SearchRoute.tmdbBranch getFullYear.
Let respond := SearchRoute.respond localeCompare.
Let sortFunction := SearchRoute.sortFunction localeCompare.

Lemma tmdbBranch_total type query page r w :
  exists found w', tmdbBranch type query page r w = (Ok found, w').
Proof.
  unfold tmdbBranch, SearchRoute.tmdbBranch.
  destruct (_ || _ || _); [|unfold Eff.ret; eauto].
  unfold Eff.try_catch, Eff.bind, Eff.ret.
  destruct (Tmdb.search query page r w) as [[pg|e] w1]; eauto.
Qed.

Lemma tmdbBranch_failure query page r w :
  throws (Tmdb.search query page r) w ->
  tmdbBranch "all" query page r w
  = (Ok ([], [], 0), snd (Tmdb.search query page r w)).
Proof.
  intros [e He]. unfold tmdbBranch, SearchRoute.tmdbBranch.
  rewrite !String.eqb_refl. cbn [orb].
  unfold Eff.try_catch, Eff.bind, Eff.ret.
  destruct (Tmdb.search query page r w) as [[pg|e'] w1]; [discriminate|reflexivity].
Qed.

Lemma tmdbBranch_page query page r w pg w1 :
  Tmdb.search query page r w = (Ok pg, w1) ->
  tmdbBranch "all" query page r w
  = (Ok (List.map (transformedItem getFullYear)
                  (List.filter (is_kind "movie") (TmdbData.results pg)),
         List.map (transformedItem getFullYear)
                  (List.filter (is_kind "tv") (TmdbData.results pg)),
         default 0 (TmdbData.total_results pg)), w1).
Proof.
  intros H. unfold tmdbBranch, SearchRoute.tmdbBranch.
  rewrite !String.eqb_refl. cbn [orb].
  unfold Eff.try_catch, Eff.bind, Eff.ret. rewrite H.
  destruct (TmdbData.total_results pg); reflexivity.
Qed.

Lemma radioBranch_outcome query genre page limit find count w :
  fst (radioBranch "all" query genre page limit find count w)
  = match result find, result count with
    | Ok docs, Ok c => Ok (List.map radioItem docs, c)
    | Throw e, _ => Throw e
    | Ok _, Throw e => Throw e
    end.
Proof.
  unfold radioBranch. rewrite !String.eqb_refl. cbn [orb].
  unfold Eff.bind, await, Eff.ret.
  destruct (result find); [|reflexivity].
  destruct (result count); reflexivity.
Qed.

(** The handler on a valid query, from what the two branches give. *)
Lemma handler_run req rs w found w1 :
  valid_query (q req) = true ->
  tmdbBranch (type_of req) (query_of req)
             (page_of req) (tmdb_reply rs) w = (Ok found, w1) ->
  fst (handler req rs w)
  = match fst (radioBranch (type_of req) (query_of req)
                 (q_genre req) (page_of req)
                 (limit_of req) (find_reply rs) (count_reply rs) w1)
    with
    | Ok stations =>
        Ok (respond (type_of req)
              (sortBy_of req) (page_of req)
              (limit_of req) (query_of req) (q_year req)
              (fst (fst found)) (snd (fst found)) (fst stations)
              (snd found + snd stations))
    | Throw _ => Throw search_failed
    end.
Proof.
  intros Hv Ht. unfold handler, SearchRoute.handler. rewrite Hv. cbn [negb].
  unfold Eff.try_catch. unfold tmdbBranch in Ht.
  rewrite (bind_ok _ _ _ _ _ Ht). unfold Eff.bind at 1.
  destruct (radioBranch _ _ _ _ _ _ _ w1) as [[stations|e] w2]; reflexivity.
Qed.



Lemma respond_all_results sortBy page limit query year movies0 tv0 stations total :
  exists d,
    respond "all" sortBy page limit query year movies0 tv0 stations total
    = mkResponse 200 true None (Some d) /\
    Permutation (results d)
      (yearFilter year movies0 ++ yearFilter year tv0 ++ stations) /\
    (hasMore (pagination d) = true <->
     Js.parseInt limit = Some (Z.of_nat (List.length (results d)))) /\
    movies (breakdown d) = Z.of_nat (List.length (yearFilter year movies0)) /\
    tv (breakdown d) = Z.of_nat (List.length (yearFilter year tv0)) /\
    radio (breakdown d) = Z.of_nat (List.length stations) /\
    SearchRoute.total (breakdown d) = total.
Proof.
  eexists. split; [reflexivity|]. cbn [data results pagination hasMore breakdown
    movies tv SearchRoute.radio SearchRoute.total].
  rewrite String.eqb_refl, !JsFacts.sort_length.
  split; [|split; [|repeat split]].
  - rewrite <- JsFacts.sort_perm.
    now rewrite <- (JsFacts.sort_perm _ (yearFilter year movies0)),
                <- (JsFacts.sort_perm _ (yearFilter year tv0)).
  - destruct (Js.parseInt limit) as [n|]; cbn [Js.option_eqb].
    + rewrite Z.eqb_eq. split; congruence.
    + split; discriminate.
Qed.

Lemma handler_all req rs (w : World) found w1 stations :
  valid_query (q req) = true ->
  type_of req = "all" ->
  tmdbBranch "all" (query_of req) (page_of req)
             (tmdb_reply rs) w = (Ok found, w1) ->
  fst (radioBranch "all" (query_of req) (q_genre req)
         (page_of req) (limit_of req)
         (find_reply rs) (count_reply rs) w1) = Ok stations ->
  fst (handler req rs w)
  = Ok (respond "all" (sortBy_of req)
          (page_of req) (limit_of req)
          (query_of req) (q_year req)
          (fst (fst found)) (snd (fst found)) (fst stations)
          (snd found + snd stations)).
Proof.
  intros Hv Ha Ht Hr.
  rewrite (handler_run req rs w found w1 Hv); rewrite Ha; [|exact Ht].
  now rewrite Hr.
Qed.

(** C2, amended: in a search of type [all] the handler applies no window to
    the merged list: the response carries every movie and show that the TMDB
    branch gave (those of the year asked for, when a year is given) and
    every station of the page that the radio branch read from the
    collection, and [hasMore] is true exactly when the number of results
    returned is [parseInt(limit)]. *)
Theorem merged_list_returned_whole req rs (w : World) movies0 tv0 n w1
    stations c :
  valid_query (q req) = true ->
  type_of req = "all" ->
  tmdbBranch "all" (query_of req) (page_of req)
             (tmdb_reply rs) w = (Ok (movies0, tv0, n), w1) ->
  fst (radioBranch "all" (query_of req) (q_genre req)
         (page_of req) (limit_of req)
         (find_reply rs) (count_reply rs) w1) = Ok (stations, c) ->
  exists d,
    fst (handler req rs w) = Ok (mkResponse 200 true None (Some d)) /\
    Permutation (results d)
      (yearFilter (q_year req) movies0 ++ yearFilter (q_year req) tv0
       ++ stations) /\
    (hasMore (pagination d) = true <->
     Js.parseInt (limit_of req)
     = Some (Z.of_nat (List.length (results d)))).
Proof.
  intros Hv Ha Ht Hr.
  rewrite (handler_all req rs w _ _ _ Hv Ha Ht Hr). cbn [fst snd].
  destruct (respond_all_results (sortBy_of req)
              (page_of req) (limit_of req)
              (query_of req) (q_year req) movies0 tv0 stations (n + c))
    as (d & -> & Hp & Hm & _).
  eauto.
Qed.

(** C5, amended: in a search of type [all], when the TMDB search throws the
    response is successful, has no movie and no show and carries the stations
    of the radio branch; when a query of the radio branch ([find] or
    [countDocuments]) throws, the request fails with [AppError('Search
    failed', 500)]. *)
Theorem tmdb_failure_degrades_radio_failure_fails req rs (w : World) :
  valid_query (q req) = true ->
  type_of req = "all" ->
  (throws (Tmdb.search (query_of req) (page_of req)
                       (tmdb_reply rs)) w ->
   forall docs c,
     result (find_reply rs) = Ok docs -> result (count_reply rs) = Ok c ->
     exists d,
       fst (handler req rs w) = Ok (mkResponse 200 true None (Some d)) /\
       Permutation (results d) (List.map radioItem docs) /\
       movies (breakdown d) = 0 /\ tv (breakdown d) = 0 /\
       radio (breakdown d) = Z.of_nat (List.length docs)) /\
  (forall e,
     result (find_reply rs) = Throw e \/ result (count_reply rs) = Throw e ->
     fst (handler req rs w) = Throw search_failed).
Proof.
  intros Hv Ha. split.
  - intros Hthrows docs c Hf Hc.
    apply tmdbBranch_failure in Hthrows.
    assert (Hr : fst (radioBranch "all" (query_of req) (q_genre req)
                        (page_of req) (limit_of req)
                        (find_reply rs) (count_reply rs)
                        (snd (Tmdb.search (query_of req)
                                (page_of req) (tmdb_reply rs) w)))
                 = Ok (List.map radioItem docs, c)).
    { now rewrite radioBranch_outcome, Hf, Hc. }
    rewrite (handler_all req rs w _ _ _ Hv Ha Hthrows Hr). cbn [fst snd].
    destruct (respond_all_results (sortBy_of req)
                (page_of req) (limit_of req)
                (query_of req) (q_year req) [] [] (List.map radioItem docs)
                (0 + c))
      as (d & -> & Hp & _ & Hm & Ht & Hrd & _).
    exists d. split; [reflexivity|]. split.
    + rewrite Hp. unfold yearFilter.
      destruct (Js.truthy_str (q_year req)); reflexivity.
    + rewrite Hm, Ht, Hrd, length_map. unfold yearFilter.
      destruct (Js.truthy_str (q_year req)); auto.
  - intros e He.
    destruct (tmdbBranch_total "all" (query_of req)
                (page_of req) (tmdb_reply rs) w)
      as (found & w1 & Ht).
    rewrite (handler_run req rs w found w1 Hv); rewrite Ha; [|exact Ht].
    rewrite radioBranch_outcome.
    destruct He as [He|He]; rewrite He; [reflexivity|].
    destruct (result (find_reply rs)); reflexivity.
Qed.

Lemma kinds_length (l : list TmdbData.Item) :
  (List.length (List.filter (is_kind "movie") l)
   + List.length (List.filter (is_kind "tv") l) <= List.length l)%nat.
Proof.
  induction l as [|x t IH]; [reflexivity|]. cbn [List.filter].
  assert (H : is_kind "movie" x && is_kind "tv" x = false).
  { unfold is_kind. destruct (TmdbData.media_type x) as [k|]; [|reflexivity].
    cbn [Js.option_eqb]. destruct (String.eqb k "movie") eqn:E; [|reflexivity].
    apply String.eqb_eq in E. now subst k. }
  destruct (is_kind "movie" x), (is_kind "tv" x); try discriminate;
    cbn [List.length]; lia.
Qed.

Lemma yearFilter_length year (l : list Item) :
  (List.length (yearFilter year l) <= List.length l)%nat.
Proof.
  unfold yearFilter. destruct (Js.truthy_str year); [|lia].
  apply List.filter_length_le.
Qed.

(** C6, amended: in a successful search of type [all], [breakdown.total] is
    the [total_results] of the TMDB page (0 when it is missing) plus the
    count of the stations that match in the collection, whereas
    [breakdown.movies], [breakdown.tv] and [breakdown.radio] count the
    entries of the lists of the response: the movies and shows are at most
    those of the TMDB page and the stations are those the collection
    returned. *)
Theorem total_is_sum_of_upstream_totals req rs (w : World) pg w1 docs c :
  valid_query (q req) = true ->
  type_of req = "all" ->
  Tmdb.search (query_of req) (page_of req) (tmdb_reply rs) w
  = (Ok pg, w1) ->
  result (find_reply rs) = Ok docs ->
  result (count_reply rs) = Ok c ->
  exists d,
    fst (handler req rs w) = Ok (mkResponse 200 true None (Some d)) /\
    total (breakdown d) = default 0 (TmdbData.total_results pg) + c /\
    movies (breakdown d) + tv (breakdown d)
    <= Z.of_nat (List.length (TmdbData.results pg)) /\
    radio (breakdown d) = Z.of_nat (List.length docs).
Proof.
  intros Hv Ha Hs Hf Hc.
  apply tmdbBranch_page in Hs.
  assert (Hr : fst (radioBranch "all" (query_of req) (q_genre req)
                      (page_of req) (limit_of req)
                      (find_reply rs) (count_reply rs) w1)
               = Ok (List.map radioItem docs, c)).
  { now rewrite radioBranch_outcome, Hf, Hc. }
  rewrite (handler_all req rs w _ _ _ Hv Ha Hs Hr). cbn [fst snd].
  destruct (respond_all_results (sortBy_of req)
              (page_of req) (limit_of req)
              (query_of req) (q_year req)
              (List.map (transformedItem getFullYear)
                 (List.filter (is_kind "movie") (TmdbData.results pg)))
              (List.map (transformedItem getFullYear)
                 (List.filter (is_kind "tv") (TmdbData.results pg)))
              (List.map radioItem docs)
              (default 0 (TmdbData.total_results pg) + c))
    as (d & -> & _ & _ & Hm & Ht & Hrd & Htot).
  exists d. split; [reflexivity|]. split; [exact Htot|]. split.
  - rewrite Hm, Ht.
    pose proof (yearFilter_length (q_year req)
                  (List.map (transformedItem getFullYear)
                     (List.filter (is_kind "movie") (TmdbData.results pg)))) as H1.
    pose proof (yearFilter_length (q_year req)
                  (List.map (transformedItem getFullYear)
                     (List.filter (is_kind "tv") (TmdbData.results pg)))) as H2.
    rewrite length_map in H1, H2.
    pose proof (kinds_length (TmdbData.results pg)). lia.
  - now rewrite Hrd, length_map.
Qed.



End Platform.

(** *** The platform of the examples *)








(** *** The examples of the specification, run *)


(** C2, as the specification has it, fails: with [limit=2] and five merged
    results, the first page carries the five results and [hasMore] is
    false. *)
Lemma five_results_on_a_page_of_two :
  exists d,
    run (Examples.search_for None (Some "2") None)
        (Examples.searchReplies (Examples.ok Examples.fiveResults)
                                (Examples.ok []))
    = Ok (mkResponse 200 true None (Some d)) /\
    currentPage (pagination d) = Some 1 /\
    limit (pagination d) = Some 2 /\
    List.length (results d) = 5%nat /\
    hasMore (pagination d) = false.
Proof. eexists. split; [vm_compute; reflexivity|]. repeat split. Qed.

Lemma merged_list_returned_whole_witness :
  exists d,
    run (Examples.search_for None (Some "2") None)
        (Examples.searchReplies (Examples.ok Examples.fiveResults)
                                (Examples.ok [Examples.radioMatrix]))
    = Ok (mkResponse 200 true None (Some d)) /\
    Permutation (results d)
      (yearFilter None
         (List.map (transformedItem Examples.utcYear)
            (List.filter (is_kind "movie")
               (TmdbData.results Examples.fiveResults)))
       ++ yearFilter None
            (List.map (transformedItem Examples.utcYear)
               (List.filter (is_kind "tv")
                  (TmdbData.results Examples.fiveResults)))
       ++ [radioItem Examples.radioMatrix]) /\
    (hasMore (pagination d) = true <->
     Js.parseInt "2" = Some (Z.of_nat (List.length (results d)))).
Proof.
  apply (merged_list_returned_whole Examples.utcYear Examples.collate
           (Examples.search_for None (Some "2") None)
           (Examples.searchReplies (Examples.ok Examples.fiveResults)
                                   (Examples.ok [Examples.radioMatrix]))
           Examples.freshWorld _ _ 100
           (snd (SearchRoute.tmdbBranch Examples.utcYear "all" "matrix" "1"
                   (Examples.ok Examples.fiveResults) Examples.freshWorld))
           _ 1);
    vm_compute; reflexivity.
Defined.

(** C5, as the specification has it, fails: TMDB answers and the query of
    the stations fails; the whole search fails with [AppError('Search
    failed', 500)] and the results of TMDB are not returned. *)
Lemma radio_failure_fails_search :
  result (tmdb_reply (Examples.searchReplies (Examples.ok Examples.fiveResults)
                                             Examples.write_failed))
  = Ok Examples.fiveResults /\
  (exists e,
      result (find_reply (Examples.searchReplies
                            (Examples.ok Examples.fiveResults)
                            Examples.write_failed)) = Throw e) /\
  run (Examples.search_for None None None)
      (Examples.searchReplies (Examples.ok Examples.fiveResults)
                              Examples.write_failed)
  = Throw (AppError "Search failed" 500).
Proof.
  split; [reflexivity|]. split; [eexists; reflexivity|].
  vm_compute. reflexivity.
Qed.

Lemma tmdb_failure_degrades_radio_failure_fails_witness :
  (exists d,
      run (Examples.search_for None None None)
          (Examples.searchReplies Examples.timed_out
                                  (Examples.ok [Examples.radioMatrix]))
      = Ok (mkResponse 200 true None (Some d)) /\
      Permutation (results d) (List.map radioItem [Examples.radioMatrix]) /\
      movies (breakdown d) = 0 /\ tv (breakdown d) = 0 /\
      radio (breakdown d) = 1) /\
  run (Examples.search_for None None None)
      (Examples.searchReplies (Examples.ok Examples.fiveResults)
                              Examples.write_failed)
  = Throw search_failed.
Proof.
  split.
  - refine (proj1 (tmdb_failure_degrades_radio_failure_fails
                     Examples.utcYear Examples.collate
                     (Examples.search_for None None None)
                     (Examples.searchReplies Examples.timed_out
                                             (Examples.ok [Examples.radioMatrix]))
                     Examples.freshWorld eq_refl eq_refl)
                  _ [Examples.radioMatrix] 1 eq_refl eq_refl).
    eexists. vm_compute. reflexivity.
  - apply (proj2 (tmdb_failure_degrades_radio_failure_fails
                    Examples.utcYear Examples.collate
                    (Examples.search_for None None None)
                    (Examples.searchReplies (Examples.ok Examples.fiveResults)
                                            Examples.write_failed)
                    Examples.freshWorld eq_refl eq_refl)
                 (Error "connection to the database lost")).
    left. reflexivity.
Defined.

(** C6, as the specification has it, fails: TMDB reports a hundred matches
    and gives five of them on the page, one station matches and is on the
    page; the response counts 3 movies, 2 shows and 1 station and a total of
    101. *)
Lemma total_differs_from_breakdown_sum :
  exists d,
    run (Examples.search_for None None None)
        (Examples.searchReplies (Examples.ok Examples.fiveResults)
                                (Examples.ok [Examples.radioMatrix]))
    = Ok (mkResponse 200 true None (Some d)) /\
    movies (breakdown d) = 3 /\ tv (breakdown d) = 2 /\
    radio (breakdown d) = 1 /\ total (breakdown d) = 101 /\
    total (breakdown d)
    <> movies (breakdown d) + tv (breakdown d) + radio (breakdown d).
Proof.
  eexists. split; [vm_compute; reflexivity|]. repeat split. discriminate.
Qed.

Lemma total_is_sum_of_upstream_totals_witness :
  exists d,
    run (Examples.search_for None None None)
        (Examples.searchReplies (Examples.ok Examples.fiveResults)
                                (Examples.ok [Examples.radioMatrix]))
    = Ok (mkResponse 200 true None (Some d)) /\
    total (breakdown d) = default 0 (Some 100) + 1 /\
    movies (breakdown d) + tv (breakdown d) <= Z.of_nat 5 /\
    radio (breakdown d) = Z.of_nat 1.
Proof.
  apply (total_is_sum_of_upstream_totals Examples.utcYear Examples.collate
           (Examples.search_for None None None)
           (Examples.searchReplies (Examples.ok Examples.fiveResults)
                                   (Examples.ok [Examples.radioMatrix]))
           Examples.freshWorld Examples.fiveResults
           (snd (Tmdb.search "matrix" "1" (Examples.ok Examples.fiveResults)
                   Examples.freshWorld))
           [Examples.radioMatrix] 1);
    vm_compute; reflexivity.
Defined.


End SearchRouteProps.

(** ** The radio service: rate limiter, cache, details and genres *)

Module ServiceProps.

Import RadioData Radio RadioSpec ServiceSpec EffFacts.

(** *** A Hoare logic for an invariant of the state *)

Lemma keeps_ret {A} I (a : A) (Q : A -> Prop) : Q a -> keeps I (Eff.ret a) Q.
Proof. intros H w Hw. split; [exact Hw|]. now intros a' [= <-]. Qed.

Lemma keeps_throw {A} I e (Q : A -> Prop) : keeps I (Eff.throw e) Q.
Proof. intros w Hw. split; [exact Hw|]. discriminate. Qed.

Lemma keeps_bind {A B} I (m : M A) (k : A -> M B) (P : A -> Prop)
    (Q : B -> Prop) :
  keeps I m P -> (forall a, P a -> keeps I (k a) Q) -> keeps I (Eff.bind m k) Q.
Proof.
  intros Hm Hk w Hw. destruct (Hm w Hw) as [Hc Ha]. unfold Eff.bind.
  destruct (m w) as [[a|e] w1]; cbn [fst snd] in *.
  - now apply (Hk a (Ha a eq_refl)).
  - split; [exact Hc|discriminate].
Qed.

Lemma keeps_try_catch {A} I (m : M A) h (Q : A -> Prop) :
  keeps I m Q -> (forall e, keeps I (h e) Q) -> keeps I (Eff.try_catch m h) Q.
Proof.
  intros Hm Hh w Hw. destruct (Hm w Hw) as [Hc Ha]. unfold Eff.try_catch.
  destruct (m w) as [[a|e] w1]; cbn [fst snd] in *.
  - split; [exact Hc|]. intros a' [= <-]. now apply Ha.
  - now apply Hh.
Qed.

Lemma keeps_weaken {A} I (m : M A) (P Q : A -> Prop) :
  keeps I m P -> (forall a, P a -> Q a) -> keeps I m Q.
Proof.
  intros Hm HPQ w Hw. destruct (Hm w Hw) as [Hc Ha]. split; [exact Hc|].
  intros a E. now apply HPQ, Ha.
Qed.

(** *** The rate limiter *)

Lemma keeps_limiter_checkRateLimit :
  keeps limiter_ok checkRateLimit (fun _ => True).
Proof.
  intros w [H0 H1]. unfold checkRateLimit, limiter_ok. cbv zeta.
  destruct (resetInterval <? now w - lastReset (limiter w));
    match goal with
    | |- context [maxRequests <=? ?x] => destruct (Z.leb_spec maxRequests x)
    end;
    cbn [fst snd limiter set_limiter requests lastReset] in *;
    unfold maxRequests in *; (split; [lia|auto]).
Qed.

Lemma keeps_limiter_await {A} c (r : Reply A) :
  keeps limiter_ok (await c r) (fun _ => True).
Proof. intros w Hw. cbn. auto. Qed.

Lemma keeps_limiter_cache_get k : keeps limiter_ok (cache_get k) (fun _ => True).
Proof.
  intros w Hw. unfold cache_get.
  destruct (radio_cache w !! k) as [e|]; [|cbn; auto].
  destruct (_ && _); cbn; auto.
Qed.

Lemma keeps_limiter_cache_set k val ttl :
  keeps limiter_ok (cache_set k val ttl) (fun _ => True).
Proof. intros w Hw. cbn. auto. Qed.

Ltac limiter_steps :=
  repeat first
    [ apply keeps_try_catch; [|intros ?; first [apply keeps_throw | now apply keeps_ret]]
    | eapply keeps_bind; [apply keeps_limiter_checkRateLimit|intros _ _]
    | eapply keeps_bind; [apply keeps_limiter_cache_get|intros [?|] _]
    | eapply keeps_bind; [apply keeps_limiter_await|intros ? _]
    | eapply keeps_bind; [apply keeps_limiter_cache_set|intros _ _]
    | apply keeps_throw
    | now apply keeps_ret ].

Lemma keeps_limiter_cachedListing key c limit r failure :
  keeps limiter_ok (cachedListing key c limit r failure) (fun _ => True).
Proof. unfold cachedListing. limiter_steps. Qed.

Lemma keeps_limiter_getStationDetails id r :
  keeps limiter_ok (getStationDetails id r) (fun _ => True).
Proof.
  unfold getStationDetails. limiter_steps.
  destruct a as [|s l]; [apply keeps_throw|].
  destruct (_ || _); limiter_steps.
Qed.

Lemma keeps_limiter_getStreamUrl id r :
  keeps limiter_ok (getStreamUrl id r) (fun _ => True).
Proof.
  unfold getStreamUrl. apply keeps_try_catch; [|intros e; apply keeps_throw].
  eapply keeps_bind; [apply keeps_limiter_getStationDetails|].
  intros [] _; now apply keeps_ret.
Qed.

Lemma keeps_limiter_clickStation id r :
  keeps limiter_ok (clickStation id r) (fun _ => True).
Proof. unfold clickStation. limiter_steps. Qed.

Lemma keeps_limiter_getCountries r :
  keeps limiter_ok (getCountries r) (fun _ => True).
Proof. unfold getCountries. limiter_steps. Qed.

Lemma keeps_limiter_getGenres r :
  keeps limiter_ok (getGenres r) (fun _ => True).
Proof. unfold getGenres. limiter_steps. Qed.

(** X1: Every method of the radio service leaves the counter of the rate limiter
    between 0 and [maxRequests]. *)
Theorem methods_keep_limiter_bounded (w : World) :
  limiter_ok w ->
  (forall limit r, limiter_ok (snd (getPopularStations limit r w)))
  /\ (forall country limit r,
         limiter_ok (snd (getStationsByCountry country limit r w)))
  /\ (forall genre limit r, limiter_ok (snd (getStationsByGenre genre limit r w)))
  /\ (forall query limit r, limiter_ok (snd (searchStations query limit r w)))
  /\ (forall id r, limiter_ok (snd (getStationDetails id r w)))
  /\ (forall id r, limiter_ok (snd (getStreamUrl id r w)))
  /\ (forall id r, limiter_ok (snd (clickStation id r w)))
  /\ (forall r, limiter_ok (snd (getCountries r w)))
  /\ (forall r, limiter_ok (snd (getGenres r w)))
  /\ (forall r, limiter_ok (snd (healthCheck r w)))
  /\ limiter_ok (snd (clearCache w)).
Proof.
  intros Hw.
  repeat match goal with |- _ /\ _ => split end; intros;
    first [ now apply keeps_limiter_cachedListing
          | now apply keeps_limiter_getStationDetails
          | now apply keeps_limiter_getStreamUrl
          | now apply keeps_limiter_clickStation
          | now apply keeps_limiter_getCountries
          | now apply keeps_limiter_getGenres
          | exact Hw ].
Qed.

Lemma methods_keep_limiter_bounded_witness :
  limiter_ok
    (snd (getPopularStations 5 Examples.timed_out Examples.afterListing)).
Proof.
  apply (proj1 (methods_keep_limiter_bounded Examples.afterListing
                  ltac:(vm_compute; split; discriminate))).
Defined.

(** *** The rate limiter and the cache *)

Lemma set_limiter_same (w : World) : set_limiter (limiter w) w = w.
Proof. now destruct w. Qed.

Lemma checkRateLimit_blocked (w : World) :
  maxRequests <= requests (limiter w) ->
  now w - lastReset (limiter w) <= resetInterval ->
  checkRateLimit w
  = (Throw (Error "Rate limit exceeded. Please try again later."), w).
Proof.
  intros Hr Ht. unfold checkRateLimit. cbv zeta.
  replace (resetInterval <? now w - lastReset (limiter w)) with false
    by (symmetry; apply Z.ltb_ge; lia).
  replace (maxRequests <=? requests (limiter w)) with true
    by (symmetry; apply Z.leb_le; lia).
  now rewrite set_limiter_same.
Qed.

Lemma checkRateLimit_through (w : World) :
  lets_through w -> exists rl, checkRateLimit w = (Ok tt, set_limiter rl w).
Proof.
  intros H. unfold checkRateLimit. cbv zeta.
  destruct (Z.ltb_spec resetInterval (now w - lastReset (limiter w))) as [L|L].
  - cbn [requests lastReset]. change (maxRequests <=? 0) with false. eauto.
  - destruct H as [H|H]; [lia|].
    replace (maxRequests <=? requests (limiter w)) with false
      by (symmetry; apply Z.leb_gt; lia).
    eauto.
Qed.

Lemma list_stations_unfold l limit r :
  exists c failure,
    list_stations l limit r = cachedListing (cacheKey l limit) c limit r failure.
Proof. destruct l; eexists; eexists; reflexivity. Qed.

Lemma cachedListing_blocked key c limit r failure (w : World) :
  maxRequests <= requests (limiter w) ->
  now w - lastReset (limiter w) <= resetInterval ->
  cachedListing key c limit r failure w = (Throw (Error failure), w).
Proof.
  intros Hr Ht. unfold cachedListing, Eff.try_catch, Eff.bind.
  now rewrite checkRateLimit_blocked.
Qed.

Lemma cachedListing_hit key c limit r failure (w : World) e :
  lets_through w ->
  radio_cache w !! key = Some e -> live e (now w) ->
  exists rl,
    cachedListing key c limit r failure w = (Ok (v e), set_limiter rl w).
Proof.
  intros Hl He Hlive. destruct (checkRateLimit_through w Hl) as [rl Hrl].
  exists rl. unfold cachedListing, Eff.try_catch, Eff.bind. rewrite Hrl.
  unfold cache_get. cbn [radio_cache set_limiter now]. rewrite He.
  replace (negb (t e =? 0) && (t e <? now w)) with false; [reflexivity|].
  symmetry. destruct Hlive as [H0|H1].
  - rewrite H0. reflexivity.
  - apply andb_false_iff. right. apply Z.ltb_ge. lia.
Qed.

Lemma cachedListing_miss key c limit r failure (w : World) stations :
  lets_through w ->
  radio_cache w !! key = None -> result r = Ok stations ->
  exists rl,
    cachedListing key c limit r failure w
    = (Ok (listed limit stations),
       mkWorld (now w + elapsed r) (calls w ++ [c])
               (<[key := mkEntry (listed limit stations)
                                 (now w + elapsed r + stdTTL * 1000)]>
                  (radio_cache w))
               rl (tmdb_cache w) (apiKey w) (contents w) (users w)).
Proof.
  intros Hl He Hr. destruct (checkRateLimit_through w Hl) as [rl Hrl].
  exists rl. unfold cachedListing, Eff.try_catch, Eff.bind. rewrite Hrl.
  unfold cache_get. cbn [radio_cache set_limiter now]. rewrite He.
  unfold await. rewrite Hr. reflexivity.
Qed.

(** X2: When the rate limiter has counted [maxRequests] calls since its last
    reset, less than a minute ago, a listing throws its error, without
    reading the cache (a value cached for the key is not served) and without
    calling the API: the state is unchanged. *)
Theorem rate_limit_blocks_listing l limit r (w : World) :
  maxRequests <= requests (limiter w) ->
  now w - lastReset (limiter w) <= resetInterval ->
  exists failure, list_stations l limit r w = (Throw (Error failure), w).
Proof.
  intros Hr Ht. destruct (list_stations_unfold l limit r) as (c & failure & ->).
  exists failure. now apply cachedListing_blocked.
Qed.

Lemma rate_limit_blocks_listing_witness :
  (exists e,
      radio_cache saturated !! cacheKey popular 5 = Some e
      /\ live e (now saturated)) /\
  exists failure,
    list_stations popular 5
      (Examples.ok [Examples.station1; Examples.station3]) saturated
    = (Throw (Error failure), saturated).
Proof.
  split.
  - eexists. split; [vm_compute; reflexivity|]. right. vm_compute. discriminate.
  - apply (rate_limit_blocks_listing popular 5
             (Examples.ok [Examples.station1; Examples.station3]) saturated);
      vm_compute; discriminate.
Defined.

(** X3: A listing fetched from the API is served from the cache, without a call
    to the API and whatever the API would answer, to every later call of the
    same listing with the same limit that the rate limiter lets through in
    the five minutes that follow. *)
Theorem listing_round_trip l limit r (w : World) stations r2 (w2 : World) :
  lets_through w ->
  radio_cache w !! cacheKey l limit = None ->
  result r = Ok stations ->
  radio_cache w2 = radio_cache (snd (list_stations l limit r w)) ->
  lets_through w2 ->
  now w2 <= now w + elapsed r + 300000 ->
  fst (list_stations l limit r w) = Ok (listed limit stations)
  /\ fst (list_stations l limit r2 w2) = Ok (listed limit stations)
  /\ calls (snd (list_stations l limit r2 w2)) = calls w2.
Proof.
  intros Hl Hmiss Hr Hc Hl2 Ht.
  destruct (list_stations_unfold l limit r) as (c & failure & E).
  destruct (list_stations_unfold l limit r2) as (c2 & failure2 & E2).
  rewrite E in *. rewrite E2.
  destruct (cachedListing_miss _ c limit r failure w stations Hl Hmiss Hr)
    as [rl Hfirst].
  rewrite Hfirst in *. cbn [fst snd radio_cache] in Hc.
  split; [reflexivity|].
  destruct (cachedListing_hit (cacheKey l limit) c2 limit r2 failure2 w2
              (mkEntry (listed limit stations)
                       (now w + elapsed r + stdTTL * 1000)) Hl2)
    as [rl2 Hsecond].
  - rewrite Hc. apply lookup_insert_eq.
  - right. cbn [t]. unfold stdTTL. lia.
  - rewrite Hsecond. split; reflexivity.
Qed.

Lemma listing_round_trip_witness :
  fst (list_stations (byGenre "jazz") 2
         (Examples.ok [Examples.station1; Examples.station2; Examples.station3])
         Examples.freshWorld)
  = Ok (listed 2 [Examples.station1; Examples.station2; Examples.station3])
  /\ fst (list_stations (byGenre "jazz") 2 Examples.timed_out
            (Examples.later 200000
               (snd (list_stations (byGenre "jazz") 2
                       (Examples.ok [Examples.station1; Examples.station2;
                                     Examples.station3])
                       Examples.freshWorld))))
     = Ok (listed 2 [Examples.station1; Examples.station2; Examples.station3])
  /\ calls (snd (list_stations (byGenre "jazz") 2 Examples.timed_out
                   (Examples.later 200000
                      (snd (list_stations (byGenre "jazz") 2
                              (Examples.ok [Examples.station1;
                                            Examples.station2;
                                            Examples.station3])
                              Examples.freshWorld)))))
     = [radio_getStations (by_tag "jazz") 4].
Proof.
  apply (listing_round_trip (byGenre "jazz") 2
           (Examples.ok [Examples.station1; Examples.station2; Examples.station3])
           Examples.freshWorld
           [Examples.station1; Examples.station2; Examples.station3]
           Examples.timed_out).
  - left. vm_compute. reflexivity.
  - vm_compute. reflexivity.
  - reflexivity.
  - reflexivity.
  - right. vm_compute. reflexivity.
  - vm_compute. discriminate.
Defined.

(** X4: [clickStation] never throws: it answers [success: true] exactly when the
    rate limiter lets the call through and the API records the click, and
    [success: false] with the message of the error otherwise. *)
Theorem clickStation_never_throws id (r : Reply unit) (w : World) :
  exists answer,
    fst (clickStation id r w) = Ok answer
    /\ (answer = Ok tt <-> lets_through w /\ result r = Ok tt).
Proof.
  unfold clickStation, Eff.try_catch, Eff.bind.
  destruct (Z.ltb_spec resetInterval (now w - lastReset (limiter w))) as [L|L];
    [|destruct (Z.leb_spec maxRequests (requests (limiter w))) as [M|M]].
  - destruct (checkRateLimit_through w (or_introl L)) as [rl ->].
    unfold await. destruct (result r) as [[]|e]; cbn.
    + eexists. split; [reflexivity|]. split; auto. intros _. split; auto.
      now left.
    + eexists. split; [reflexivity|]. split; [discriminate|].
      intros [_ [=]].
  - rewrite checkRateLimit_blocked by assumption. cbn.
    eexists. split; [reflexivity|]. split; [discriminate|].
    intros [[H|H] _]; lia.
  - destruct (checkRateLimit_through w (or_intror M)) as [rl ->].
    unfold await. destruct (result r) as [[]|e]; cbn.
    + eexists. split; [reflexivity|]. split; auto. intros _. split; auto.
      now right.
    + eexists. split; [reflexivity|]. split; [discriminate|].
      intros [_ [=]].
Qed.

(** *** The kinds of the values in the cache *)

Lemma cache_typed_ext (w w' : World) :
  radio_cache w' = radio_cache w -> cache_typed w -> cache_typed w'.
Proof. intros E H k e. rewrite E. apply H. Qed.

Lemma keeps_typed_checkRateLimit :
  keeps cache_typed checkRateLimit (fun _ => True).
Proof.
  intros w Hw. split; [|auto]. apply (cache_typed_ext w); [|exact Hw].
  unfold checkRateLimit. cbv zeta. destruct (maxRequests <=? _); reflexivity.
Qed.

Lemma keeps_typed_await {A} c (r : Reply A) :
  keeps cache_typed (await c r) (fun _ => True).
Proof. intros w Hw. split; [|auto]. now apply (cache_typed_ext w). Qed.

Lemma keeps_typed_cache_get k :
  keeps cache_typed (cache_get k)
        (fun cached => forall val, cached = Some val -> fits k val).
Proof.
  intros w Hw. unfold cache_get.
  destruct (radio_cache w !! k) as [e|] eqn:E.
  - destruct (negb (t e =? 0) && (t e <? now w)); cbn [fst snd].
    + split; [|intros a [= <-] val [=]].
      intros k' e' H. cbn in H. apply lookup_delete_Some in H as [_ H].
      now apply Hw.
    + split; [exact Hw|]. intros a [= <-] val [= <-]. now apply (Hw k e).
  - cbn. split; [exact Hw|]. intros a [= <-] val [=].
Qed.

Lemma keeps_typed_cache_set k val ttl :
  fits k val -> keeps cache_typed (cache_set k val ttl) (fun _ => True).
Proof.
  intros Hval w Hw. split; [|auto]. intros k' e H. cbn in H.
  apply lookup_insert_Some in H as [[<- <-]|[_ H]]; [|now apply Hw].
  unfold wrap. destruct ttl as [[| |]|]; exact Hval.
Qed.

Lemma listing_fits key limit stations :
  listing_key key limit -> fits key (listed limit stations).
Proof.
  intros Hk. split; [|split; [|split]].
  - intros n Hn. rewrite (RadioProps.listing_key_limit key n limit Hn Hk).
    apply RadioProps.fetched_listing_ok.
  - intros id ->. now apply RadioProps.details_key_not_listing in Hk.
  - intros ->. now apply RadioProps.genres_key_not_listing in Hk.
  - intros ->. now apply RadioProps.countries_key_not_listing in Hk.
Qed.

Lemma details_fit id val : details_ok val -> fits ("station_details_" +:+ id) val.
Proof.
  intros Hd. split; [|split; [|split]]; try discriminate.
  - intros n Hn. now apply RadioProps.details_key_not_listing in Hn.
  - intros _ _. exact Hd.
Qed.

Lemma genres_fit val : genres_ok val -> fits "genres" val.
Proof.
  intros Hg. split; [|split; [|split]]; try discriminate.
  - intros n Hn. now apply RadioProps.genres_key_not_listing in Hn.
  - intros _. exact Hg.
Qed.

Lemma countries_fit val : countries_ok val -> fits "countries" val.
Proof.
  intros Hc. split; [|split; [|split]]; try discriminate.
  - intros n Hn. now apply RadioProps.countries_key_not_listing in Hn.
  - intros _. exact Hc.
Qed.

Lemma keeps_typed_cachedListing key c limit r failure :
  listing_key key limit ->
  keeps cache_typed (cachedListing key c limit r failure) (listing_ok limit).
Proof.
  intros Hk. unfold cachedListing.
  apply keeps_try_catch; [|intros e; apply keeps_throw].
  eapply keeps_bind; [apply keeps_typed_checkRateLimit|]. intros _ _.
  eapply keeps_bind; [apply keeps_typed_cache_get|]. intros [val|] Hval.
  - apply keeps_ret. now apply (proj1 (Hval val eq_refl)).
  - eapply keeps_bind; [apply keeps_typed_await|]. intros stations _.
    eapply keeps_bind;
      [apply keeps_typed_cache_set; now apply (listing_fits key limit)|].
    intros _ _. apply keeps_ret, RadioProps.fetched_listing_ok.
Qed.

Lemma fetched_details_ok s :
  (negb (Js.truthy_str (url_resolved s))
   || Js.option_eqb String.eqb (url_resolved s) (Some "null")) = false ->
  details_ok (VStation (mkQStation s (quality_of s) (url_resolved s))).
Proof.
  intros H. apply orb_false_iff in H as [H1 H2].
  apply negb_false_iff in H1.
  eexists. split; [reflexivity|]. split; [|apply RadioProps.quality_of_ok].
  cbn [station streamUrl]. destruct (url_resolved s) as [u|]; [|discriminate].
  exists u. repeat split.
  - intros ->. discriminate.
  - cbn in H2. now apply String.eqb_neq.
Qed.

Lemma keeps_typed_getStationDetails id r :
  keeps cache_typed (getStationDetails id r) details_ok.
Proof.
  unfold getStationDetails.
  apply keeps_try_catch; [|intros e; apply keeps_throw].
  eapply keeps_bind; [apply keeps_typed_checkRateLimit|]. intros _ _.
  eapply keeps_bind; [apply keeps_typed_cache_get|]. intros [val|] Hval.
  - apply keeps_ret. now apply (proj1 (proj2 (Hval val eq_refl)) id).
  - eapply keeps_bind; [apply keeps_typed_await|]. intros [|s stations] _.
    + apply keeps_throw.
    + destruct (_ || _) eqn:E; [apply keeps_throw|].
      eapply keeps_bind;
        [apply keeps_typed_cache_set, details_fit, fetched_details_ok, E|].
      intros _ _. now apply keeps_ret, fetched_details_ok.
Qed.

Lemma firstn_sorted {A} (R : A -> A -> Prop) n (l : list A) :
  StronglySorted R l -> StronglySorted R (firstn n l).
Proof.
  revert l. induction n as [|n IH]; intros l Hl; [constructor|].
  destruct Hl as [|x t Ht Hx]; cbn; constructor; auto.
  apply List.Forall_forall. intros y Hy. apply RadioProps.firstn_In in Hy.
  revert y Hy. now apply List.Forall_forall.
Qed.

Lemma fetched_genres_ok (tags : list Tag) :
  genres_ok
    (VGenres
       (firstn 50
          (Js.sort (fun a b => inject_Z (stationcount b - stationcount a))
             (List.filter (fun tag => 10 <? stationcount tag) tags)))).
Proof.
  eexists. split; [reflexivity|]. split; [|split].
  - apply List.firstn_le_length.
  - apply List.Forall_forall. intros tag Hin.
    apply RadioProps.firstn_In in Hin.
    apply (Permutation_in _ (Permutation_sym (JsFacts.sort_perm _ _))) in Hin.
    apply List.filter_In in Hin as [_ Hin]. now apply Z.ltb_lt.
  - apply firstn_sorted, JsFacts.sort_sorted.
    + intros x y z. lia.
    + intros x y H. apply SearchRouteProps.inject_Z_nonpos in H. lia.
    + intros x y H.
      destruct (Z_le_gt_dec (stationcount y - stationcount x) 0) as [L|G];
        [|lia].
      apply SearchRouteProps.inject_Z_nonpos in L. congruence.
Qed.

Lemma keeps_typed_getGenres r : keeps cache_typed (getGenres r) genres_ok.
Proof.
  unfold getGenres.
  apply keeps_try_catch; [|intros e; apply keeps_throw].
  eapply keeps_bind; [apply keeps_typed_checkRateLimit|]. intros _ _.
  eapply keeps_bind; [apply keeps_typed_cache_get|]. intros [val|] Hval.
  - apply keeps_ret. now apply (proj1 (proj2 (proj2 (Hval val eq_refl)))).
  - eapply keeps_bind; [apply keeps_typed_await|]. intros tags _.
    eapply keeps_bind;
      [apply keeps_typed_cache_set, genres_fit, fetched_genres_ok|].
    intros _ _. apply keeps_ret, fetched_genres_ok.
Qed.

Lemma keeps_typed_getCountries r :
  keeps cache_typed (getCountries r) countries_ok.
Proof.
  unfold getCountries.
  apply keeps_try_catch; [|intros e; apply keeps_throw].
  eapply keeps_bind; [apply keeps_typed_checkRateLimit|]. intros _ _.
  eapply keeps_bind; [apply keeps_typed_cache_get|]. intros [val|] Hval.
  - apply keeps_ret. now apply (proj2 (proj2 (proj2 (Hval val eq_refl)))).
  - eapply keeps_bind; [apply keeps_typed_await|]. intros countries _.
    eapply keeps_bind;
      [apply keeps_typed_cache_set, countries_fit; now eexists|].
    intros _ _. apply keeps_ret. now eexists.
Qed.

Lemma keeps_typed_getStreamUrl id r :
  keeps cache_typed (getStreamUrl id r)
        (fun info =>
           exists u,
             si_streamUrl info = Some u /\ u <> "" /\ u <> "null"
             /\ si_quality info <> None).
Proof.
  unfold getStreamUrl.
  apply keeps_try_catch; [|intros e; apply keeps_throw].
  eapply keeps_bind; [apply keeps_typed_getStationDetails|].
  intros val (q & -> & (u & Hu & Hne & Hnull & _) & _).
  apply keeps_ret. exists u. cbn. repeat split; auto; discriminate.
Qed.

Lemma keeps_typed_clickStation id r :
  keeps cache_typed (clickStation id r) (fun _ => True).
Proof.
  unfold clickStation.
  apply keeps_try_catch; [|intros e; now apply keeps_ret].
  eapply keeps_bind; [apply keeps_typed_checkRateLimit|]. intros _ _.
  eapply keeps_bind; [apply keeps_typed_await|]. intros _ _.
  now apply keeps_ret.
Qed.

Lemma step_typed (w w' : World) : step w w' -> cache_typed w -> cache_typed w'.
Proof.
  intros Hs Hw. destruct Hs.
  - apply keeps_typed_cachedListing; [constructor|exact Hw].
  - apply keeps_typed_cachedListing; [constructor|exact Hw].
  - apply keeps_typed_cachedListing; [constructor|exact Hw].
  - apply keeps_typed_cachedListing; [constructor|exact Hw].
  - now apply keeps_typed_getStationDetails.
  - now apply keeps_typed_getStreamUrl.
  - now apply keeps_typed_clickStation.
  - now apply keeps_typed_getCountries.
  - now apply keeps_typed_getGenres.
  - now apply (cache_typed_ext w).
  - intros k' e' H'. cbn in H'. now rewrite lookup_empty in H'.
  - intros k' e' H'. cbn in H'. apply lookup_delete_Some in H' as [_ H'].
    now apply Hw.
  - now apply (cache_typed_ext w).
Qed.

Lemma reachable_typed (w : World) : reachable w -> cache_typed w.
Proof.
  induction 1 as [w E|w w' _ IH Hs].
  - intros k e H. rewrite E in H. now rewrite lookup_empty in H.
  - now apply (step_typed w w').
Qed.

(** X5: In every state the server can reach, the station that
    [getStationDetails] returns, read from the cache or from the API, has a
    resolved URL that is not empty and is not ['null'], has that URL as
    [streamUrl] and has the quality of its bitrate; [getStreamUrl] then
    returns that URL and a quality. *)
Theorem station_details_valid (w : World) id (r : Reply (list Station)) :
  reachable w ->
  (forall val, fst (getStationDetails id r w) = Ok val -> details_ok val)
  /\ (forall info,
         fst (getStreamUrl id r w) = Ok info ->
         exists u,
           si_streamUrl info = Some u /\ u <> "" /\ u <> "null"
           /\ si_quality info <> None).
Proof.
  intros Hw. apply reachable_typed in Hw. split.
  - apply (keeps_typed_getStationDetails id r w Hw).
  - apply (keeps_typed_getStreamUrl id r w Hw).
Qed.

Lemma station_details_valid_witness :
  details_ok
    (VStation (mkQStation Examples.station3 low
                          (Some "http://three.example/live"))).
Proof.
  refine (proj1 (station_details_valid Examples.afterListing "uuid-3"
                   (Examples.ok [Examples.station3]) _) _ _).
  - eapply reachable_step; [eapply reachable_step|].
    + apply (reachable_loaded Examples.freshWorld). reflexivity.
    + apply step_popular.
    + now apply step_other.
  - vm_compute. reflexivity.
Defined.

(** X6: In every state the server can reach, [getGenres] returns, from the
    cache or from the API, at most 50 genres, each with more than 10
    stations, in descending order of their number of stations. *)
Theorem genres_are_popular_and_sorted (w : World) (r : Reply (list Tag)) val :
  reachable w -> fst (getGenres r w) = Ok val -> genres_ok val.
Proof.
  intros Hw. apply reachable_typed in Hw.
  apply (keeps_typed_getGenres r w Hw).
Qed.

Lemma genres_are_popular_and_sorted_witness :
  genres_ok (VGenres [mkTag "rock" 900; mkTag "jazz" 120]).
Proof.
  refine (genres_are_popular_and_sorted Examples.freshWorld
            (Examples.ok [mkTag "jazz" 120; mkTag "noise" 3; mkTag "rock" 900])
            _ _ _).
  - apply (reachable_loaded Examples.freshWorld). reflexivity.
  - vm_compute. reflexivity.
Defined.

End ServiceProps.

(** ** The TMDB service: errors and the cache of searches *)

Module TmdbProps.

Import TmdbData Tmdb TmdbSpec EffFacts.

Lemma classify_tmdb_error (error : Exn) : tmdb_error (classify error).
Proof.
  unfold classify, tmdb_error.
  destruct error as [m|m st|code m status sm]; cbv zeta beta iota.
  - destruct (_ || _); [tauto|]. cbn. right. right. right. now eexists.
  - destruct (_ || _); [tauto|]. cbn. right. right. right. now eexists.
  - destruct (_ || _); [tauto|].
    destruct (Js.option_eqb Z.eqb status (Some 429)); [tauto|].
    destruct status as [st|]; [destruct (400 <=? st)|];
      right; right; [left|right|right]; now eexists.
Qed.

Lemma makeRequest_keyless {A} endpoint (r : Reply A) (w : World) :
  Js.truthy_str (apiKey w) = false ->
  makeRequest endpoint r w
  = (Throw (Error "TMDB API request failed: TMDB API key not configured"), w).
Proof.
  intros H. unfold makeRequest, Eff.try_catch, Eff.bind, Eff.get.
  rewrite H. reflexivity.
Qed.

Lemma makeRequest_keyed {A} endpoint (r : Reply A) (w : World) :
  Js.truthy_str (apiKey w) = true ->
  makeRequest endpoint r w
  = (match result r with Ok a => Ok a | Throw e => Throw (classify e) end,
     snd (await (tmdb_request endpoint) r w)).
Proof.
  intros H. unfold makeRequest, Eff.try_catch, Eff.bind, Eff.get.
  rewrite H. unfold await, Eff.throw. cbn. now destruct (result r).
Qed.

(** X7: Without an API key [makeRequest], and so [getMovieDetails] and
    [getTVShowDetails], throw ['TMDB API request failed: TMDB API key not
    configured'] at once: no request is sent, no time passes and the state is
    unchanged. *)
Theorem no_request_without_api_key {A} endpoint id (r : Reply A)
    (d : Reply Details) (w : World) :
  Js.truthy_str (apiKey w) = false ->
  let failure :=
    Error "TMDB API request failed: TMDB API key not configured" in
  makeRequest endpoint r w = (Throw failure, w)
  /\ getMovieDetails id d w = (Throw failure, w)
  /\ getTVShowDetails id d w = (Throw failure, w).
Proof.
  intros H. repeat split; now apply makeRequest_keyless.
Qed.

Lemma no_request_without_api_key_witness :
  getMovieDetails "550" (Examples.ok Examples.fightClubDetails) keyless
  = (Throw (Error "TMDB API request failed: TMDB API key not configured"),
     keyless).
Proof.
  refine (proj1 (proj2 (no_request_without_api_key
                          "/movie/550" "550" (Examples.ok tt)
                          (Examples.ok Examples.fightClubDetails) keyless _))).
  reflexivity.
Defined.

(** X8: Whatever the HTTP client throws, [makeRequest] throws a plain [Error]
    with one of four messages (timeout, rate limit, ['TMDB API error: ...'],
    ['TMDB API request failed: ...']): the client's error object, its code
    and its HTTP status never reach the caller. *)
Theorem makeRequest_throws_tmdb_errors {A} endpoint (r : Reply A) (w : World) x :
  fst (makeRequest endpoint r w) = Throw x -> tmdb_error x.
Proof.
  destruct (Js.truthy_str (apiKey w)) eqn:K.
  - rewrite makeRequest_keyed by exact K. cbn [fst].
    destruct (result r); [discriminate|]. intros [= <-].
    apply classify_tmdb_error.
  - rewrite makeRequest_keyless by exact K. cbn [fst]. intros [= <-].
    right. right. right. now eexists.
Qed.

Lemma makeRequest_throws_tmdb_errors_witness :
  tmdb_error (Error "TMDB API timeout - please try again later").
Proof.
  refine (makeRequest_throws_tmdb_errors "/search/multi"
            (Examples.timed_out (A := Page)) Examples.freshWorld _ _).
  vm_compute. reflexivity.
Defined.

Lemma search_unfold query page r :
  search query page r
  = getCachedOrFetch (searchKey query page) (makeRequest "/search/multi" r).
Proof. reflexivity. Qed.

Lemma search_refresh query page (r : Reply Page) (w : World) data :
  Js.truthy_str (apiKey w) = true ->
  to_refresh w (searchKey query page) ->
  result r = Ok data ->
  search query page r w
  = (Ok data,
     set_tmdb_cache
       (insert (searchKey query page) (mkEntry data (now w + elapsed r)))
       (snd (await (tmdb_request "/search/multi") r w))).
Proof.
  intros K Hc Hr. rewrite search_unfold.
  rewrite CacheProps.getCachedOrFetch_refresh.
  - rewrite makeRequest_keyed by exact K. now rewrite Hr.
  - unfold to_refresh in Hc.
    destruct (tmdb_cache w !! searchKey query page) as [c|]; eauto.
Qed.

(** X9: A page that [search] fetched is served from the cache for the next five
    minutes: a second search of the same query and page returns the same
    page without a request to TMDB, whatever TMDB would answer. *)
Theorem search_round_trip query page (r r2 : Reply Page) (w w2 : World) data :
  Js.truthy_str (apiKey w) = true ->
  to_refresh w (searchKey query page) ->
  result r = Ok data ->
  tmdb_cache w2 = tmdb_cache (snd (search query page r w)) ->
  now w2 - (now w + elapsed r) < cacheTimeout ->
  fst (search query page r w) = Ok data
  /\ search query page r2 w2 = (Ok data, w2).
Proof.
  intros K Hc Hr Hw2 Ht.
  rewrite (search_refresh query page r w data K Hc Hr) in *.
  split; [reflexivity|]. rewrite search_unfold.
  apply (CacheProps.getCachedOrFetch_fresh _ _ _ (mkEntry data (now w + elapsed r)));
    [|exact Ht].
  rewrite Hw2. cbn. apply lookup_insert_eq.
Qed.

Lemma search_round_trip_witness :
  fst (search "matrix" "1" (Examples.ok Examples.fiveResults)
              Examples.freshWorld) = Ok Examples.fiveResults
  /\ search "matrix" "1" Examples.timed_out
       (Examples.later 200000
          (snd (search "matrix" "1" (Examples.ok Examples.fiveResults)
                       Examples.freshWorld)))
     = (Ok Examples.fiveResults,
        Examples.later 200000
          (snd (search "matrix" "1" (Examples.ok Examples.fiveResults)
                       Examples.freshWorld))).
Proof.
  refine (search_round_trip "matrix" "1" (Examples.ok Examples.fiveResults)
            Examples.timed_out Examples.freshWorld _ Examples.fiveResults
            _ _ _ _ _).
  - reflexivity.
  - exact I.
  - reflexivity.
  - reflexivity.
  - vm_compute. reflexivity.
Defined.

Lemma getCachedOrFetch_keeps key (fetch : M Page) (w : World) :
  (forall w0, tmdb_cache (snd (fetch w0)) = tmdb_cache w0) ->
  (forall k, k <> key ->
             tmdb_cache (snd (getCachedOrFetch key fetch w)) !! k
             = tmdb_cache w !! k)
  /\ (forall k, is_Some (tmdb_cache w !! k) ->
                is_Some (tmdb_cache (snd (getCachedOrFetch key fetch w)) !! k)).
Proof.
  intros Hf. unfold getCachedOrFetch, Eff.bind, Eff.get, Eff.try_catch,
    Eff.modify, Eff.ret, Eff.throw.
  specialize (Hf w).
  destruct (tmdb_cache w !! key) as [c|] eqn:Hc.
  - destruct (now w - timestamp c <? cacheTimeout); [cbn; auto|].
    destruct (fetch w) as [[data|e] w'] eqn:E; cbn [fst snd] in *.
    + cbn. split.
      * intros k Hk. rewrite lookup_insert_ne by congruence. now rewrite Hf.
      * intros k Hk. rewrite lookup_insert_is_Some. rewrite Hf.
        destruct (decide (key = k)); auto.
    + cbn. rewrite Hf. auto.
  - destruct (fetch w) as [[data|e] w'] eqn:E; cbn [fst snd] in *.
    + cbn. split.
      * intros k Hk. rewrite lookup_insert_ne by congruence. now rewrite Hf.
      * intros k Hk. rewrite lookup_insert_is_Some. rewrite Hf.
        destruct (decide (key = k)); auto.
    + cbn. rewrite Hf. auto.
Qed.

(** X10: [search] writes the entry of its own key only, and no call of it removes
    an entry: the cache of the TMDB service never shrinks. *)
Theorem search_never_evicts query page (r : Reply Page) (w : World) k :
  is_Some (tmdb_cache w !! k) ->
  is_Some (tmdb_cache (snd (search query page r w)) !! k)
  /\ (k <> searchKey query page ->
      tmdb_cache (snd (search query page r w)) !! k = tmdb_cache w !! k).
Proof.
  intros Hk. rewrite search_unfold.
  destruct (getCachedOrFetch_keeps (searchKey query page)
              (makeRequest "/search/multi" r) w) as [H1 H2].
  - intros w0. apply CacheProps.makeRequest_tmdb_cache.
  - split; [now apply H2|]. intros Hne. now apply H1.
Qed.

Lemma search_never_evicts_witness :
  is_Some
    (tmdb_cache
       (snd (search "alien" "2" (Examples.ok Examples.threeResults)
                    Examples.afterSearch))
     !! "search_matrix_1_false").
Proof.
  refine (proj1 (search_never_evicts "alien" "2"
                   (Examples.ok Examples.threeResults) Examples.afterSearch
                   "search_matrix_1_false" _)).
  vm_compute. eexists. reflexivity.
Defined.

End TmdbProps.

(** ** The details route: errors and the refresh of a document *)

Module ContentFlowProps.

Import ContentRoute EffFacts Store.

Lemma try_catch_replaces {S E A} (m : Eff.M S E A) (e x : E) s :
  fst (Eff.try_catch m (fun _ => Eff.throw e) s) = Throw x -> x = e.
Proof.
  unfold Eff.try_catch, Eff.throw. destruct (m s) as [[a|e'] s']; cbn;
    congruence.
Qed.

(** X11: The only errors of the details route are [AppError('Invalid content
    type', 400)], for a type that is not ['movie'], ['tv'] or ['radio'], and
    [AppError('Failed to fetch <type> details', 500)]: whatever is thrown
    inside the [try], the 404 of a station that is not found included, is
    replaced by the 500. *)
Theorem details_errors_are_400_or_500 type id user rs (w : World) x :
  fst (handler type id user rs w) = Throw x ->
  x = if valid_type type then failed type
      else AppError "Invalid content type" 400.
Proof.
  unfold handler. destruct (valid_type type); cbn [negb].
  - apply try_catch_replaces.
  - cbn. congruence.
Qed.

Lemma details_errors_are_400_or_500_witness :
  AppError "Failed to fetch radio details" 500
  = if valid_type "radio" then failed "radio"
    else AppError "Invalid content type" 400.
Proof.
  refine (details_errors_are_400_or_500 "radio" "no-such-station" None
            Examples.allUp Examples.freshWorld _ _).
  vm_compute. reflexivity.
Defined.

Lemma bind_get {S E A} (k : S -> Eff.M S E A) s :
  Eff.bind Eff.get k s = k s s.
Proof. reflexivity. Qed.

Lemma with_trailers_same c : with_trailers c (trailers c) = c.
Proof. now destruct c. Qed.

Lemma firstn_3_length {A} (l : list A) : (List.length (firstn 3 l) <= 3)%nat.
Proof. apply List.firstn_le_length. Qed.

(** The search for a trailer never throws, is made only when TMDB has no
    trailer, changes nothing but the trailers and adds at most three. *)
Lemma enrich_ok c (r : Reply (list YtItem)) (w : World) :
  exists c',
    enrich c r w
    = (Ok c',
       match trailers c with
       | [] => snd (await (youtube_search (title c)) r w)
       | _ => w
       end)
    /\ with_trailers c (trailers c') = c'
    /\ (trailers c <> [] -> c' = c)
    /\ (forall e, result r = Throw e -> c' = c)
    /\ (trailers c = [] ->
        (List.length (trailers c') <= 3)%nat
        /\ Forall (fun trailer => Store.site trailer = "YouTube"
                                  /\ official trailer = Some false)
                  (trailers c')).
Proof.
  unfold enrich, Eff.try_catch, Eff.bind, await, Eff.ret.
  destruct (trailers c) as [|t0 ts] eqn:Ht.
  - destruct (result r) as [[|y ys]|e] eqn:Hr; cbn [fst snd].
    + exists c. repeat split; auto using with_trailers_same; rewrite Ht; cbn;
        try lia; constructor.
    + eexists. split; [reflexivity|]. cbn [trailers with_trailers].
      split; [reflexivity|]. split; [congruence|]. split; [discriminate|].
      intros _. split.
      * rewrite List.length_map. apply firstn_3_length.
      * apply Forall_map. apply List.Forall_forall. intros; cbn. auto.
    + exists c. repeat split; auto using with_trailers_same; rewrite Ht; cbn;
        try lia; constructor.
  - exists c. repeat split; auto using with_trailers_same; discriminate.
Qed.

Lemma findOneAndUpdate_ok id type update (r : Reply unit) (w : World) :
  result r = Ok tt ->
  exists w',
    Models.findOneAndUpdate id type update r w = (Ok tt, w')
    /\ calls w' = calls w ++ [Content_findOneAndUpdate id type]
    /\ users w' = users w.
Proof.
  intros Hr. unfold Models.findOneAndUpdate, Eff.bind, await, Eff.get.
  rewrite Hr. cbn [contents].
  destruct (List.find _ _); eexists; (split; [reflexivity|]); now cbn.
Qed.

(** The refresh of a document, before the views and the watch history. *)
Lemma fetch_run type id rs (w : World) det :
  type = "movie" \/ type = "tv" ->
  Js.truthy_str (apiKey w) = true ->
  result (details_reply rs) = Ok det ->
  result (update_reply rs) = Ok tt ->
  exists c w',
    Eff.bind
      (if String.eqb type "movie"
       then Tmdb.getMovieDetails id (details_reply rs)
       else Tmdb.getTVShowDetails id (details_reply rs))
      (fun tmdbData =>
         let fresh :=
           if String.eqb type "movie"
           then Tmdb.transformMovieData tmdbData
           else Tmdb.transformTVData tmdbData in
         Eff.bind (enrich fresh (trailer_reply rs))
           (fun fresh =>
              Eff.bind
                (Models.findOneAndUpdate id type (sanitize fresh)
                   (update_reply rs))
                (fun _ => Eff.ret (plain fresh))))
      w
    = (Ok (plain c), w')
    /\ users w' = users w
    /\ with_trailers (Tmdb.transformData type det) (trailers c) = c
    /\ (trailers (Tmdb.transformData type det) <> [] ->
        c = Tmdb.transformData type det)
    /\ (forall e, result (trailer_reply rs) = Throw e ->
                  c = Tmdb.transformData type det)
    /\ (trailers (Tmdb.transformData type det) = [] ->
        (List.length (trailers c) <= 3)%nat
        /\ Forall (fun trailer => Store.site trailer = "YouTube"
                                  /\ official trailer = Some false)
                  (trailers c))
    /\ calls w'
       = calls w ++ [tmdb_request ("/" +:+ type +:+ "/" +:+ id)]
           ++ match trailers (Tmdb.transformData type det) with
              | [] => [youtube_search (title (Tmdb.transformData type det))]
              | _ => []
              end
           ++ [Content_findOneAndUpdate id type].
Proof.
  intros Ht K0 Hd Hu.
  set (base := Tmdb.transformData type det).
  set (w1 := snd (await (tmdb_request ("/" +:+ type +:+ "/" +:+ id))
                        (details_reply rs) w)).
  destruct (enrich_ok base (trailer_reply rs) w1)
    as (c & Hc & H1 & H2 & H3 & H4).
  set (w2 := match trailers base with
             | [] => snd (await (youtube_search (title base))
                                (trailer_reply rs) w1)
             | _ => w1
             end) in *.
  destruct (findOneAndUpdate_ok id type (sanitize c) (update_reply rs) w2 Hu)
    as (w3 & Hw3 & Hcalls & Husers).
  exists c, w3.
  assert (Hreq :
            (if String.eqb type "movie"
             then Tmdb.getMovieDetails id (details_reply rs)
             else Tmdb.getTVShowDetails id (details_reply rs)) w
            = (Ok det, w1)).
  { subst w1. destruct Ht as [-> | ->]; cbn [String.eqb Ascii.eqb Bool.eqb];
      unfold Tmdb.getMovieDetails, Tmdb.getTVShowDetails;
      rewrite TmdbProps.makeRequest_keyed by exact K0; now rewrite Hd. }
  assert (Hbase :
            (if String.eqb type "movie"
             then Tmdb.transformMovieData det
             else Tmdb.transformTVData det) = base).
  { destruct Ht as [-> | ->]; reflexivity. }
  split; [|split; [|repeat (split; [assumption|])]].
  - rewrite (bind_ok _ _ _ _ _ Hreq). cbv zeta. rewrite Hbase.
    rewrite (bind_ok _ _ _ _ _ Hc). now rewrite (bind_ok _ _ _ _ _ Hw3).
  - rewrite Husers. subst w2 w1. now destruct (trailers base).
  - rewrite Hcalls. subst w2 w1.
    destruct (trailers base); cbn; now rewrite <- !app_assoc.
Qed.

(** X12: When no document is stored, or the stored one has expired, and TMDB
    answers, the details route serves the content made from TMDB's answer
    whatever YouTube answers: a failure of the trailer search is swallowed,
    YouTube is asked only when TMDB has no trailer and then contributes at
    most three trailers, marked unofficial.  The collection is read once
    and written once by [findOneAndUpdate]; no [save] of a document is made,
    so this request is not counted as a view. *)
Theorem refreshed_content_served type id user rs (w : World) det :
  type = "movie" \/ type = "tv" ->
  Js.truthy_str (apiKey w) = true ->
  result (findOne_reply rs) = Ok tt ->
  match List.find (Models.matches id type) (contents w) with
  | Some d => cacheExpiry d < now w + elapsed (findOne_reply rs)
  | None => True
  end ->
  result (details_reply rs) = Ok det ->
  result (update_reply rs) = Ok tt ->
  match user with
  | Some _ => result (history_reply rs) = Ok tt
  | None => True
  end ->
  exists c,
    fst (handler type id user rs w) = Ok (mkResponse true (plain c))
    /\ with_trailers (Tmdb.transformData type det) (trailers c) = c
    /\ (trailers (Tmdb.transformData type det) <> [] ->
        c = Tmdb.transformData type det)
    /\ (forall e, result (trailer_reply rs) = Throw e ->
                  c = Tmdb.transformData type det)
    /\ (trailers (Tmdb.transformData type det) = [] ->
        (List.length (trailers c) <= 3)%nat
        /\ Forall (fun trailer => Store.site trailer = "YouTube"
                                  /\ official trailer = Some false)
                  (trailers c))
    /\ calls (snd (handler type id user rs w))
       = calls w
           ++ [Content_findOne id type;
               tmdb_request ("/" +:+ type +:+ "/" +:+ id)]
           ++ match trailers (Tmdb.transformData type det) with
              | [] => [youtube_search (title (Tmdb.transformData type det))]
              | _ => []
              end
           ++ [Content_findOneAndUpdate id type]
           ++ match user with
              | Some u => [User_save (uid u)]
              | None => []
              end.
Proof.
  intros Ht K0 Hf Hstale Hd Hu Hh.
  destruct (ContentRouteProps.movie_or_tv _ Ht) as [Hv Hr].
  set (w1 := snd (await (Content_findOne id type) (findOne_reply rs) w)).
  destruct (fetch_run type id rs w1 det Ht K0 Hd Hu)
    as (c & w2 & Hrun & Husers & H1 & H2 & H3 & H4 & Hcalls).
  assert (Hfind : Models.findOne id type (findOne_reply rs) w
                  = (Ok (List.find (Models.matches id type) (contents w)), w1)).
  { unfold Models.findOne, Eff.bind, await, Eff.get, Eff.ret.
    now rewrite Hf. }
  assert (Hneeds : forall d,
             List.find (Models.matches id type) (contents w) = Some d ->
             Models.needsUpdate d (now w1) = true).
  { intros d E. rewrite E in Hstale. now apply Z.ltb_lt. }
  assert (Hall :
            handler type id user rs w
            = (Ok (mkResponse true (plain c)),
               match user with
               | Some u =>
                   snd (Models.addToWatchHistory u
                          (mkWatchEntry id type (title c) (poster_url c))
                          (history_reply rs) w2)
               | None => w2
               end)).
  { unfold handler. rewrite Hv, Hr. cbn [negb].
    unfold Eff.try_catch.
    rewrite (bind_ok _ _ w (plain c) w2).
    - destruct user as [u|]; [|reflexivity].
      unfold Models.addToWatchHistory, Eff.bind, await. rewrite Hh.
      reflexivity.
    - rewrite (bind_ok _ _ _ _ _ Hfind).
      rewrite bind_get. cbv zeta.
      destruct (List.find (Models.matches id type) (contents w)) as [d|] eqn:E.
      + rewrite (Hneeds d eq_refl). now rewrite (bind_ok _ _ _ _ _ Hrun).
      + now rewrite (bind_ok _ _ _ _ _ Hrun). }
  exists c. rewrite Hall. cbn [fst snd].
  split; [reflexivity|]. repeat (split; [assumption|]).
  set (yt := match trailers (Tmdb.transformData type det) with
             | [] => [youtube_search (title (Tmdb.transformData type det))]
             | _ => []
             end) in *.
  destruct user as [u|].
  - unfold Models.addToWatchHistory, Eff.bind, await. rewrite Hh.
    cbn [fst snd Eff.modify set_users calls]. rewrite Hcalls. subst w1.
    cbn [snd await calls]. now rewrite <- !app_assoc.
  - rewrite Hcalls. subst w1. cbn [snd await calls].
    rewrite <- !app_assoc. reflexivity.
Qed.

Lemma refreshed_content_served_witness :
  exists c,
    fst (handler "movie" "550" (Some Examples.alice)
                 (Examples.replies (Examples.ok Examples.fightClubDetails)
                                   (Examples.ok tt))
                 Examples.staleWorld)
    = Ok (mkResponse true (plain c))
    /\ (List.length (trailers c) <= 3)%nat.
Proof.
  destruct (refreshed_content_served "movie" "550" (Some Examples.alice)
              (Examples.replies (Examples.ok Examples.fightClubDetails)
                                (Examples.ok tt))
              Examples.staleWorld Examples.fightClubDetails)
    as (c & Hc & _ & _ & _ & Hn & _).
  - now left.
  - reflexivity.
  - reflexivity.
  - vm_compute. reflexivity.
  - reflexivity.
  - reflexivity.
  - reflexivity.
  - exists c. split; [exact Hc|]. now apply Hn.
Defined.

End ContentFlowProps.

(** ** The router of routes/content.js *)

Module RouterProps.

Import Router.










Lemma toLowerCase_empty s : Js.toLowerCase s = "" -> s = "".
Proof. now destruct s. Qed.

Lemma segment_matches_parameter s name piece :
  s <> literal "" -> segment_matches s piece = true ->
  segment_matches (parameter name) piece = true.
Proof.
  intros Hs H. cbn. apply negb_true_iff, String.eqb_neq. intros ->.
  destruct s as [text|other]; cbn in H.
  - apply String.eqb_eq, toLowerCase_empty in H. congruence.
  - discriminate.
Qed.

(** Where a route of two segments matches, so does [/:type/:id]. *)
Lemma two_segments_match route_path path :
  List.length (pattern_of route_path) = 2%nat ->
  ~ In (literal "") (pattern_of route_path) ->
  path_matches route_path path = true ->
  path_matches (snd details) path = true.
Proof.
  unfold path_matches. intros Hlen Hlit.
  destruct (split path) as [|[|] pieces]; try discriminate.
  change (pattern_of (snd details)) with [parameter "type"; parameter "id"].
  destruct (pattern_of route_path) as [|x [|y [|]]]; try discriminate.
  destruct pieces as [|p [|q rest]]; try discriminate.
  - cbn. now rewrite andb_false_r.
  - cbn [pieces_match]. intros H.
    apply andb_true_iff in H as [Hx H]. apply andb_true_iff in H as [Hy H].
    rewrite (segment_matches_parameter x "type" p),
            (segment_matches_parameter y "id" q); auto.
    + intros ->. apply Hlit. cbn. auto.
    + intros ->. apply Hlit. cbn. auto.
Qed.

Lemma find_first {A} (p : A -> bool) (before : list A) d rest r :
  List.find p (before ++ d :: rest) = Some r -> p d = true ->
  In r (before ++ [d]).
Proof.
  induction before as [|x before IH]; cbn; intros H Hd.
  - rewrite Hd in H. injection H as <-. auto.
  - destruct (p x); [injection H as <-; auto|]. right. now apply IH.
Qed.

(** A request that [/:type/:id] matches is answered by it or by one of
    the four routes registered before it. *)
Lemma dispatch_first path r :
  dispatch content_routes GET path = Some r ->
  path_matches (snd details) path = true ->
  In r (firstn 5 content_routes).
Proof.
  intros H Hm.
  change (firstn 5 content_routes) with (firstn 4 content_routes ++ [details]).
  apply (find_first (handles GET path) _ _ (skipn 5 content_routes)).
  - exact H.
  - unfold handles. now rewrite Hm.
Qed.

(** X14: No request reaches a [GET] route of two segments registered after
    [/:type/:id], which matches every path they match and comes first:
    [/radio/search], [/radio/popular], [/radio/countries], [/radio/genres],
    [/radio/health], [/trending/people], [/trending/movies],
    [/tv/airing-today], [/person/:personId], [/watch-providers/movie],
    [/watch-providers/tv], [/genres/movie], [/genres/tv], [/tmdb/test-key]
    and [/tmdb/account] are answered by other handlers. *)
Theorem two_segment_routes_unreachable (r : Route) path :
  In r (after details content_routes) ->
  fst r = GET ->
  List.length (pattern_of (snd r)) = 2%nat ->
  dispatch content_routes GET path <> Some r.
Proof.
  intros Hin Hm Hlen Hd.
  assert (Hhandles : handles GET path r = true).
  { unfold dispatch in Hd. now apply List.find_some in Hd. }
  unfold handles in Hhandles. apply andb_true_iff in Hhandles as [_ Hp].
  assert (Hlit : ~ In (literal "") (pattern_of (snd r))).
  { clear - Hin. cbn in Hin.
    repeat (destruct Hin as [<- | Hin];
            [cbn; intros H; repeat (destruct H as [H|H]; [discriminate|]);
             exact H|]).
    destruct Hin. }
  assert (Hfirst : In r (firstn 5 content_routes)).
  { apply (dispatch_first path r Hd).
    now apply (two_segments_match (snd r)). }
  cbn in Hfirst.
  repeat (destruct Hfirst as [<- | Hfirst];
          [cbn in Hin;
           repeat (destruct Hin as [Hin|Hin]; [discriminate|]);
           exact Hin|]).
  exact Hfirst.
Qed.

Lemma two_segment_routes_unreachable_witness :
  dispatch content_routes GET "/radio/popular" <> Some (GET, "/radio/popular").
Proof.
  refine (two_segment_routes_unreachable (GET, "/radio/popular")
            "/radio/popular" _ _ _).
  - cbn. do 3 right. left. reflexivity.
  - reflexivity.
  - reflexivity.
Defined.

End RouterProps.

(** ** The search route on one source, and the filter on the year *)

Module SearchFlowProps.

Import SearchRoute SearchSpec EffFacts.

Lemma Forall_sort {A} (P : A -> Prop) cmp (l : list A) :
  Forall P l -> Forall P (Js.sort cmp l).
Proof.
  intros H. apply List.Forall_forall. intros x Hx.
  apply (Permutation_in _ (Permutation_sym (JsFacts.sort_perm cmp l))) in Hx.
  revert x Hx. now apply List.Forall_forall.
Qed.

Lemma Forall_yearFilter (P : Item -> Prop) y (l : list Item) :
  Forall P l -> Forall P (yearFilter y l).
Proof.
  intros H. unfold yearFilter. destruct (Js.truthy_str y); [|exact H].
  apply List.Forall_forall. intros x Hx. apply List.filter_In in Hx as [Hx _].
  revert x Hx. now apply List.Forall_forall.
Qed.

Lemma yearFilter_year y (l : list Item) :
  Js.truthy_str y = true ->
  Forall (fun item => exists n, year item = Some n
                                /\ Js.parseInt (default "" y) = Some n)
         (yearFilter y l).
Proof.
  intros Hy. unfold yearFilter. rewrite Hy.
  apply List.Forall_forall. intros x Hx. apply List.filter_In in Hx as [_ Hx].
  unfold year_is in Hx.
  destruct (year x) as [a|]; [|discriminate].
  destruct (Js.parseInt (default "" y)) as [b|]; [|discriminate].
  apply Z.eqb_eq in Hx. subst b. now exists a.
Qed.

Section Platform.

Variable getFullYear : string -> option Z.
Variable localeCompare : string -> string -> Z.

Let handler := SearchRoute.handler getFullYear localeCompare.
Let tmdbBranch := SearchRoute.tmdbBranch getFullYear.
Let respond := SearchRoute.respond localeCompare.
Let sortFunction := SearchRoute.sortFunction localeCompare.

Lemma kind_of_transformed kind (l : list TmdbData.Item) :
  Forall (fun item => type item = Some kind)
         (List.map (transformedItem getFullYear)
                   (List.filter (is_kind kind) l)).
Proof.
  apply Forall_map. apply List.Forall_forall. intros x Hx.
  apply List.filter_In in Hx as [_ Hx]. unfold is_kind in Hx. cbn [type transformedItem].
  destruct (TmdbData.media_type x) as [k|]; [|discriminate].
  cbn in Hx. apply String.eqb_eq in Hx. now subst k.
Qed.

(** X15: A search of type [movie] or [tv] never fails and never reads the
    collection of stations: it does what [tmdbService.search] does and
    nothing more, its results are all of the type asked for, and when TMDB
    fails it answers with an empty list and a total of 0. *)
Theorem movie_or_tv_search_never_fails req rs (w : World) :
  valid_query (q req) = true ->
  type_of req = "movie" \/ type_of req = "tv" ->
  exists d,
    handler req rs w
    = (Ok (mkResponse 200 true None (Some d)),
       snd (Tmdb.search (query_of req) (page_of req) (tmdb_reply rs) w))
    /\ Forall (fun item => type item = Some (type_of req)) (results d)
    /\ radio (breakdown d) = 0
    /\ (throws (Tmdb.search (query_of req) (page_of req) (tmdb_reply rs)) w ->
        results d = [] /\ total (breakdown d) = 0).
Proof.
  intros Hv Ht. unfold handler, SearchRoute.handler. rewrite Hv. cbn [negb].
  unfold SearchRoute.tmdbBranch, radioBranch, SearchRoute.respond.
  unfold Eff.try_catch, Eff.bind, Eff.ret, throws.
  destruct Ht as [-> | ->]; cbn [String.eqb Ascii.eqb Bool.eqb orb];
    destruct (Tmdb.search (query_of req) (page_of req) (tmdb_reply rs) w)
      as [[pg|e] w1]; cbn [fst snd];
    eexists; (split; [reflexivity|]); cbn [results breakdown radio total];
    (split; [|split; [reflexivity|]]).
  - apply Forall_sort, Forall_yearFilter, kind_of_transformed.
  - intros [e He]. discriminate.
  - apply Forall_sort, Forall_yearFilter. constructor.
  - intros _. unfold yearFilter. now destruct (Js.truthy_str (q_year req)).
  - apply Forall_sort, Forall_yearFilter, kind_of_transformed.
  - intros [e He]. discriminate.
  - apply Forall_sort, Forall_yearFilter. constructor.
  - intros _. unfold yearFilter. now destruct (Js.truthy_str (q_year req)).
Qed.

(** X16: A search of type [radio] does not call TMDB and answers with the
    stations in the order the collection returned them, whatever [sortBy]
    and [year] are: the comparator of [sortBy] is applied to the movies, to
    the shows and to the merged list only. *)
Theorem radio_search_keeps_store_order req rs (w : World) docs c :
  valid_query (q req) = true ->
  type_of req = "radio" ->
  result (find_reply rs) = Ok docs ->
  result (count_reply rs) = Ok c ->
  exists d w',
    handler req rs w = (Ok (mkResponse 200 true None (Some d)), w')
    /\ results d = List.map radioItem docs
    /\ breakdown d = mkBreakdown 0 0 (Z.of_nat (List.length docs)) c
    /\ tmdb_cache w' = tmdb_cache w
    /\ exists limit skip,
        calls w'
        = calls w
            ++ [RadioStation_find (query_of req)
                  (if Js.truthy_str (q_genre req) then q_genre req else None)
                  limit skip;
                RadioStation_countDocuments (query_of req)
                  (if Js.truthy_str (q_genre req) then q_genre req else None)].
Proof.
  intros Hv Ht Hf Hc. unfold handler, SearchRoute.handler. rewrite Hv, Ht.
  cbn [negb]. unfold SearchRoute.tmdbBranch, radioBranch, SearchRoute.respond.
  cbn [String.eqb Ascii.eqb Bool.eqb orb].
  unfold Eff.try_catch, Eff.bind, Eff.ret, await. rewrite Hf, Hc.
  cbn [fst snd]. eexists. eexists. split; [reflexivity|].
  cbn [results breakdown tmdb_cache calls].
  split; [reflexivity|]. split.
  - rewrite List.length_map. unfold yearFilter.
    now destruct (Js.truthy_str (q_year req)).
  - split; [reflexivity|]. eexists. eexists. now rewrite <- app_assoc.
Qed.

(** X17: A search of a type other than [all], [movie], [tv] and [radio] is
    answered with an empty list and a total of 0, with status 200, without
    a call to TMDB or to the collection. *)
Theorem unknown_type_search_is_empty req rs (w : World) :
  valid_query (q req) = true ->
  ~ In (type_of req) ["all"; "movie"; "tv"; "radio"] ->
  handler req rs w
  = (Ok (mkResponse 200 true None
           (Some (mkData (query_of req) [] (mkBreakdown 0 0 0 0)
                    (mkPagination (Js.parseInt (page_of req))
                       (Js.parseInt (limit_of req))
                       (Js.option_eqb Z.eqb (Some 0)
                          (Js.parseInt (limit_of req))))))), w).
Proof.
  intros Hv Hn.
  assert (Ha : String.eqb (type_of req) "all" = false).
  { apply String.eqb_neq. intros E. apply Hn. rewrite E. cbn. auto. }
  assert (Hm : String.eqb (type_of req) "movie" = false).
  { apply String.eqb_neq. intros E. apply Hn. rewrite E. cbn. auto. }
  assert (Htv : String.eqb (type_of req) "tv" = false).
  { apply String.eqb_neq. intros E. apply Hn. rewrite E. cbn. auto. }
  assert (Hr : String.eqb (type_of req) "radio" = false).
  { apply String.eqb_neq. intros E. apply Hn. rewrite E. cbn. auto. }
  unfold handler, SearchRoute.handler. rewrite Hv. cbn [negb].
  unfold SearchRoute.tmdbBranch, radioBranch, SearchRoute.respond.
  rewrite Ha, Hm, Htv, Hr. cbn [orb].
  unfold Eff.try_catch, Eff.bind, Eff.ret. cbn [fst snd].
  unfold yearFilter. now destruct (Js.truthy_str (q_year req)).
Qed.

Lemma radioBranch_items type query genre page limit find count (w : World)
      stations :
  fst (radioBranch type query genre page limit find count w) = Ok stations ->
  exists docs, fst stations = List.map radioItem docs.
Proof.
  unfold radioBranch. destruct (_ || _).
  - unfold Eff.bind, await, Eff.ret.
    destruct (result find) as [docs|]; [|discriminate].
    destruct (result count); [|discriminate].
    intros [= <-]. now exists docs.
  - intros [= <-]. now exists [].
Qed.

Lemma In_sorted_filtered y sortBy (l : list Item) item :
  Js.truthy_str y = true ->
  In item (Js.sort (sortFunction sortBy) (yearFilter y l)) ->
  exists n, year item = Some n /\ Js.parseInt (default "" y) = Some n.
Proof.
  intros Hy Hin.
  apply (Permutation_in _ (Permutation_sym (JsFacts.sort_perm _ _))) in Hin.
  pose proof (yearFilter_year y l Hy) as H.
  rewrite List.Forall_forall in H. now apply H.
Qed.

(** X18: With a [year] in the query, every movie and every show of a successful
    search has that year: a result whose year is missing, and every movie
    and show when [year] is not a number, is dropped.  The stations are not
    filtered by the year. *)
Theorem year_filter_keeps_that_year req rs (w : World) resp d item :
  Js.truthy_str (q_year req) = true ->
  fst (handler req rs w) = Ok resp ->
  data resp = Some d ->
  In item (results d) ->
  type item = Some "radio"
  \/ exists n, year item = Some n
               /\ Js.parseInt (default "" (q_year req)) = Some n.
Proof.
  intros Hy Hok Hd Hin.
  destruct (valid_query (q req)) eqn:Hv.
  2:{ unfold handler, SearchRoute.handler in Hok. rewrite Hv in Hok.
      cbn in Hok. injection Hok as <-. discriminate. }
  destruct (SearchRouteProps.tmdbBranch_total getFullYear (type_of req)
              (query_of req) (page_of req) (tmdb_reply rs) w)
    as (found & w1 & Hfound).
  unfold handler in Hok.
  rewrite (SearchRouteProps.handler_run getFullYear localeCompare
             req rs w found w1 Hv Hfound) in Hok.
  destruct (fst (radioBranch _ _ _ _ _ _ _ w1)) as [stations|e] eqn:Hst;
    [|discriminate].
  destruct (radioBranch_items _ _ _ _ _ _ _ _ _ Hst) as [docs Hdocs].
  injection Hok as <-. injection Hd as <-. cbn [results] in Hin.
  rewrite Hdocs in Hin.
  assert (Hradio : In item (List.map radioItem docs) ->
                   type item = Some "radio").
  { intros H. apply List.in_map_iff in H as (doc & <- & _). reflexivity. }
  destruct (String.eqb (type_of req) "all").
  - apply (Permutation_in _ (Permutation_sym (JsFacts.sort_perm _ _))) in Hin.
    apply List.in_app_or in Hin as [Hin|Hin];
      [right; now apply (In_sorted_filtered _ _ _ _ Hy Hin)|].
    apply List.in_app_or in Hin as [Hin|Hin];
      [right; now apply (In_sorted_filtered _ _ _ _ Hy Hin)|].
    left. now apply Hradio.
  - destruct (String.eqb (type_of req) "movie");
      [right; now apply (In_sorted_filtered _ _ _ _ Hy Hin)|].
    destruct (String.eqb (type_of req) "tv");
      [right; now apply (In_sorted_filtered _ _ _ _ Hy Hin)|].
    destruct (String.eqb (type_of req) "radio"); [|destruct Hin].
    left. now apply Hradio.
Qed.

End Platform.

Lemma movie_or_tv_search_never_fails_witness :
  exists d,
    SearchRoute.handler Examples.utcYear Examples.collate
      (Examples.search_for (Some "movie") None None)
      (Examples.searchReplies Examples.timed_out Examples.write_failed)
      Examples.freshWorld
    = (Ok (mkResponse 200 true None (Some d)),
       snd (Tmdb.search "matrix" "1" Examples.timed_out Examples.freshWorld))
    /\ results d = [].
Proof.
  destruct (movie_or_tv_search_never_fails Examples.utcYear Examples.collate
              (Examples.search_for (Some "movie") None None)
              (Examples.searchReplies Examples.timed_out Examples.write_failed)
              Examples.freshWorld)
    as (d & Hd & _ & _ & Hfail).
  - reflexivity.
  - now left.
  - exists d. split; [exact Hd|]. apply Hfail. eexists. vm_compute.
    reflexivity.
Defined.

Lemma radio_search_keeps_store_order_witness :
  exists d w',
    SearchRoute.handler Examples.utcYear Examples.collate
      (Examples.search_for (Some "radio") None (Some "title"))
      (Examples.searchReplies Examples.timed_out
                              (Examples.ok [Examples.radioMatrix]))
      Examples.freshWorld
    = (Ok (mkResponse 200 true None (Some d)), w')
    /\ results d = [radioItem Examples.radioMatrix]
    /\ tmdb_cache w' = tmdb_cache Examples.freshWorld.
Proof.
  destruct (radio_search_keeps_store_order Examples.utcYear Examples.collate
              (Examples.search_for (Some "radio") None (Some "title"))
              (Examples.searchReplies Examples.timed_out
                                      (Examples.ok [Examples.radioMatrix]))
              Examples.freshWorld [Examples.radioMatrix] 1)
    as (d & w' & Hd & Hres & _ & Hcache & _).
  - reflexivity.
  - reflexivity.
  - reflexivity.
  - reflexivity.
  - exists d, w'. auto.
Defined.

Lemma unknown_type_search_is_empty_witness :
  fst (SearchRoute.handler Examples.utcYear Examples.collate
         (Examples.search_for (Some "podcast") None None)
         (Examples.searchReplies (Examples.ok Examples.threeResults)
                                 (Examples.ok [Examples.radioMatrix]))
         Examples.freshWorld)
  = Ok (mkResponse 200 true None
          (Some (mkData "matrix" [] (mkBreakdown 0 0 0 0)
                   (mkPagination (Some 1) (Some 20) false)))).
Proof.
  rewrite (unknown_type_search_is_empty Examples.utcYear Examples.collate
             (Examples.search_for (Some "podcast") None None)
             (Examples.searchReplies (Examples.ok Examples.threeResults)
                                     (Examples.ok [Examples.radioMatrix]))
             Examples.freshWorld).
  - reflexivity.
  - reflexivity.
  - cbn. intros [H|[H|[H|[H|[]]]]]; discriminate.
Defined.

Lemma year_filter_keeps_that_year_witness :
  type (transformedItem Examples.utcYear
          (Examples.movie 603 "The Matrix" (3 # 1))) = Some "radio"
  \/ exists n,
      year (transformedItem Examples.utcYear
              (Examples.movie 603 "The Matrix" (3 # 1))) = Some n
      /\ Js.parseInt "1999" = Some n.
Proof.
  refine (year_filter_keeps_that_year Examples.utcYear Examples.collate
            (mkRequest (Some "matrix") None None None None (Some "1999") None)
            (Examples.searchReplies (Examples.ok Examples.threeResults)
                                    (Examples.ok [Examples.radioMatrix]))
            Examples.freshWorld _ _
            (transformedItem Examples.utcYear
               (Examples.movie 603 "The Matrix" (3 # 1))) _ _ _ _).
  - reflexivity.
  - vm_compute. reflexivity.
  - reflexivity.
  - vm_compute. auto.
Defined.

End SearchFlowProps.

(** ** The lists of a user: favorites, watchlist, ratings, watch history *)

Module UserProps.

Import UserModel.

Lemma existsb_is_item id (l : list Item) :
  existsb (is_item id) l = true <-> In id (ids l).
Proof.
  unfold ids. rewrite List.existsb_exists, List.in_map_iff. unfold is_item.
  split; intros (x & H1 & H2).
  - apply String.eqb_eq in H2. eauto.
  - exists x. split; [assumption|]. now apply String.eqb_eq.
Qed.


Lemma filter_not_item id (l : list Item) :
  ~ In id (ids l) ->
  List.filter (fun item => negb (is_item id item)) l = l.
Proof.
  induction l as [|x l IH]; intros H; [reflexivity|]. cbn in *.
  unfold is_item at 1. destruct (String.eqb_spec (contentId x) id) as [E|E].
  - exfalso. apply H. now left.
  - cbn. rewrite IH; [reflexivity|]. intros Hin. apply H. now right.
Qed.

Lemma filter_snoc_item (c : Item) (l : list Item) :
  List.filter (fun item => negb (is_item (contentId c) item)) (l ++ [c])
  = List.filter (fun item => negb (is_item (contentId c) item)) l.
Proof.
  rewrite List.filter_app. cbn. unfold is_item at 2.
  rewrite String.eqb_refl. cbn. apply app_nil_r.
Qed.

Lemma ids_filter id (l : list Item) :
  ~ In id (ids (List.filter (fun item => negb (is_item id item)) l)).
Proof.
  unfold ids. rewrite List.in_map_iff. intros (x & Hx & Hin).
  apply List.filter_In in Hin as [_ Hin]. unfold is_item in Hin.
  apply negb_true_iff, String.eqb_neq in Hin. congruence.
Qed.



(** X20: Removing from the favorites or from the watchlist removes every entry
    of the content and nothing else, and undoes an addition: a content that
    was not in the list, added and then removed, leaves the document as it
    was. *)
Theorem removing_undoes_adding (c : Item) (this : Doc) :
  ~ In (contentId c) (ids (favorites this)) ->
  ~ In (contentId c) (ids (watchlist this)) ->
  removeFromFavorites (contentId c) (addToFavorites c this) = this
  /\ removeFromWatchlist (contentId c) (addToWatchlist c this) = this
  /\ (forall id that,
         ~ In id (ids (favorites (removeFromFavorites id that)))
         /\ ~ In id (ids (watchlist (removeFromWatchlist id that)))).
Proof.
  intros Hf Hw. split; [|split].
  - unfold addToFavorites.
    replace (existsb (is_item (contentId c)) (favorites this)) with false
      by (symmetry; apply not_true_is_false; now rewrite existsb_is_item).
    cbn [negb]. unfold removeFromFavorites. cbn [favorites watchlist ratings].
    rewrite filter_snoc_item, (filter_not_item _ _ Hf). now destruct this.
  - unfold addToWatchlist.
    replace (existsb (is_item (contentId c)) (watchlist this)) with false
      by (symmetry; apply not_true_is_false; now rewrite existsb_is_item).
    cbn [negb]. unfold removeFromWatchlist. cbn [favorites watchlist ratings].
    rewrite filter_snoc_item, (filter_not_item _ _ Hw). now destruct this.
  - intros id that. split; apply ids_filter.
Qed.

Lemma removing_undoes_adding_witness :
  removeFromFavorites "524" (addToFavorites casino someone) = someone
  /\ removeFromWatchlist "524" (addToWatchlist casino someone) = someone.
Proof.
  destruct (removing_undoes_adding casino someone) as (Hf & Hw & _).
  - cbn. intros [H|[]]. discriminate.
  - cbn. intros [H|[]]. discriminate.
  - split; [exact Hf|exact Hw].
Defined.










End UserProps.

(** ** The watch history *)

Module WatchHistoryProps.

Import Store Models WatchHistorySpec.








End WatchHistoryProps.

(** ** The pages of the lists of a user *)

Module PagesProps.

Import UserRoutes.










Lemma slice_incl {A} start end_ (l : list A) x :
  In x (slice start end_ l) -> In x l.
Proof.
  unfold slice. intros H. apply RadioProps.firstn_In in H.
  revert H. generalize (Z.to_nat
    (relative (Z.of_nat (List.length l)) (default 0 start))).
  intros k. revert l. induction k as [|k IH]; intros [|y l]; cbn; auto.
Qed.

(** X25: With a [type] in the query, a page of the favorites or of the
    watchlist holds items of that type only, whatever the page and the
    limit are, and [totalItems] counts the items of that type. *)
Theorem pages_of_one_type (query : Query) (user : UserModel.Doc) type :
  q_type query = Some type -> type <> "" ->
  let wanted item := String.eqb (UserModel.contentType item) type in
  (Forall (fun item => UserModel.contentType item = type)
          (data (favorites query user))
   /\ totalItems (pagination (favorites query user))
      = Z.of_nat (List.length (List.filter wanted (UserModel.favorites user))))
  /\ (Forall (fun item => UserModel.contentType item = type)
             (data (watchlist query user))
      /\ totalItems (pagination (watchlist query user))
         = Z.of_nat
             (List.length (List.filter wanted (UserModel.watchlist user)))).
Proof.
  intros Ht Hne wanted.
  assert (Hof : forall l, of_type (q_type query) l = List.filter wanted l).
  { intros l. unfold of_type. rewrite Ht. destruct type; [congruence|].
    reflexivity. }
  unfold favorites, watchlist. rewrite !Hof.
  split; (split; [|reflexivity]); apply List.Forall_forall; intros x Hx;
    apply slice_incl in Hx; apply List.filter_In in Hx as [_ Hx];
    now apply String.eqb_eq in Hx.
Qed.

Lemma pages_of_one_type_witness :
  Forall (fun item => UserModel.contentType item = "tv")
         (data (favorites (mkQuery None None (Some "tv")) UserModel.someone))
  /\ totalItems (pagination (favorites (mkQuery None None (Some "tv"))
                                       UserModel.someone)) = 0.
Proof.
  refine (proj1 (pages_of_one_type (mkQuery None None (Some "tv"))
                   UserModel.someone "tv" _ _)).
  - reflexivity.
  - discriminate.
Defined.

End PagesProps.

(** ** The suggestions route and the YouTube service *)

Module SuggestionsProps.

Import SuggestionsRoute EffFacts.


Lemma slice_to_firstn {A} k (l : list A) :
  0 <= k -> slice_to (Some k) l = firstn (Z.to_nat k) l.
Proof.
  intros Hk. unfold slice_to, Js.slice0.
  now replace (k <? 0) with false by (symmetry; apply Z.ltb_ge; lia).
Qed.

Lemma firstn_firstn_app {A} n (a b : list A) :
  firstn n (firstn n a ++ b) = firstn n (a ++ b).
Proof.
  rewrite !List.firstn_app, List.firstn_firstn, Nat.min_id.
  rewrite List.length_firstn.
  destruct (Nat.le_ge_cases n (List.length a)) as [H|H].
  - rewrite Nat.min_l by exact H.
    now replace (n - List.length a)%nat with (n - n)%nat by lia.
  - now rewrite Nat.min_r by exact H.
Qed.

Section Platform.

Variable getFullYear : string -> option Z.

Let handler := SuggestionsRoute.handler getFullYear.


(** X27: The suggestions are the first [limit] entries of the TMDB results
    followed by the stations: a station is suggested only when TMDB returns
    fewer than [limit] results, although the collection is searched every
    time. *)
Theorem stations_fill_what_tmdb_leaves q limit tmdb find (w w1 : World)
    pg docs k :
  SearchRoute.valid_query q = true ->
  Tmdb.search (default "" q) "1" tmdb w = (Ok pg, w1) ->
  result find = Ok docs ->
  limit_of limit = Some k -> 0 <= k ->
  fst (handler q limit tmdb find w)
  = Ok (mkResponse true
          (firstn (Z.to_nat k)
             (List.map (tmdbSuggestion getFullYear) (TmdbData.results pg)
              ++ List.map radioSuggestion docs)))
  /\ (k <= Z.of_nat (List.length (TmdbData.results pg)) ->
      fst (handler q limit tmdb find w)
      = Ok (mkResponse true
              (List.map (tmdbSuggestion getFullYear)
                        (firstn (Z.to_nat k) (TmdbData.results pg)))))
  /\ calls (snd (handler q limit tmdb find w))
     = calls w1 ++ [RadioStation_find (default "" q) None (Some 5) None].
Proof.
  intros Hv Hs Hf Hk Hpos. unfold handler, SuggestionsRoute.handler.
  rewrite Hv. cbn [negb].
  unfold Eff.try_catch, Eff.bind, Eff.ret, await. rewrite Hs, Hf, Hk.
  cbn [fst snd calls]. rewrite !slice_to_firstn by exact Hpos.
  rewrite <- List.firstn_map, firstn_firstn_app.
  split; [reflexivity|]. split; [|reflexivity].
  intros Hlen. do 2 f_equal.
  rewrite List.firstn_app, List.length_map.
  replace (Z.to_nat k - List.length (TmdbData.results pg))%nat with 0%nat
    by lia.
  cbn [firstn]. now rewrite app_nil_r.
Qed.

End Platform.

Lemma stations_fill_what_tmdb_leaves_witness :
  fst (SuggestionsRoute.handler Examples.utcYear (Some "matrix") (Some "2")
         (Examples.ok Examples.fiveResults)
         (Examples.ok [Examples.radioMatrix]) Examples.freshWorld)
  = Ok (mkResponse true
          (List.map (tmdbSuggestion Examples.utcYear)
             (firstn 2 (TmdbData.results Examples.fiveResults)))).
Proof.
  refine (proj1 (proj2 (stations_fill_what_tmdb_leaves Examples.utcYear
            (Some "matrix") (Some "2") (Examples.ok Examples.fiveResults)
            (Examples.ok [Examples.radioMatrix]) Examples.freshWorld _
            Examples.fiveResults [Examples.radioMatrix] 2 _ _ _ _ _)) _).
  - reflexivity.
  - vm_compute. reflexivity.
  - reflexivity.
  - reflexivity.
  - lia.
  - vm_compute. discriminate.
Defined.

End SuggestionsProps.

Module YouTubeProps.

Import Store YouTube EffFacts.

Lemma searchVideos_outcome query r (w : World) :
  searchVideos query r w
  = (match result r with
     | Ok items => Ok items
     | Throw error =>
         Throw (Error ("YouTube API request failed: " +:+ message_of error))
     end, snd (await (youtube_search (Some query)) r w)).
Proof.
  unfold searchVideos, Eff.try_catch, await, Eff.throw. cbn.
  now destruct (result r).
Qed.

(** What the two trailer searches return for the items of the reply. *)
Lemma best_match (items : list YtItem) :
  let found :=
    if 0 <? Z.of_nat (List.length (List.filter mentions_trailer items))
    then List.filter mentions_trailer items else items in
  (forall item, In item found -> In item items)
  /\ (found = [] <-> items = [])
  /\ (existsb mentions_trailer items = true ->
      Forall (fun item => mentions_trailer item = true) found)
  /\ (existsb mentions_trailer items = false -> found = items).
Proof.
  intros found. subst found.
  destruct (List.filter mentions_trailer items) as [|x l] eqn:E; cbn [List.length].
  - cbn. repeat split; auto.
    + intros H. apply List.existsb_exists in H as (x & Hx & Hm).
      assert (Hin : In x (List.filter mentions_trailer items))
        by (apply List.filter_In; auto).
      rewrite E in Hin. destruct Hin.
  - replace (0 <? Z.of_nat (S (List.length l))) with true
      by (symmetry; apply Z.ltb_lt; lia).
    repeat split.
    + intros item Hin. rewrite <- E in Hin.
      now apply List.filter_In in Hin.
    + discriminate.
    + intros ->. discriminate.
    + intros _. rewrite <- E. apply List.Forall_forall. intros y Hy.
      now apply List.filter_In in Hy.
    + intros H. assert (Hx : In x (List.filter mentions_trailer items))
        by (rewrite E; now left).
      apply List.filter_In in Hx as [Hx Hm].
      assert (existsb mentions_trailer items = true)
        by (apply List.existsb_exists; eauto).
      congruence.
Qed.

(** X28: The trailer searches never throw.  They return an empty list when the
    request fails, and otherwise videos of the reply: those whose title
    mentions 'trailer' or 'official' when there are any, and else all of
    them, so that the list is empty only when YouTube returned no video. *)
Theorem trailer_search_never_throws title n (r : Reply (list YtItem))
    (w : World) :
  forall search,
    search = searchMovieTrailer \/ search = searchTVTrailer ->
    exists found,
      fst (search title n r w) = Ok found
      /\ (forall e, result r = Throw e -> found = [])
      /\ (forall items,
             result r = Ok items ->
             (forall item, In item found -> In item items)
             /\ (found = [] <-> items = [])
             /\ (existsb mentions_trailer items = true ->
                 Forall (fun item => mentions_trailer item = true) found)
             /\ (existsb mentions_trailer items = false -> found = items)).
Proof.
  intros search Hsearch.
  assert (H : exists query,
             search title n r w
             = Eff.try_catch
                 (Eff.bind (searchVideos query r)
                    (fun items =>
                       let trailers := List.filter mentions_trailer items in
                       Eff.ret
                         (if 0 <? Z.of_nat (List.length trailers)
                          then trailers else items)))
                 (fun _ => Eff.ret []) w).
  { destruct Hsearch as [-> | ->]; eexists; reflexivity. }
  destruct H as [query ->].
  unfold Eff.try_catch, Eff.bind, Eff.ret. rewrite searchVideos_outcome.
  destruct (result r) as [items|e]; cbn [fst].
  - eexists. split; [reflexivity|]. split; [discriminate|].
    intros ? [= <-]. apply best_match.
  - exists []. split; [reflexivity|]. split; [reflexivity|]. discriminate.
Qed.

Lemma trailer_search_never_throws_witness :
  exists found,
    fst (searchMovieTrailer "Fight Club" (Some 1999) Examples.timed_out
                            Examples.freshWorld) = Ok found
    /\ found = [].
Proof.
  destruct (trailer_search_never_throws "Fight Club" (Some 1999)
              Examples.timed_out Examples.freshWorld searchMovieTrailer)
    as (found & Hf & He & _).
  - now left.
  - exists found. split; [exact Hf|]. eapply He. reflexivity.
Defined.

End YouTubeProps.
